(** * TsrpcServer: registration, path resolution and the request pipeline

    A shallow embedding of [src/TsrpcServer.ts] (class [TsrpcServer]) and of the
    test handler [test/api/ApiHelloWorld.ts].

    - JavaScript values are the inductive [JsValue]: objects are association
      lists read at their first binding, numbers are those of integer
      literals. The conversion to a string prints a number as JavaScript does
      and throws where JavaScript throws ([toStr], [toStrThrows]).
    - JavaScript strings are [string]s, one [ascii] per code unit.
    - The registry [_implementedUrl] is a [gmap string Entry]: the own
      properties of the object. The members the object inherits
      ([constructor], [toString], ...) are [inherited]: the duplicate test
      of [implementPtl] finds them, the request pipeline does not, since
      they have no member [protocol].
    - Code that can throw and that talks to the console or to the response
      runs in the monad [Run]: a trace of [Event]s and a [Result].
    - A handler or a hook is a function of the request: its effects, and
      whether it returns or throws. What a handler writes to the response
      from a later callback is the effect [SetTimeout]. *)

From Stdlib Require Import ZArith Ascii String Bool List Lia.
From Stdlib Require DecimalString.
From stdpp Require Import base gmap strings.

Local Open Scope Z_scope.

(* ================================================================== *)
(** ** JavaScript strings *)
(* ================================================================== *)

Module JsString.

(** The characters the source names. *)
Definition backslash : ascii := Ascii.ascii_of_nat 92.
Definition slash : ascii := Ascii.ascii_of_nat 47.

(** [s.startsWith(p)] *)
Fixpoint startsWith (s p : string) {struct p} : bool :=
  match p with
  | EmptyString => true
  | String a p' =>
      match s with
      | EmptyString => false
      | String b s' => Ascii.eqb a b && startsWith s' p'
      end
  end.

(** The first [n] code units of [s], and [s] without them. *)
Fixpoint take (n : nat) (s : string) : string :=
  match n, s with
  | S n', String c s' => String c (take n' s')
  | _, _ => EmptyString
  end.

Fixpoint drop (n : nat) (s : string) : string :=
  match n, s with
  | S n', String _ s' => drop n' s'
  | _, _ => s
  end.

(** [s.endsWith(suf)] *)
Definition endsWith (s suf : string) : bool :=
  (String.length suf <=? String.length s)%nat
  && String.eqb (drop (String.length s - String.length suf) s) suf.

(** [s.substr(start, len)] (ECMAScript B.2.3.1): a negative [start] counts
    from the end, [len] is clamped to what is left, a length that is not
    positive gives the empty string. *)
Definition substr (s : string) (start len : Z) : string :=
  let size := Z.of_nat (String.length s) in
  let st := if start <? 0 then Z.max (size + start) 0 else Z.min start size in
  let ln := Z.min (Z.max len 0) (size - st) in
  if ln <=? 0 then EmptyString
  else take (Z.to_nat ln) (drop (Z.to_nat st) s).

(** [s.substr(start)]: to the end of the string. *)
Definition substrFrom (s : string) (start : Z) : string :=
  substr s start (Z.of_nat (String.length s)).

Fixpoint mapChars (f : ascii -> ascii) (s : string) : string :=
  match s with
  | EmptyString => EmptyString
  | String c s' => String (f c) (mapChars f s')
  end.

(** [s.replace(/\\/g, '/')] *)
Definition replaceBackslashes (s : string) : string :=
  mapChars (fun c => if Ascii.eqb c backslash then slash else c) s.

(** [s.replace(/\.js$/, '.ts')]: [$] is the end of the input (no [m] flag). *)
Definition replaceJsExt (s : string) : string :=
  if endsWith s ".js"
  then take (String.length s - 3) s +:+ ".ts"
  else s.

(** The class [\w] is [A-Za-z0-9_]. *)
Definition isWordChar (c : ascii) : bool :=
  let n := Ascii.nat_of_ascii c in
  ((48 <=? n) && (n <=? 57) || (65 <=? n) && (n <=? 90)
   || (97 <=? n) && (n <=? 122) || (n =? 95))%nat.

Fixpoint allWord (s : string) : bool :=
  match s with
  | EmptyString => true
  | String c s' => isWordChar c && allWord s'
  end.

(** [\w+$] matches the whole of [s]. *)
Definition isWordTail (s : string) : bool :=
  match s with
  | EmptyString => false
  | String _ _ => allWord s
  end.

(** [/Ptl(\w+)$/] matches at the head of [s]. *)
Definition ptlMatchHere (s : string) : bool :=
  startsWith s "Ptl" && isWordTail (drop 3 s).

(** [s.replace(/Ptl(\w+)$/, '$1')]: the regular expression is tried at each
    index from the left; the first index where it matches is the match, and
    the match is replaced by its group [(\w+)]. *)
Fixpoint replacePtl (s : string) : string :=
  if ptlMatchHere s then drop 3 s
  else match s with
       | EmptyString => EmptyString
       | String c s' => String c (replacePtl s')
       end.

End JsString.

Import JsString.

(* ================================================================== *)
(** ** JavaScript values *)
(* ================================================================== *)

(** The values a decoded body and a thrown error are made of. [JNum n] is
    the Number the integer literal [n] decodes to: the double nearest to
    [n]. *)
#[warnings="-register-all"]
Inductive JsValue : Type :=
| JUndefined
| JNull
| JBool (b : bool)
| JNum (n : Z)
| JStr (s : string)
| JArr (items : list JsValue)
| JObj (fields : list (string * JsValue)).

(** [!!v] *)
Definition truthy (v : JsValue) : bool :=
  match v with
  | JUndefined | JNull => false
  | JBool b => b
  | JNum n => negb (n =? 0)
  | JStr s => negb (String.eqb s EmptyString)
  | JArr _ | JObj _ => true
  end.

(** [v == null] *)
Definition isNullish (v : JsValue) : bool :=
  match v with
  | JUndefined | JNull => true
  | _ => false
  end.

Fixpoint assoc (k : string) (fields : list (string * JsValue)) : option JsValue :=
  match fields with
  | [] => None
  | (k', v) :: rest => if String.eqb k k' then Some v else assoc k rest
  end.

(** [v.k] for a name [k] that is no built-in property: a primitive has none. *)
Definition getField (v : JsValue) (k : string) : JsValue :=
  match v with
  | JObj fields => match assoc k fields with Some x => x | None => JUndefined end
  | _ => JUndefined
  end.

(** [delete v.k] *)
Definition deleteField (v : JsValue) (k : string) : JsValue :=
  match v with
  | JObj fields => JObj (List.filter (fun kv => negb (String.eqb k (fst kv))) fields)
  | _ => v
  end.

(** The double nearest to the integer [y], for [0 <= y]: 53 significant
    bits are kept, a tie goes to the even one. *)
Definition roundDouble (y : Z) : Z :=
  let sh := Z.log2 y - 52 in
  if sh <=? 0 then y
  else
    let q := Z.shiftr y sh in
    let r := y - Z.shiftl q sh in
    let half := Z.shiftl 1 (sh - 1) in
    Z.shiftl (if (half <? r) || ((r =? half) && Z.odd q) then q + 1 else q) sh.

Definition decimal (n : Z) : string :=
  DecimalString.NilZero.string_of_int (Z.to_int n).

Fixpoint zeros (n : nat) : string :=
  match n with
  | O => EmptyString
  | S n' => String "0" (zeros n')
  end.

(** Number::toString, step 5: the integers [s], [k], [n] with [k] digits in
    [s], as few as possible, such that [s * 10 ^ (n - k)] reads back as the
    double [v] of [d] digits; of two such [s] the nearer to [v], then the
    even one. The search goes from [k] upwards and ends at [k = d] at the
    latest, where [s] is [v]. *)
Fixpoint shortest (fuel : nat) (k : Z) (v d : Z) : Z * Z * Z :=
  match fuel with
  | O => (v, d, d)
  | S fuel' =>
      let e := 10 ^ (d - k) in
      let lo := v / e in
      let hi := lo + 1 in
      let okLo := roundDouble (lo * e) =? v in
      let okHi := roundDouble (hi * e) =? v in
      if okLo || okHi then
        let s :=
          if okLo && okHi then
            if v - lo * e <? hi * e - v then lo
            else if hi * e - v <? v - lo * e then hi
            else if Z.even lo then lo else hi
          else if okLo then lo else hi in
        if s =? 10 ^ k then (1, 1, d + 1) else (s, k, d)
      else shortest fuel' (k + 1) v d
  end.

(** Number::toString for the Number of an integer literal: the digits of
    [s] and [n - k] zeros up to 21 digits ([1e21] is the first number printed
    with an exponent), beyond that one digit, the others after a point, and
    the exponent [n - 1]; a literal that overflows the doubles is
    [Infinity]. An integer up to [2 ^ 53] is printed as it is. *)
Definition numberToString (x : Z) : string :=
  if x =? 0 then "0"
  else
    let sign := if x <? 0 then "-" else EmptyString in
    let v := roundDouble (Z.abs x) in
    if 2 ^ 1024 <=? v then sign +:+ "Infinity"
    else
      let d := Z.of_nat (String.length (decimal v)) in
      let '(s, k, n) := shortest (Z.to_nat d) 1 v d in
      if n <=? 21 then sign +:+ decimal s +:+ zeros (Z.to_nat (n - k))
      else
        match decimal s with
        | EmptyString => EmptyString
        | String c EmptyString => sign +:+ String c ("e+" +:+ decimal (n - 1))
        | String c rest =>
            sign +:+ String c ("." +:+ rest +:+ "e+" +:+ decimal (n - 1))
        end.

(** ToString of a decoded value, as string concatenation, template literals
    and property keys apply it; an array is joined with commas, its [null]
    and [undefined] items left empty. For a value on which the conversion
    throws ([toStrThrows]) the string is not used. *)
Fixpoint toStr (v : JsValue) : string :=
  match v with
  | JUndefined => "undefined"
  | JNull => "null"
  | JBool true => "true"
  | JBool false => "false"
  | JNum n => numberToString n
  | JStr s => s
  | JArr items =>
      (fix join (l : list JsValue) : string :=
         match l with
         | [] => EmptyString
         | x :: rest =>
             let item :=
               match x with
               | JUndefined | JNull => EmptyString
               | _ => toStr x
               end in
             match rest with
             | [] => item
             | _ :: _ => item +:+ "," +:+ join rest
             end
         end) items
  | JObj _ => "[object Object]"
  end.

(** The conversion of a decoded value to a primitive throws a [TypeError]:
    a decoded object with an own member [toString] has no callable
    [toString] (no decoded value is a function), and its inherited [valueOf]
    returns the object; an array is converted through its items. The same
    values throw as a property key, in a template literal, in a
    concatenation and in [==] with a string. *)
Fixpoint toStrThrows (v : JsValue) : bool :=
  match v with
  | JArr items =>
      (fix any (l : list JsValue) : bool :=
         match l with
         | [] => false
         | x :: rest => toStrThrows x || any rest
         end) items
  | JObj fields =>
      match assoc "toString" fields with
      | Some _ => true
      | None => false
      end
  | _ => false
  end.

(** The [TypeError] of such a conversion. *)
Definition notPrimitive : string := "Cannot convert object to primitive value".

(** [v == lit] for a string literal [lit] that is no numeric literal: a
    number, a boolean, [null] and [undefined] never equal it, an array and
    an object are compared through their primitive, when they have one. *)
Definition looseEqStr (v : JsValue) (lit : string) : bool :=
  match v with
  | JStr s => String.eqb s lit
  | JArr _ | JObj _ => String.eqb (toStr v) lit
  | _ => false
  end.

(** [new Error(msg)] and [new TypeError(msg)] *)
Definition jsError (msg : string) : JsValue :=
  JObj [("name", JStr "Error"); ("message", JStr msg)].
Definition jsTypeError (msg : string) : JsValue :=
  JObj [("name", JStr "TypeError"); ("message", JStr msg)].

(* ================================================================== *)
(** ** Effects, exceptions and the monad of the server code *)
(* ================================================================== *)

Inductive LogLevel : Type := LLog | LWarn | LError.

(** What is written to the response.

    Modelled from the spec: [res.succ] and [res.error] are defined by
    [middlewares/ApiResponseExtend], which is not among the sources. A call
    [res.succ(payload)] writes the success envelope of [payload], a call
    [res.error(message, info)] the error envelope of [message] and [info];
    [WSend] is Express' own [res.status(s).send(text)]. *)
Inductive ResWrite : Type :=
| WSend (status : Z) (text : string)
| WSucc (payload : JsValue)
| WError (message : string) (info : JsValue).

Definition isEnvelope (w : ResWrite) : bool :=
  match w with
  | WSend _ _ => false
  | WSucc _ | WError _ _ => true
  end.

(** What any code of the server, a handler or a hook does to the world. *)
Inductive Effect : Type :=
| Console (lvl : LogLevel) (values : list JsValue)
| Respond (w : ResWrite)
| SetTimeout (ms : Z) (later : ResWrite).

(** The functions the dispatcher calls. *)
Inductive Callee : Type :=
| CHandler
| COnPtlNotFound
| COnUnhandledApiError
| COnApiComplete.

(** The trace of a run: effects, and the calls of handlers and hooks. *)
Inductive Event : Type :=
| Eff (e : Effect)
| Invoke (c : Callee).

(** A thrown value is an instance of [TsrpcError] or anything else. *)
Inductive Thrown : Type :=
| TsrpcError (message : string) (info : JsValue)
| OtherError (e : JsValue).

Inductive Result (A : Type) : Type :=
| Ok (a : A)
| Throw (e : Thrown).
Arguments Ok {A} a.
Arguments Throw {A} e.

Definition Run (A : Type) : Type := (list Event * Result A)%type.

#[global] Instance Run_ret : MRet Run := fun A a => ([], Ok a).

#[global] Instance Run_bind : MBind Run := fun A B f m =>
  match m with
  | (tr, Ok a) => let '(tr', r) := f a in (tr ++ tr', r)
  | (tr, Throw e) => (tr, Throw e)
  end.

Definition throw {A : Type} (e : Thrown) : Run A := ([], Throw e).

Definition emit (ev : Event) : Run unit := ([ev], Ok tt).

(** [try { m } catch (e) { h e }] *)
Definition tryCatch {A : Type} (m : Run A) (h : Thrown -> Run A) : Run A :=
  match m with
  | (tr, Throw e) => let '(tr', r) := h e in (tr ++ tr', r)
  | (tr, Ok a) => (tr, Ok a)
  end.

Definition console (lvl : LogLevel) (values : list JsValue) : Run unit :=
  emit (Eff (Console lvl values)).

Definition res_send (status : Z) (text : string) : Run unit :=
  emit (Eff (Respond (WSend status text))).

Definition res_error (message : string) (info : JsValue) : Run unit :=
  emit (Eff (Respond (WError message info))).

(** User code (a handler, a hook): its effects, then a normal return or a
    thrown value. The handler is awaited, so the rejected promise of an
    [async] handler is a thrown value; a hook is called without [await], so
    for a hook only what it throws before it returns is. *)
Definition UserRun : Type := (list Effect * option Thrown)%type.

(** The dispatcher calling user code [c]. *)
Definition call (c : Callee) (r : UserRun) : Run unit :=
  (Invoke c :: map Eff (fst r),
   match snd r with
   | None => Ok tt
   | Some e => Throw e
   end).

(** The writes to the response among the effects of user code. *)
Fixpoint writes (effects : list Effect) : list ResWrite :=
  match effects with
  | [] => []
  | Respond w :: rest => w :: writes rest
  | _ :: rest => writes rest
  end.

(** What the client is sent: the writes to the response, in order. *)
Fixpoint clientView (tr : list Event) : list ResWrite :=
  match tr with
  | [] => []
  | Eff (Respond w) :: tr' => w :: clientView tr'
  | _ :: tr' => clientView tr'
  end.

Definition invoked (c : Callee) (ev : Event) : bool :=
  match ev, c with
  | Invoke CHandler, CHandler
  | Invoke COnPtlNotFound, COnPtlNotFound
  | Invoke COnUnhandledApiError, COnUnhandledApiError
  | Invoke COnApiComplete, COnApiComplete => true
  | _, _ => false
  end.

(** How many times [c] is called in a trace. *)
Definition calls (c : Callee) (tr : list Event) : nat :=
  length (List.filter (fun ev => invoked c ev) tr).

(* ================================================================== *)
(** ** The server: configuration, registry, requests *)
(* ================================================================== *)

(** [TsrpcPtl]: the fields of a protocol the server reads. *)
Record TsrpcPtl : Type := {
  name : string;
  filename : string
}.

(** The result of [IValidator.validate]. *)
Record OriginalError : Type := {
  fieldName : string;
  message : string
}.

Record ValidateResult : Type := {
  isError : bool;
  originalError : OriginalError
}.

(** [IValidator], by its method [validate] (package ts-interface-validator). *)
Definition IValidator : Type := JsValue -> ValidateResult.

(** [ApiRequest]: the Express request with what [ApiRequestExtend] and the
    server's own middleware attach to it. [args] is the decoded body, falsy
    when there is none; [rpcPtl] is [None] for [undefined] and [null]. *)
Record ApiRequest : Type := {
  url : string;
  path : string;
  body : JsValue;
  reqId : JsValue;
  realIp : JsValue;
  args : JsValue;
  rpcUrl : JsValue;
  rpcPtl : option TsrpcPtl
}.

(** [ApiResponse]: the tag [(res as any).apiPreCheckError], an array of the
    two arguments of [res.error]. *)
Record ApiResponse : Type := {
  apiPreCheckError : option (string * JsValue)
}.

Definition ApiHandler : Type := ApiRequest -> UserRun.

Record Entry : Type := {
  protocol : TsrpcPtl;
  handler : ApiHandler;
  reqValidator : IValidator
}.

(** [ServerConfig]: the options the modelled code reads. *)
Record ServerConfig : Type := {
  protocolPath : string;
  urlRootPath : string;
  hideApiPath : bool;
  showParamInvalidReason : bool;
  logRequestDetail : bool
}.

(** What a router handler of [_routerBeforeApiHandler] leaves: it called
    [next()], or it ended the request itself. *)
Inductive RouterResult : Type :=
| RouterNext (effects : list Effect) (req : ApiRequest) (res : ApiResponse)
| RouterEnd (effects : list Effect).

(** [TsrpcServer]: its configuration, the registry [_implementedUrl], the
    three hooks, the router of the handlers added by [use], [get] and [post],
    and the validator manager the server asks ([ValidatorManager.instance]). *)
Record TsrpcServer : Type := {
  config : ServerConfig;
  _implementedUrl : gmap string Entry;
  onPtlNotFound : ApiRequest -> UserRun;
  onUnhandledApiError : JsValue -> ApiRequest -> UserRun;
  onApiComplete : option (ApiRequest -> UserRun);
  _routerBeforeApiHandler : ApiRequest -> ApiResponse -> RouterResult;
  getValidator : string -> string -> IValidator
}.

Definition set_implementedUrl (srv : TsrpcServer) (m : gmap string Entry) : TsrpcServer :=
  {| config := config srv;
     _implementedUrl := m;
     onPtlNotFound := onPtlNotFound srv;
     onUnhandledApiError := onUnhandledApiError srv;
     onApiComplete := onApiComplete srv;
     _routerBeforeApiHandler := _routerBeforeApiHandler srv;
     getValidator := getValidator srv |}.

(** The hooks as the class defines them. *)
Definition default_onPtlNotFound (req : ApiRequest) : UserRun :=
  ([Respond (WError "404 Not Found" (JStr "PTL_NOT_FOUND"))], None).

Definition default_onUnhandledApiError (err : JsValue) (req : ApiRequest) : UserRun :=
  ([Console LError [rpcUrl req; args req; err];
    Respond (WError "Internal Server Error" (JStr "UNHANDLED_API_ERROR"))], None).

(** [Express.Router()] with no handler added. *)
Definition emptyRouter (req : ApiRequest) (res : ApiResponse) : RouterResult :=
  RouterNext [] req res.

(** [new TsrpcServer(conf)], for a configuration already merged with the
    defaults and with [autoImplement] off: [urlRootPath] is made to end with
    a slash, the registry is empty, the hooks are the class's own. *)
Definition newTsrpcServer (conf : ServerConfig)
    (validators : string -> string -> IValidator) : TsrpcServer :=
  {| config :=
       {| protocolPath := protocolPath conf;
          urlRootPath :=
            if endsWith (urlRootPath conf) "/" then urlRootPath conf
            else urlRootPath conf +:+ "/";
          hideApiPath := hideApiPath conf;
          showParamInvalidReason := showParamInvalidReason conf;
          logRequestDetail := logRequestDetail conf |};
     _implementedUrl := ∅;
     onPtlNotFound := default_onPtlNotFound;
     onUnhandledApiError := default_onUnhandledApiError;
     onApiComplete := None;
     _routerBeforeApiHandler := emptyRouter;
     getValidator := validators |}.

(* ------------------------------------------------------------------ *)
(** *** Registration *)

(** The registry is an object literal: besides its own properties, the
    paths registered, a lookup finds the members it inherits. These are the
    members of [Object.prototype]; and once an entry is registered at the path
    [__proto__], an assignment that makes the entry the prototype of the
    registry, the three fields of that entry. All of them are truthy. *)
Definition objectPrototypeMembers : list string :=
  ["constructor"; "hasOwnProperty"; "isPrototypeOf"; "propertyIsEnumerable";
   "toLocaleString"; "toString"; "valueOf"; "__proto__";
   "__defineGetter__"; "__defineSetter__"; "__lookupGetter__"; "__lookupSetter__"].

Definition entryMembers : list string := ["protocol"; "handler"; "reqValidator"].

Definition inherited (registry : gmap string Entry) (k : string) : bool :=
  existsb (String.eqb k) objectPrototypeMembers
  || match registry !! "__proto__" with
     | Some _ => existsb (String.eqb k) entryMembers
     | None => false
     end.

(** [this._implementedUrl[url]] as a condition. *)
Definition implemented (srv : TsrpcServer) (url : string) : bool :=
  match _implementedUrl srv !! url with
  | Some _ => true
  | None => inherited (_implementedUrl srv) url
  end.

(** [getPtlUrl] *)
Definition getPtlUrl (srv : TsrpcServer) (ptl : TsrpcPtl) : Run string :=
  let filename := replaceJsExt (filename ptl) in
  let root := protocolPath (config srv) in
  if negb (startsWith filename root) || negb (endsWith filename ".ts") then
    throw (OtherError (jsError ("Protocol is not in the protocolPath : " +:+ filename)))
  else
    mret (replacePtl (replaceBackslashes
            (substr filename (Z.of_nat (String.length root))
               (Z.of_nat (String.length filename)
                - Z.of_nat (String.length root) - 3)))).

(** [implementPtl] *)
Definition implementPtl (srv : TsrpcServer) (protocol : TsrpcPtl)
    (handler : ApiHandler) : Run TsrpcServer :=
  url ← getPtlUrl srv protocol;
  (if implemented srv url then
     console LWarn
       [JStr ("You are implementing a duplicated protocol: " +:+ filename protocol);
        JStr ("url=" +:+ url)]
   else mret tt);;
  let reqValidator :=
    getValidator srv ("Req" +:+ name protocol) (replaceJsExt (filename protocol)) in
  let srv' :=
    set_implementedUrl srv
      (<[url := {| protocol := protocol; handler := handler;
                   reqValidator := reqValidator |}]> (_implementedUrl srv)) in
  console LLog [JStr "Protocol registered succ: "; JStr url; JStr (filename protocol)];;
  mret srv'.

(* ------------------------------------------------------------------ *)
(** *** The request pipeline of [init] *)

Definition setPreCheckError (res : ApiResponse) (message info : string) : ApiResponse :=
  {| apiPreCheckError := Some (message, JStr info) |}.

Definition setRpcUrl (req : ApiRequest) (u : JsValue) : ApiRequest :=
  {| url := url req; path := path req; body := body req; reqId := reqId req;
     realIp := realIp req; args := args req; rpcUrl := u; rpcPtl := rpcPtl req |}.

Definition setArgs (req : ApiRequest) (a : JsValue) : ApiRequest :=
  {| url := url req; path := path req; body := body req; reqId := reqId req;
     realIp := realIp req; args := a; rpcUrl := rpcUrl req; rpcPtl := rpcPtl req |}.

Definition setRpcPtl (req : ApiRequest) (p : option TsrpcPtl) : ApiRequest :=
  {| url := url req; path := path req; body := body req; reqId := reqId req;
     realIp := realIp req; args := args req; rpcUrl := rpcUrl req; rpcPtl := p |}.

(** The entry [this._implementedUrl[key]] gives: the key is converted to a
    string; there is none for a key that cannot be converted. *)
Definition registered (srv : TsrpcServer) (key : JsValue) : option Entry :=
  if toStrThrows key then None else _implementedUrl srv !! toStr key.

(** The end of the middleware "Check if protocol registered": the check of
    [req.rpcUrl] and the registry lookup. When the lookup throws, [rpcPtl] is
    not assigned: it is left unset, as on a request that comes in. *)
Definition resolveRpcPtl (srv : TsrpcServer) (req : ApiRequest) (res : ApiResponse)
    : ApiRequest * ApiResponse :=
  if negb (truthy (rpcUrl req)) then
    (req, setPreCheckError res "Request cannot be resolved" "REQ_CANT_BE_RESOLVED")
  else
    (setRpcPtl req
       match registered srv (rpcUrl req) with
       | Some e => Some (protocol e)
       | None => None
       end,
     res).

(** The middleware "Check if protocol registered"; each branch ends with
    [next()], so it returns the request and the response it leaves. The one
    way not to reach [next()] is [checkProtocolRegistered_throws] below. *)
Definition checkProtocolRegistered (srv : TsrpcServer) (req : ApiRequest)
    (res : ApiResponse) : ApiRequest * ApiResponse :=
  if negb (truthy (args req)) then (req, res)
  else if hideApiPath (config srv) then
    if isNullish (getField (args req) "__tsrpc_url__") then
      (req, setPreCheckError res
              "HideApiPath is enabled, set it to true too in your client config."
              "REQ_CANT_BE_RESOLVED")
    else
      let req1 := setRpcUrl req (getField (args req) "__tsrpc_url__") in
      let req2 := setArgs req1 (deleteField (args req1) "__tsrpc_url__") in
      resolveRpcPtl srv req2 res
  else
    if truthy (getField (args req) "__tsrpc_url__") then
      (req, setPreCheckError res
              "HideApiPath is disabled, set it to false too in your client config."
              "REQ_CANT_BE_RESOLVED")
    else if startsWith (path req) (urlRootPath (config srv)) then
      let req1 :=
        setRpcUrl req
          (JStr ("/" +:+ substrFrom (path req)
                           (Z.of_nat (String.length (urlRootPath (config srv)))))) in
      resolveRpcPtl srv req1 res
    else
      (req, setPreCheckError res "Invalid path" "INVALID_PATH").

(** [this._implementedUrl[req.rpcUrl].member]: a key that cannot be
    converted throws a [TypeError], and so does reading a member of
    [undefined]. *)
Definition registeredEntry (srv : TsrpcServer) (key : JsValue) : Run Entry :=
  match registered srv key with
  | Some e => mret e
  | None =>
      throw (OtherError
               (jsTypeError (if toStrThrows key then notPrimitive
                             else "Cannot read properties of undefined")))
  end.

(** The final router, "api handler". *)
Definition apiHandler (srv : TsrpcServer) (req : ApiRequest) (res : ApiResponse)
    : Run unit :=
  if negb (truthy (args req)) then
    console LError [JStr "Invalid Request Body"; JStr (url req); body req];;
    res_send 400 "Invalid Request Body"
  else
    match apiPreCheckError res with
    | Some (msg, info) => res_error msg info
    | None =>
        match rpcPtl req with
        | None => call COnPtlNotFound (onPtlNotFound srv req)
        | Some _ =>
            console LLog
              [JStr "[ApiReq]"; JStr ("#" +:+ toStr (reqId req)); rpcUrl req;
               realIp req;
               if logRequestDetail (config srv) then args req else JStr EmptyString];;
            entry ← registeredEntry srv (rpcUrl req);
            let validateResult := reqValidator entry (args req) in
            if isError validateResult then
              let originalError := originalError validateResult in
              let detail := fieldName originalError +:+ ": " +:+ message originalError in
              let reason :=
                if showParamInvalidReason (config srv) then detail
                else "Invalid Request Parameter" in
              console LWarn [JStr "Invalid Request Parameter"; rpcUrl req; JStr detail];;
              res_error reason (JStr "INVALID_REQ_PARAM")
            else
              tryCatch
                (entry' ← registeredEntry srv (rpcUrl req);
                 call CHandler (handler entry' req))
                (fun e =>
                   match e with
                   | TsrpcError msg info => res_error msg info
                   | OtherError err =>
                       call COnUnhandledApiError (onUnhandledApiError srv err req)
                   end);;
              match onApiComplete srv with
              | Some hook => call COnApiComplete (hook req)
              | None => mret tt
              end
        end
    end.

(** The lookup [this._implementedUrl[req.rpcUrl]] that ends the middleware
    throws a [TypeError] when [req.rpcUrl] cannot be converted to a property
    key. The lookup is reached with a truthy [req.rpcUrl]; on a server that
    reads the path from the URL that is a string, on a server that hides the
    path it is the reserved field of the arguments. The middleware then
    leaves without [next()]: no later handler of the chain runs. *)
Definition checkProtocolRegistered_throws (srv : TsrpcServer) (req : ApiRequest) : bool :=
  truthy (args req)
  && hideApiPath (config srv)
  && negb (isNullish (getField (args req) "__tsrpc_url__"))
  && truthy (getField (args req) "__tsrpc_url__")
  && toStrThrows (getField (args req) "__tsrpc_url__").

(** The request passes every check the final router makes before it calls
    the handler, and [e] is the entry of its path. *)
Definition dispatchable (srv : TsrpcServer) (req : ApiRequest) (res : ApiResponse)
    (e : Entry) : Prop :=
  truthy (args req) = true
  ∧ apiPreCheckError res = None
  ∧ rpcPtl req ≠ None
  ∧ registered srv (rpcUrl req) = Some e
  ∧ isError (reqValidator e (args req)) = false.

(** What the completion hook, when there is one, writes to the response. *)
Definition completionWrites (srv : TsrpcServer) (req : ApiRequest) : list ResWrite :=
  match onApiComplete srv with
  | Some hook => writes (fst (hook req))
  | None => []
  end.

(** The handler of the request's path and the completion hook write
    nothing but envelopes: they answer through [res.succ] and [res.error]. *)
Definition userWritesEnvelopes (srv : TsrpcServer) (req : ApiRequest) : Prop :=
  (∀ e, registered srv (rpcUrl req) = Some e →
        forallb isEnvelope (writes (fst (handler e req))) = true)
  ∧ forallb isEnvelope (completionWrites srv req) = true.

(** [srv] with the option [hideApiPath] set to [b]. *)
Definition withHideApiPath (b : bool) (srv : TsrpcServer) : TsrpcServer :=
  {| config :=
       {| protocolPath := protocolPath (config srv);
          urlRootPath := urlRootPath (config srv);
          hideApiPath := b;
          showParamInvalidReason := showParamInvalidReason (config srv);
          logRequestDetail := logRequestDetail (config srv) |};
     _implementedUrl := _implementedUrl srv;
     onPtlNotFound := onPtlNotFound srv;
     onUnhandledApiError := onUnhandledApiError srv;
     onApiComplete := onApiComplete srv;
     _routerBeforeApiHandler := _routerBeforeApiHandler srv;
     getValidator := getValidator srv |}.

(** A hook that returns normally, whatever it is called with. *)
Definition returnsNormally {A : Type} (hook : A → UserRun) : Prop :=
  ∀ a, snd (hook a) = None.

(** Names for three parts of the final router: the line it logs for a
    request it validates, its [catch] block, and its last statement. *)
Definition requestLog (srv : TsrpcServer) (req : ApiRequest) : Event :=
  Eff (Console LLog
         [JStr "[ApiReq]"; JStr ("#" +:+ toStr (reqId req)); rpcUrl req; realIp req;
          if logRequestDetail (config srv) then args req else JStr EmptyString]).

Definition caught (srv : TsrpcServer) (req : ApiRequest) (e : Thrown) : Run unit :=
  match e with
  | TsrpcError msg info => res_error msg info
  | OtherError err => call COnUnhandledApiError (onUnhandledApiError srv err req)
  end.

Definition completion (srv : TsrpcServer) (req : ApiRequest) : Run unit :=
  match onApiComplete srv with
  | Some hook => call COnApiComplete (hook req)
  | None => mret tt
  end.

(** A request as it reaches the server's own middleware: [rpcUrl] and
    [rpcPtl] are not set yet. *)
Definition incoming (url path : string) (body reqId realIp args : JsValue) : ApiRequest :=
  {| url := url; path := path; body := body; reqId := reqId; realIp := realIp;
     args := args; rpcUrl := JUndefined; rpcPtl := None |}.

Definition freshResponse : ApiResponse := {| apiPreCheckError := None |}.

(** The chain of [init] from "Check if protocol registered" on: that
    middleware, the router [_routerBeforeApiHandler], the final router. What
    is thrown leaves the chain to Express. *)
Definition handleRequest (srv : TsrpcServer) (req : ApiRequest) : Run unit :=
  if checkProtocolRegistered_throws srv req then
    throw (OtherError (jsTypeError notPrimitive))
  else
    let '(req1, res1) := checkProtocolRegistered srv req freshResponse in
    match _routerBeforeApiHandler srv req1 res1 with
    | RouterEnd effects => (map Eff effects, Ok tt)
    | RouterNext effects req2 res2 =>
        let '(tr, r) := apiHandler srv req2 res2 in (map Eff effects ++ tr, r)
    end.

(* ------------------------------------------------------------------ *)
(** *** The test handler [ApiHelloWorld] *)

(** The first comparison converts a name that is an object or an array, and
    throws for a name that cannot be converted. *)
Definition ApiHelloWorld (req : ApiRequest) : UserRun :=
  let name := getField (args req) "name" in
  if toStrThrows name then
    ([], Some (OtherError (jsTypeError notPrimitive)))
  else if looseEqStr name "Error" then
    ([], Some (OtherError (jsError "Error")))
  else if looseEqStr name "TsrpcError" then
    ([], Some (TsrpcError "TsrpcError" (JStr "TsrpcError")))
  else if looseEqStr name "Delay" then
    ([SetTimeout 100 (WSucc (JObj [("reply", JStr "Hello, Delay!")]))], None)
  else
    ([Respond (WSucc (JObj [("reply",
         JStr ("Hello, " +:+ toStr (if truthy name then name else JStr "world") +:+ "!"))]))],
     None).

(* ================================================================== *)
(** ** The specification's wording of path resolution *)
(* ================================================================== *)

Module Spec.

Fixpoint hasSlash (s : string) : bool :=
  match s with
  | EmptyString => false
  | String c s' => Ascii.eqb c slash || hasSlash s'
  end.

(** "strip a fixed name-prefix token from the final path segment": the
    final segment is what follows the last slash; the token is dropped
    when the segment starts with it. *)
Fixpoint stripNamePrefix (s : string) : string :=
  if hasSlash s then
    match s with
    | EmptyString => EmptyString
    | String c s' => String c (stripNamePrefix s')
    end
  else if startsWith s "Ptl" then drop 3 s else s.

(** "require it to start with a configured root and end with a fixed
    suffix, else fail; strip both; normalize directory separators to forward
    slash; strip a fixed name-prefix token from the final path segment". *)
Definition resolve (root location : string) : option string :=
  if startsWith location root && endsWith location ".ts" then
    let rest := drop (String.length root) location in
    Some (stripNamePrefix
            (replaceBackslashes (take (String.length rest - 3) rest)))
  else None.

(** The pattern matches at some index after the head of [s]. *)
Fixpoint ptlMatchLater (s : string) : bool :=
  match s with
  | EmptyString => false
  | String _ s' => ptlMatchHere s' || ptlMatchLater s'
  end.

(** The token stripped "at its last occurrence followed by one or more
    word characters extending to the end of the path". *)
Fixpoint stripPtlLast (s : string) : string :=
  match s with
  | EmptyString => EmptyString
  | String c s' =>
      if ptlMatchLater s then String c (stripPtlLast s')
      else if ptlMatchHere s then drop 3 s
      else s
  end.

End Spec.

(** The pattern [/Ptl(\w+)$/] matches [s] at index [i]. *)
Definition PtlAt (s : string) (i : nat) : Prop :=
  ∃ w, drop i s = "Ptl" +:+ w ∧ w ≠ EmptyString ∧ allWord w = true.

(** [r] is [s] without the token of the first match of the pattern, or [s]
    itself when the pattern matches nowhere. *)
Definition firstPtlStripped (s r : string) : Prop :=
  (∃ i, PtlAt s i ∧ (∀ j, (j < i)%nat → ¬ PtlAt s j)
        ∧ r = take i s +:+ drop (i + 3) s)
  ∨ ((∀ j, ¬ PtlAt s j) ∧ r = s).

(* ================================================================== *)
(** ** Servers and requests of the scenarios *)
(* ================================================================== *)

Module Scenario.

Definition PtlHello : TsrpcPtl :=
  {| name := "Hello"; filename := "/proto/PtlHello.ts" |}.

(** A validator that accepts every value. *)
Definition acceptAll : IValidator := fun _ =>
  {| isError := false;
     originalError := {| fieldName := EmptyString; message := EmptyString |} |}.

Definition conf (hide : bool) : ServerConfig :=
  {| protocolPath := "/proto"; urlRootPath := "/"; hideApiPath := hide;
     showParamInvalidReason := false; logRequestDetail := false |}.

(** The server with [Hello] implemented by [h]; should the registration
    throw, the server is left as constructed. *)
Definition serverWith (hide : bool) (validators : string -> string -> IValidator)
    (h : ApiHandler) : TsrpcServer :=
  let srv := newTsrpcServer (conf hide) validators in
  match implementPtl srv PtlHello h with
  | (_, Ok srv') => srv'
  | (_, Throw _) => srv
  end.

(** The server of the tests: [Hello] implemented by [ApiHelloWorld], every
    request accepted by the validator. *)
Definition server (hide : bool) : TsrpcServer :=
  serverWith hide (fun _ _ => acceptAll) ApiHelloWorld.

(** A handler that throws the untyped error [err]. *)
Definition throwing (err : JsValue) : ApiHandler :=
  fun _ => ([], Some (OtherError err)).

(** [srv] with a completion hook. *)
Definition withOnApiComplete (srv : TsrpcServer) (hook : ApiRequest -> UserRun)
    : TsrpcServer :=
  {| config := config srv;
     _implementedUrl := _implementedUrl srv;
     onPtlNotFound := onPtlNotFound srv;
     onUnhandledApiError := onUnhandledApiError srv;
     onApiComplete := Some hook;
     _routerBeforeApiHandler := _routerBeforeApiHandler srv;
     getValidator := getValidator srv |}.

(** A completion hook that throws. *)
Definition failingHook : ApiRequest -> UserRun :=
  fun _ => ([], Some (OtherError (jsError "audit failed"))).

(** A completion hook that logs and returns. *)
Definition auditHook : ApiRequest -> UserRun :=
  fun req => ([Console LLog [JStr "complete"; rpcUrl req]], None).

(** A validator that rejects every value. *)
Definition rejectAll : IValidator := fun _ =>
  {| isError := true;
     originalError := {| fieldName := "name"; message := "must be a string" |} |}.

(** The entry of [Hello] in the registry of [server]. *)
Definition helloEntry : Entry :=
  {| protocol := PtlHello; handler := ApiHelloWorld; reqValidator := acceptAll |}.

(** A request to [/Hello] with the decoded body [args]. *)
Definition request (args : JsValue) : ApiRequest :=
  incoming "/Hello" "/Hello" JUndefined (JNum 1) (JStr "127.0.0.1") args.

(** The request as the server's own middleware leaves it. *)
Definition routed (srv : TsrpcServer) (args : JsValue) : ApiRequest :=
  fst (checkProtocolRegistered srv (request args) freshResponse).

Definition world : JsValue := JObj [("name", JStr "world")].

Definition helloWorld : JsValue := JObj [("reply", JStr "Hello, world!")].

(** The body of the field-addressed request, with the reserved field of
    the code and with the name the specification gives the field. *)
Definition hiddenWorld : JsValue :=
  JObj [("__tsrpc_url__", JStr "/Hello"); ("name", JStr "world")].
Definition renamedWorld : JsValue :=
  JObj [("__rpc_path__", JStr "/Hello"); ("name", JStr "world")].

(** A body with the reserved field present and empty. *)
Definition emptyUrlWorld : JsValue :=
  JObj [("__tsrpc_url__", JStr EmptyString); ("name", JStr "world")].

(** The bodies of the two error scenarios of the tests. *)
Definition nameError : JsValue := JObj [("name", JStr "Error")].
Definition nameTsrpcError : JsValue := JObj [("name", JStr "TsrpcError")].

(** A second server, whose handler throws a string. *)
Definition secret : JsValue := JStr "secret".
Definition secretServer : TsrpcServer :=
  serverWith false (fun _ _ => acceptAll) (throwing secret).
Definition secretEntry : Entry :=
  {| protocol := PtlHello; handler := throwing secret; reqValidator := acceptAll |}.

End Scenario.

(* ================================================================== *)
(** ** The constructor *)
(* ================================================================== *)

(** The options the constructor reads besides those of [ServerConfig]:
    [logFiles] (any value, tested for truthiness), [autoImplement] and
    [apiPath] (a string when it is set). *)
Record SetupOptions : Type := {
  logFiles : JsValue;
  autoImplement : bool;
  apiPath : option string
}.

(** What the constructor does besides building the server: the call
    [EnableLog4js(logFiles)], a line on the console, the call
    [AutoImplementProtocol(this, protocolPath, apiPath)]. *)
Inductive SetupEvent : Type :=
| EnableLog4js (files : JsValue)
| SetupLog (text : string)
| CallAutoImplement (protocolPath apiPath : string).

Definition newline : string := String (Ascii.ascii_of_nat 10) EmptyString.

(** [result.map((v, i) => `    ${i + 1}. ` + v)], from index [i] on. *)
Fixpoint numbered (i : nat) (result : list string) : list string :=
  match result with
  | [] => []
  | v :: rest =>
      ("    " +:+ toStr (JNum (Z.of_nat i + 1)) +:+ ". " +:+ v) :: numbered (S i) rest
  end.

(** [lines.join('\n')] *)
Fixpoint joinLines (lines : list string) : string :=
  match lines with
  | [] => EmptyString
  | [l] => l
  | l :: rest => l +:+ newline +:+ joinLines rest
  end.

(** [!this.config.apiPath] *)
Definition apiPathMissing (p : option string) : bool :=
  match p with
  | Some s => String.eqb s EmptyString
  | None => true
  end.

(** [new TsrpcServer(conf)], with the branches on [logFiles] and
    [autoImplement]. The configuration is the one already merged with the
    defaults. [auto] stands for [models/AutoImplementProtocol], which is not
    among the sources: called on the server under construction it returns the
    server it leaves and [null] ([None]) or a list of messages. *)
Definition construct
    (auto : TsrpcServer -> string -> string -> TsrpcServer * option (list string))
    (validators : string -> string -> IValidator)
    (conf : ServerConfig) (opts : SetupOptions)
    : list SetupEvent * Result TsrpcServer :=
  let this := newTsrpcServer conf validators in
  let logging := if truthy (logFiles opts) then [EnableLog4js (logFiles opts)] else [] in
  if autoImplement opts then
    if apiPathMissing (apiPath opts) then
      (logging,
       Throw (OtherError (jsError "Must set apiPath when autoImplement is enabled")))
    else
      let path := match apiPath opts with Some s => s | None => EmptyString end in
      let started :=
        logging ++ [SetupLog "Start auto implement protocol...";
                    CallAutoImplement (protocolPath (config this)) path] in
      match auto this (protocolPath (config this)) path with
      | (this', None) => (started ++ [SetupLog "Auto implement protocol succ"], Ok this')
      | (_, Some result) =>
          (started,
           Throw (OtherError
                    (jsError ("Auto implement protocol failed:" +:+ newline
                              +:+ joinLines (numbered 0 result)))))
      end
  else (logging, Ok this).

(* ================================================================== *)
(** ** Listening: [init], [start], [stop] *)
(* ================================================================== *)

Module Listener.

(** The two private fields the three methods keep: whether [_expressApp] is
    set, and [_server], here the port its server was asked to listen on. *)
Record State : Type := {
  _expressApp : bool;
  _server : option JsValue
}.

Inductive NetEvent : Type :=
| BuildApp
| NetLog (lvl : LogLevel) (text : string)
| Listen (port : JsValue)
| Close (port : JsValue).

Definition created : State := {| _expressApp := false; _server := None |}.

(** [init]: the Express application and its chain of middleware are built
    on the first call only. *)
Definition init (st : State) : State * list NetEvent :=
  if _expressApp st then (st, [])
  else ({| _expressApp := true; _server := _server st |},
        [BuildApp; NetLog LLog "TSRPC inited succ"]).

(** What [this._expressApp.listen(port, callback)] does: it throws; or it
    returns a server and calls back once the server listens; or it returns a
    server and never calls back (a port that is taken is told by the [error]
    event of the server, not by an exception). *)
Inductive Listening : Type :=
| ListenThrows (e : Thrown)
| ListenCallsBack
| ListenSilent.

(** The promise [start] returns: resolved by the callback of [listen],
    rejected in the [catch] block, or left pending. *)
Inductive Started : Type :=
| Resolved
| Rejected (e : Thrown)
| Pending.

(** [start(port)]. [listen] stands for [this._expressApp.listen]; [_server]
    is assigned when [listen] returns. The port is a number. *)
Definition start (listen : JsValue -> Listening) (defaultPort : JsValue)
    (st : State) (port : JsValue) : State * list NetEvent * Started :=
  let '(st1, built) := init st in
  let port := if truthy port then port else defaultPort in
  match listen port with
  | ListenCallsBack =>
      ({| _expressApp := _expressApp st1; _server := Some port |},
       built ++ [Listen port;
                 NetLog LLog ("Server started at " +:+ toStr port +:+ "...")],
       Resolved)
  | ListenSilent =>
      ({| _expressApp := _expressApp st1; _server := Some port |},
       built ++ [Listen port],
       Pending)
  | ListenThrows e =>
      (st1,
       built ++ [Listen port;
                 NetLog LError ("Port " +:+ toStr port +:+ " is already in use.")],
       Rejected e)
  end.

(** [stop]: [this._server && this._server.close(); delete this._server]. *)
Definition stop (st : State) : State * list NetEvent :=
  ({| _expressApp := _expressApp st; _server := None |},
   match _server st with
   | Some port => [Close port]
   | None => []
   end).

Definition isListen (ev : NetEvent) : bool :=
  match ev with Listen _ => true | _ => false end.
Definition isClose (ev : NetEvent) : bool :=
  match ev with Close _ => true | _ => false end.
Definition isBuildApp (ev : NetEvent) : bool :=
  match ev with BuildApp => true | _ => false end.

(** A [listen] that calls back on every port. *)
Definition listens : JsValue -> Listening := fun _ => ListenCallsBack.

End Listener.

(* ================================================================== *)
(** ** Further names used in the properties *)
(* ================================================================== *)

(** The code unit [c] occurs in [s]. *)
Fixpoint containsChar (c : ascii) (s : string) : bool :=
  match s with
  | EmptyString => false
  | String x s' => Ascii.eqb x c || containsChar c s'
  end.

(** A console warning. *)
Definition isWarning (ev : Event) : bool :=
  match ev with
  | Eff (Console LWarn _) => true
  | _ => false
  end.

(** The contract of a handler: it answers once when it returns, and leaves
    the answer to the dispatcher when it throws. *)
Definition answersOnce (r : UserRun) : Prop :=
  match snd r with
  | None => length (writes (fst r)) = 1%nat
  | Some _ => writes (fst r) = []
  end.

Module Cases.

(** A server whose URL root is [/api/], with [Hello] registered. *)
Definition apiConf : ServerConfig :=
  {| protocolPath := "/proto"; urlRootPath := "/api"; hideApiPath := false;
     showParamInvalidReason := true; logRequestDetail := false |}.

Definition apiServer : TsrpcServer :=
  match implementPtl (newTsrpcServer apiConf (fun _ _ => Scenario.acceptAll))
          Scenario.PtlHello ApiHelloWorld with
  | (_, Ok srv) => srv
  | (_, Throw _) => newTsrpcServer apiConf (fun _ _ => Scenario.acceptAll)
  end.

(** A server whose protocol root ends with a slash, so that the paths of
    its protocols start with none, and a protocol named like a member of
    [Object.prototype]. *)
Definition bareServer : TsrpcServer :=
  newTsrpcServer
    {| protocolPath := "/proto/"; urlRootPath := "/"; hideApiPath := true;
       showParamInvalidReason := false; logRequestDetail := false |}
    (fun _ _ => Scenario.acceptAll).

Definition PtlConstructor : TsrpcPtl :=
  {| name := "constructor"; filename := "/proto/constructor.ts" |}.

(** A request to [path] with the decoded body [a]. *)
Definition requestTo (path : string) (a : JsValue) : ApiRequest :=
  incoming path path JUndefined (JNum 7) (JStr "127.0.0.1") a.

(** An unhandled-error hook that throws. *)
Definition failingUnhandled : JsValue -> ApiRequest -> UserRun := fun _ _ =>
  ([], Some (OtherError (jsError "hook failed"))).

Definition withOnUnhandledApiError (srv : TsrpcServer)
    (hook : JsValue -> ApiRequest -> UserRun) : TsrpcServer :=
  {| config := config srv;
     _implementedUrl := _implementedUrl srv;
     onPtlNotFound := onPtlNotFound srv;
     onUnhandledApiError := hook;
     onApiComplete := onApiComplete srv;
     _routerBeforeApiHandler := _routerBeforeApiHandler srv;
     getValidator := getValidator srv |}.

(** A [listen] as Node has it for numbers: a port from 0 to 65535 is
    listened on, any other throws a [RangeError] at once. *)
Definition badPort : Thrown :=
  OtherError (JObj [("name", JStr "RangeError"); ("code", JStr "ERR_SOCKET_BAD_PORT")]).

Definition listenInRange (port : JsValue) : Listener.Listening :=
  match port with
  | JNum n =>
      if (0 <=? n) && (n <? 65536) then Listener.ListenCallsBack
      else Listener.ListenThrows badPort
  | _ => Listener.ListenCallsBack
  end.

(** A [listen] that finds every port taken: it returns a server and never
    calls back. *)
Definition listenTaken : JsValue -> Listener.Listening :=
  fun _ => Listener.ListenSilent.

(** An automatic implementation that registers nothing and reports [r]. *)
Definition autoReports (r : option (list string))
    : TsrpcServer -> string -> string -> TsrpcServer * option (list string) :=
  fun srv _ _ => (srv, r).

End Cases.

(* ================================================================== *)
(** * Properties *)
(* ================================================================== *)

(** ** Facts about the string operations *)

Section StringFacts.

Local Open Scope nat_scope.

(** [+:+] is kept folded by [simpl]; these two equations unfold it. *)
Lemma append_nil (b : string) : EmptyString +:+ b = b.
Proof. reflexivity. Qed.

Lemma append_cons (c : ascii) (a b : string) :
  String c a +:+ b = String c (a +:+ b).
Proof. reflexivity. Qed.

Lemma length_append (a b : string) :
  String.length (a +:+ b) = String.length a + String.length b.
Proof.
  induction a as [|x a IH]; [reflexivity|].
  rewrite append_cons; simpl; now rewrite IH.
Qed.

Lemma app_assoc_str (a b c : string) : (a +:+ b) +:+ c = a +:+ (b +:+ c).
Proof.
  induction a as [|x a IH]; [reflexivity|].
  now rewrite !append_cons, IH.
Qed.

Lemma startsWith_app (p r : string) : startsWith (p +:+ r) p = true.
Proof.
  induction p as [|c p IH]; [reflexivity|].
  rewrite append_cons; simpl. now rewrite Ascii.eqb_refl, IH.
Qed.

Lemma startsWith_inv (p s : string) :
  startsWith s p = true → s = p +:+ drop (String.length p) s.
Proof.
  revert s; induction p as [|c p IH]; intros s H.
  - now destruct s.
  - destruct s as [|d s]; [discriminate|].
    simpl in H. apply andb_prop in H as [Hc Hs].
    apply Ascii.eqb_eq in Hc; subst d.
    rewrite append_cons; simpl. f_equal. now apply IH.
Qed.

Lemma drop_app (p r : string) : drop (String.length p) (p +:+ r) = r.
Proof.
  induction p as [|c p IH]; [now destruct r|].
  rewrite append_cons; simpl; exact IH.
Qed.

Lemma take_app (a b : string) : take (String.length a) (a +:+ b) = a.
Proof.
  induction a as [|c a IH]; [now destruct b|].
  rewrite append_cons; simpl; now rewrite IH.
Qed.

Lemma take_drop (n : nat) (s : string) : take n s +:+ drop n s = s.
Proof.
  revert s; induction n as [|n IH]; intros [|c s]; simpl; try reflexivity.
  now rewrite append_cons, IH.
Qed.

Lemma endsWith_app (r suf : string) : endsWith (r +:+ suf) suf = true.
Proof.
  unfold endsWith. rewrite length_append.
  replace (String.length r + String.length suf - String.length suf)
    with (String.length r) by lia.
  rewrite drop_app, String.eqb_refl, andb_true_r.
  apply Nat.leb_le; lia.
Qed.

Lemma endsWith_inv (s suf : string) :
  endsWith s suf = true →
  s = take (String.length s - String.length suf) s +:+ suf.
Proof.
  unfold endsWith; intros H.
  apply andb_prop in H as [_ H]. apply String.eqb_eq in H.
  rewrite <- (take_drop (String.length s - String.length suf) s) at 1.
  now rewrite H.
Qed.

(** [substr] inside the string. *)
Lemma substr_inside (s : string) (start len : Z) :
  (0 <= start)%Z → (0 < len)%Z →
  (start + len <= Z.of_nat (String.length s))%Z →
  substr s start len = take (Z.to_nat len) (drop (Z.to_nat start) s).
Proof.
  intros Hs Hl Hb. unfold substr; cbv zeta.
  destruct (Z.ltb_spec start 0); [lia|].
  rewrite (Z.min_l start) by lia.
  rewrite (Z.max_l len) by lia.
  rewrite (Z.min_l len) by lia.
  destruct (Z.leb_spec len 0); [lia | reflexivity].
Qed.

(** A length that is not positive gives the empty string. *)
Lemma substr_nonpositive (s : string) (start len : Z) :
  (len <= 0)%Z → substr s start len = EmptyString.
Proof.
  intros H. unfold substr; cbv zeta.
  rewrite (Z.max_r len) by lia.
  match goal with |- (if ?c then _ else _) = _ => destruct c eqn:E end;
    [reflexivity|].
  apply Z.leb_gt in E.
  exfalso. eapply Z.lt_irrefl, Z.lt_le_trans; [exact E | apply Z.le_min_l].
Qed.

(** [substr] at the length of a prefix, for the length left once a suffix
    is taken away, is what lies between the two. *)
Lemma substr_between (root mid suf : string) :
  substr (root +:+ mid +:+ suf)
    (Z.of_nat (String.length root))
    (Z.of_nat (String.length (root +:+ mid +:+ suf))
     - Z.of_nat (String.length root) - Z.of_nat (String.length suf))%Z
  = mid.
Proof.
  rewrite !length_append.
  destruct mid as [|c mid].
  - apply substr_nonpositive.
    change (String.length EmptyString) with 0. lia.
  - set (m := String c mid).
    assert (0 < String.length m) by (subst m; simpl; lia).
    rewrite substr_inside by (rewrite ?length_append; lia).
    rewrite Nat2Z.id, drop_app.
    replace (Z.to_nat _) with (String.length m) by lia.
    apply take_app.
Qed.

End StringFacts.

(** ** Facts about the pattern [/Ptl(\w+)$/] *)

Section PtlPattern.

Local Open Scope nat_scope.

Lemma isWordTail_iff (w : string) :
  isWordTail w = true ↔ w ≠ EmptyString ∧ allWord w = true.
Proof.
  destruct w as [|c w]; simpl.
  - split; [discriminate | intros [H _]; now elim H].
  - split; [intros H; split; [discriminate | exact H] | now intros [_ H]].
Qed.

Lemma ptlMatchHere_PtlAt (s : string) : ptlMatchHere s = true ↔ PtlAt s 0.
Proof.
  unfold ptlMatchHere, PtlAt. split.
  - intros H. apply andb_prop in H as [Hp Hw].
    apply isWordTail_iff in Hw as [Hne Hall].
    exists (drop 3 s). repeat split; try assumption.
    exact (startsWith_inv "Ptl" s Hp).
  - intros (w & Hs & Hne & Hall). change (drop 0 s) with s in Hs. subst s.
    rewrite startsWith_app.
    change (drop 3 ("Ptl" +:+ w)) with (drop (String.length "Ptl") ("Ptl" +:+ w)).
    rewrite drop_app. now apply isWordTail_iff.
Qed.

Lemma PtlAt_cons (c : ascii) (s : string) (i : nat) :
  PtlAt (String c s) (S i) ↔ PtlAt s i.
Proof. reflexivity. Qed.

Lemma PtlAt_empty (i : nat) : ¬ PtlAt EmptyString i.
Proof.
  intros (w & H & _). destruct i; discriminate H.
Qed.

(** [replacePtl] strips the token of the first match. *)
Lemma replacePtl_spec (s : string) : firstPtlStripped s (replacePtl s).
Proof.
  induction s as [|c s IH].
  - right. split; [intros j; apply PtlAt_empty | reflexivity].
  - unfold replacePtl; fold replacePtl.
    destruct (ptlMatchHere (String c s)) eqn:E.
    + left. exists 0. split; [now apply ptlMatchHere_PtlAt|].
      split; [intros j Hj; lia | reflexivity].
    + assert (H0 : ¬ PtlAt (String c s) 0).
      { intros H. apply ptlMatchHere_PtlAt in H. congruence. }
      destruct IH as [(i & Hi & Hmin & Hr) | (Hnone & Hr)].
      * left. exists (S i). split; [now apply PtlAt_cons|].
        split.
        -- intros [|j] Hj; [exact H0|].
           rewrite PtlAt_cons. apply Hmin. lia.
        -- rewrite Hr. reflexivity.
      * right. split.
        -- intros [|j]; [exact H0 | rewrite PtlAt_cons; apply Hnone].
        -- now rewrite Hr.
Qed.

Lemma isWordChar_slash : isWordChar slash = false.
Proof. reflexivity. Qed.

Lemma allWord_hasSlash (w : string) :
  allWord w = true → Spec.hasSlash w = false.
Proof.
  induction w as [|c w IH]; simpl; [reflexivity|].
  intros H. apply andb_prop in H as [Hc Hw].
  rewrite (IH Hw), orb_false_r.
  apply Ascii.eqb_neq. intros ->. now rewrite isWordChar_slash in Hc.
Qed.

(** A match holds no slash: it lies in the final path segment. *)
Lemma PtlAt_hasSlash (s : string) (i : nat) :
  PtlAt s i → Spec.hasSlash (drop i s) = false.
Proof.
  intros (w & Hs & _ & Hall). rewrite Hs.
  change ("Ptl" +:+ w) with (String "P" (String "t" (String "l" w))).
  simpl. now apply allWord_hasSlash.
Qed.

Lemma hasSlash_app_slash (a t : string) :
  Spec.hasSlash (a +:+ String slash t) = true.
Proof.
  induction a as [|c a IH].
  - reflexivity.
  - rewrite append_cons. simpl. now rewrite IH, orb_true_r.
Qed.

(** The pattern does not match across a slash. *)
Lemma replacePtl_segment (a t : string) :
  replacePtl (a +:+ String slash t) = a +:+ String slash (replacePtl t).
Proof.
  assert (Hno : ∀ u, ptlMatchHere (u +:+ String slash t) = false).
  { intros u. destruct (ptlMatchHere (u +:+ String slash t)) eqn:E; [|reflexivity].
    apply ptlMatchHere_PtlAt, PtlAt_hasSlash in E.
    change (drop 0 (u +:+ String slash t)) with (u +:+ String slash t) in E.
    now rewrite hasSlash_app_slash in E. }
  induction a as [|c a IH].
  - rewrite !append_nil.
    unfold replacePtl at 1; fold replacePtl.
    pose proof (Hno EmptyString) as H0. rewrite append_nil in H0.
    now rewrite H0.
  - rewrite !append_cons.
    unfold replacePtl at 1; fold replacePtl.
    pose proof (Hno (String c a)) as H0. rewrite append_cons in H0.
    now rewrite H0, IH.
Qed.

Lemma mapChars_app (f : ascii → ascii) (a b : string) :
  mapChars f (a +:+ b) = mapChars f a +:+ mapChars f b.
Proof.
  induction a as [|c a IH]; [reflexivity|].
  rewrite append_cons. simpl. now rewrite IH, append_cons.
Qed.

(** A location that ends with [.ts] is left as it is by [replaceJsExt]. *)
Lemma replaceJsExt_ts (r : string) : replaceJsExt (r +:+ ".ts") = r +:+ ".ts".
Proof.
  unfold replaceJsExt.
  destruct (endsWith (r +:+ ".ts") ".js") eqn:E; [|reflexivity].
  exfalso. unfold endsWith in E. apply andb_prop in E as [_ E].
  rewrite length_append in E.
  replace (String.length r + String.length ".ts" - String.length ".js")
    with (String.length r) in E by (simpl; lia).
  rewrite drop_app in E. discriminate E.
Qed.

Lemma drop_add (a b : nat) (s : string) : drop (a + b) s = drop b (drop a s).
Proof.
  revert s; induction a as [|a IH]; intros s; [reflexivity|].
  destruct s as [|c s]; simpl; [now destruct b | apply IH].
Qed.

(** A string that starts with [root], ends with [suf] and is long enough
    for both has a middle. *)
Lemma between_decompose (s root suf : string) :
  startsWith s root = true → endsWith s suf = true →
  String.length root + String.length suf ≤ String.length s →
  ∃ mid, s = root +:+ mid +:+ suf.
Proof.
  intros Hp Hs Hlen.
  set (k := String.length s - String.length suf - String.length root).
  exists (take k (drop (String.length root) s)).
  rewrite (startsWith_inv _ _ Hp) at 1. f_equal.
  rewrite <- (take_drop k (drop (String.length root) s)) at 1. f_equal.
  rewrite <- drop_add.
  unfold endsWith in Hs. apply andb_prop in Hs as [_ Hs].
  apply String.eqb_eq in Hs.
  replace (String.length root + k) with (String.length s - String.length suf)
    by (subst k; lia).
  exact Hs.
Qed.

End PtlPattern.

(** ** Path resolution: [getPtlUrl] *)

Section PathResolution.

Local Open Scope nat_scope.

Variable srv : TsrpcServer.
Variable ptl : TsrpcPtl.

Lemma getPtlUrl_between (mid : string) :
  replaceJsExt (filename ptl) = protocolPath (config srv) +:+ mid +:+ ".ts" →
  getPtlUrl srv ptl = ([], Ok (replacePtl (replaceBackslashes mid))).
Proof.
  intros H. unfold getPtlUrl. rewrite H.
  rewrite startsWith_app.
  rewrite <- app_assoc_str, endsWith_app, app_assoc_str. simpl.
  change 3%Z with (Z.of_nat (String.length ".ts")).
  now rewrite substr_between.
Qed.

Lemma getPtlUrl_overlap :
  startsWith (replaceJsExt (filename ptl)) (protocolPath (config srv)) = true →
  endsWith (replaceJsExt (filename ptl)) ".ts" = true →
  String.length (replaceJsExt (filename ptl))
  < String.length (protocolPath (config srv)) + 3 →
  getPtlUrl srv ptl = ([], Ok EmptyString).
Proof.
  intros Hp Hs Hlen. unfold getPtlUrl.
  rewrite Hp, Hs. simpl.
  rewrite substr_nonpositive by lia. reflexivity.
Qed.

Lemma getPtlUrl_throws :
  startsWith (replaceJsExt (filename ptl)) (protocolPath (config srv)) = false
  ∨ endsWith (replaceJsExt (filename ptl)) ".ts" = false →
  getPtlUrl srv ptl =
    ([], Throw (OtherError
                  (jsError ("Protocol is not in the protocolPath : "
                            +:+ replaceJsExt (filename ptl))))).
Proof.
  intros H. unfold getPtlUrl.
  destruct H as [-> | ->]; [reflexivity|].
  now rewrite orb_true_r.
Qed.

End PathResolution.

(** C5, as the code has it. The declared location is read with a trailing
    [.js] rewritten to [.ts]. When that location starts with the protocol
    root and ends with [.ts], resolution returns what lies between the two,
    with every backslash turned into a slash and without the [Ptl] of the
    first match of [Ptl(\w+)$] (unchanged when there is no match); it returns
    the empty path when root and suffix overlap. It throws exactly when the
    location does not start with the root or does not end with [.ts], and
    registration then throws the same error. The result depends on the root
    and the declared location only. *)
Theorem getPtlUrl_resolution (srv : TsrpcServer) (ptl : TsrpcPtl) :
  let root := protocolPath (config srv) in
  let location := replaceJsExt (filename ptl) in
  (startsWith location root = true → endsWith location ".ts" = true →
   (String.length root + 3 ≤ String.length location)%nat →
   ∃ mid r, location = root +:+ mid +:+ ".ts"
            ∧ getPtlUrl srv ptl = ([], Ok r)
            ∧ firstPtlStripped (replaceBackslashes mid) r)
  ∧ (startsWith location root = true → endsWith location ".ts" = true →
     (String.length location < String.length root + 3)%nat →
     getPtlUrl srv ptl = ([], Ok EmptyString))
  ∧ (startsWith location root = false ∨ endsWith location ".ts" = false →
     ∃ e, getPtlUrl srv ptl = ([], Throw e))
  ∧ (∀ srv' ptl', protocolPath (config srv') = root →
       filename ptl' = filename ptl → getPtlUrl srv' ptl' = getPtlUrl srv ptl)
  ∧ (∀ e h, getPtlUrl srv ptl = ([], Throw e) →
            implementPtl srv ptl h = ([], Throw e)).
Proof.
  intros root location. repeat split.
  - intros Hp Hs Hlen.
    destruct (between_decompose location root ".ts" Hp Hs Hlen) as [mid Hmid].
    exists mid, (replacePtl (replaceBackslashes mid)).
    split; [exact Hmid|]. split; [|apply replacePtl_spec].
    now apply getPtlUrl_between.
  - apply getPtlUrl_overlap.
  - intros H. eexists. now apply getPtlUrl_throws.
  - intros srv' ptl' Hroot Hfile. unfold getPtlUrl.
    now rewrite Hroot, Hfile.
  - intros e h H. unfold implementPtl. now rewrite H.
Qed.

(** C10, as the code has it. The [Ptl] that is stripped is the one of the
    first match of [Ptl(\w+)$], the leftmost [Ptl] followed by one or more
    word characters up to the end of the path; the match lies in the final
    path segment and need not start it. A location whose final segment is
    [MyPtlFoo.ts] resolves to a path ending in [MyFoo]; a final segment that
    is exactly [Ptl] is left unchanged. *)
Theorem getPtlUrl_strips_first_Ptl (srv : TsrpcServer) (ptl : TsrpcPtl) :
  let root := protocolPath (config srv) in
  (∀ mid, filename ptl = root +:+ mid +:+ ".ts" →
     ∃ r, getPtlUrl srv ptl = ([], Ok r)
          ∧ firstPtlStripped (replaceBackslashes mid) r)
  ∧ (∀ s i, PtlAt s i → Spec.hasSlash (drop i s) = false)
  ∧ (∀ dir, filename ptl = root +:+ dir +:+ "/MyPtlFoo.ts" →
       getPtlUrl srv ptl = ([], Ok (replaceBackslashes dir +:+ "/MyFoo")))
  ∧ (∀ dir, filename ptl = root +:+ dir +:+ "/Ptl.ts" →
       getPtlUrl srv ptl = ([], Ok (replaceBackslashes dir +:+ "/Ptl"))).
Proof.
  intros root.
  assert (Hts : ∀ mid, filename ptl = root +:+ mid +:+ ".ts" →
                replaceJsExt (filename ptl) = root +:+ mid +:+ ".ts").
  { intros mid H. rewrite H, <- app_assoc_str. apply replaceJsExt_ts. }
  repeat split.
  - intros mid H. exists (replacePtl (replaceBackslashes mid)).
    split; [|apply replacePtl_spec].
    apply getPtlUrl_between. now apply Hts.
  - apply PtlAt_hasSlash.
  - intros dir H.
    rewrite (getPtlUrl_between srv ptl (dir +:+ "/MyPtlFoo")).
    + unfold replaceBackslashes. rewrite mapChars_app.
      change (mapChars _ "/MyPtlFoo") with (String slash "MyPtlFoo").
      now rewrite replacePtl_segment.
    + apply Hts. rewrite H. now rewrite app_assoc_str.
  - intros dir H.
    rewrite (getPtlUrl_between srv ptl (dir +:+ "/Ptl")).
    + unfold replaceBackslashes. rewrite mapChars_app.
      change (mapChars _ "/Ptl") with (String slash "Ptl").
      now rewrite replacePtl_segment.
    + apply Hts. rewrite H. now rewrite app_assoc_str.
Qed.

(** Resolution against the specification's wording (C5). With the root
    [/proto], the location [/proto/a/Ptl.ts] starts with the root and ends
    with the suffix; the code leaves the final segment [Ptl] as it is, where
    stripping the token gives [/a/]. The location [/proto/a/PtlC.js] does not
    end with the suffix, and the code resolves it. *)
Lemma getPtlUrl_not_spec_resolve :
  (startsWith "/proto/a/Ptl.ts" "/proto" = true
   ∧ endsWith "/proto/a/Ptl.ts" ".ts" = true
   ∧ getPtlUrl (Scenario.server false) {| name := "Ptl"; filename := "/proto/a/Ptl.ts" |}
     = ([], Ok "/a/Ptl")
   ∧ Spec.resolve "/proto" "/proto/a/Ptl.ts" = Some "/a/"
   ∧ "/a/Ptl" ≠ "/a/")
  ∧ (endsWith "/proto/a/PtlC.js" ".ts" = false
     ∧ Spec.resolve "/proto" "/proto/a/PtlC.js" = None
     ∧ getPtlUrl (Scenario.server false) {| name := "C"; filename := "/proto/a/PtlC.js" |}
       = ([], Ok "/a/C")).
Proof. repeat split; try reflexivity. discriminate. Qed.

(** C5 on the protocol of the tests: [/proto/PtlHello.ts] under the root
    [/proto]. *)
Lemma getPtlUrl_resolution_witness :
  ∃ mid r,
    "/proto/PtlHello.ts" = "/proto" +:+ mid +:+ ".ts"
    ∧ getPtlUrl (Scenario.server false) Scenario.PtlHello = ([], Ok r)
    ∧ firstPtlStripped (replaceBackslashes mid) r.
Proof.
  apply (proj1 (getPtlUrl_resolution (Scenario.server false) Scenario.PtlHello));
    [reflexivity | reflexivity | vm_compute; lia].
Defined.

(** The last occurrence against the first (C10). In [/PtlAPtlB] both
    occurrences of [Ptl] are followed by word characters up to the end; the
    code strips the first, the last would leave [/PtlAB]. *)
Lemma getPtlUrl_not_last_occurrence :
  ptlMatchHere "PtlAPtlB" = true
  ∧ ptlMatchHere "PtlB" = true
  ∧ getPtlUrl (Scenario.server false)
      {| name := "APtlB"; filename := "/proto/PtlAPtlB.ts" |} = ([], Ok "/APtlB")
  ∧ Spec.stripPtlLast "/PtlAPtlB" = "/PtlAB"
  ∧ "/APtlB" ≠ "/PtlAB".
Proof. repeat split; try reflexivity. discriminate. Qed.

(** C10 on a location whose final segment is [MyPtlFoo.ts]. *)
Lemma getPtlUrl_strips_first_Ptl_witness :
  getPtlUrl (Scenario.server false)
    {| name := "MyFoo"; filename := "/proto/dir/MyPtlFoo.ts" |}
  = ([], Ok "/dir/MyFoo").
Proof.
  apply (proj1 (proj2 (proj2
           (getPtlUrl_strips_first_Ptl (Scenario.server false)
              {| name := "MyFoo"; filename := "/proto/dir/MyPtlFoo.ts" |})))
           "/dir").
  reflexivity.
Defined.

(** ** Facts about traces and the monad *)

Section Traces.

Local Open Scope nat_scope.

Lemma clientView_app (a b : list Event) :
  clientView (a ++ b) = clientView a ++ clientView b.
Proof.
  induction a as [|ev a IH]; [reflexivity|].
  destruct ev as [[]|]; simpl; now rewrite ?IH.
Qed.

Lemma clientView_effects (effects : list Effect) :
  clientView (map Eff effects) = writes effects.
Proof.
  induction effects as [|e effects IH]; [reflexivity|].
  destruct e; simpl; now rewrite ?IH.
Qed.

Lemma calls_app (c : Callee) (a b : list Event) :
  calls c (a ++ b) = calls c a + calls c b.
Proof. unfold calls. now rewrite List.filter_app, List.length_app. Qed.

Lemma calls_effects (c : Callee) (effects : list Effect) :
  calls c (map Eff effects) = 0.
Proof.
  unfold calls. induction effects as [|e effects IH]; [reflexivity|].
  simpl. destruct c; exact IH.
Qed.

Lemma calls_cons_effect (c : Callee) (e : Effect) (tr : list Event) :
  calls c (Eff e :: tr) = calls c tr.
Proof. unfold calls. simpl. now destruct c. Qed.

Lemma calls_cons_invoke (c c' : Callee) (tr : list Event) :
  calls c (Invoke c' :: tr)
  = (if invoked c (Invoke c') then 1 else 0) + calls c tr.
Proof.
  unfold calls. cbn [List.filter].
  now destruct (invoked c (Invoke c')).
Qed.

(** The trace and the result of a call of user code. *)
Lemma call_trace (c : Callee) (r : UserRun) :
  fst (call c r) = Invoke c :: map Eff (fst r).
Proof. reflexivity. Qed.

End Traces.

(** ** The final router *)

Section FinalRouter.

Local Open Scope nat_scope.

Variable srv : TsrpcServer.
Variable req : ApiRequest.
Variable res : ApiResponse.

Lemma apiHandler_no_args :
  truthy (args req) = false →
  apiHandler srv req res =
    ([Eff (Console LError [JStr "Invalid Request Body"; JStr (url req); body req]);
      Eff (Respond (WSend 400 "Invalid Request Body"))], Ok tt).
Proof. intros H. unfold apiHandler. now rewrite H. Qed.

Lemma apiHandler_preCheckError (msg : string) (info : JsValue) :
  truthy (args req) = true → apiPreCheckError res = Some (msg, info) →
  apiHandler srv req res = ([Eff (Respond (WError msg info))], Ok tt).
Proof. intros Ha Hp. unfold apiHandler. now rewrite Ha, Hp. Qed.

Lemma apiHandler_not_found :
  truthy (args req) = true → apiPreCheckError res = None → rpcPtl req = None →
  apiHandler srv req res = call COnPtlNotFound (onPtlNotFound srv req).
Proof. intros Ha Hp Hn. unfold apiHandler. now rewrite Ha, Hp, Hn. Qed.

(** [rpcPtl] is set and the registry has no entry for [rpcUrl]: reading
    the validator throws. *)
Lemma apiHandler_no_entry :
  truthy (args req) = true → apiPreCheckError res = None → rpcPtl req ≠ None →
  registered srv (rpcUrl req) = None →
  apiHandler srv req res =
    ([requestLog srv req],
     Throw (OtherError
              (jsTypeError (if toStrThrows (rpcUrl req) then notPrimitive
                            else "Cannot read properties of undefined")))).
Proof.
  intros Ha Hp Hn Hr. unfold apiHandler, registeredEntry.
  rewrite Ha, Hp, Hr. now destruct (rpcPtl req).
Qed.

Lemma apiHandler_invalid (e : Entry) :
  truthy (args req) = true → apiPreCheckError res = None → rpcPtl req ≠ None →
  registered srv (rpcUrl req) = Some e →
  isError (reqValidator e (args req)) = true →
  let err := originalError (reqValidator e (args req)) in
  let detail := fieldName err +:+ ": " +:+ message err in
  apiHandler srv req res =
    ([requestLog srv req;
      Eff (Console LWarn [JStr "Invalid Request Parameter"; rpcUrl req; JStr detail]);
      Eff (Respond
             (WError (if showParamInvalidReason (config srv) then detail
                      else "Invalid Request Parameter")
                (JStr "INVALID_REQ_PARAM")))],
     Ok tt).
Proof.
  intros Ha Hp Hn Hr Hv. unfold apiHandler, registeredEntry.
  rewrite Ha, Hp, Hr. destruct (rpcPtl req); [|now elim Hn].
  cbn. now rewrite Hv.
Qed.

Lemma apiHandler_dispatch (e : Entry) :
  dispatchable srv req res e →
  apiHandler srv req res =
    (let '(tr, r) :=
       tryCatch (call CHandler (handler e req)) (caught srv req)
       ≫= (λ _, completion srv req) in
     (requestLog srv req :: tr, r)).
Proof.
  intros (Ha & Hp & Hn & Hr & Hv). unfold apiHandler, registeredEntry.
  rewrite Ha, Hp, Hr. destruct (rpcPtl req); [|now elim Hn].
  cbn. rewrite Hv.
  unfold caught, completion.
  destruct (handler e req) as [effs [err|]]; cbn.
  - destruct err as [m i|err]; cbn.
    + destruct (onApiComplete srv); reflexivity.
    + destruct (onUnhandledApiError srv err req) as [effs' [err'|]]; cbn;
        [reflexivity|].
      destruct (onApiComplete srv); reflexivity.
  - destruct (onApiComplete srv); reflexivity.
Qed.

End FinalRouter.

Section HandlerOutcomes.

Local Open Scope nat_scope.

Variable srv : TsrpcServer.
Variable req : ApiRequest.
Variable res : ApiResponse.
Variable e : Entry.
Hypothesis Hdispatch : dispatchable srv req res e.

(** The handler returns. *)
Lemma apiHandler_returns (effs : list Effect) :
  handler e req = (effs, None) →
  apiHandler srv req res =
    (requestLog srv req :: Invoke CHandler :: map Eff effs
       ++ fst (completion srv req),
     snd (completion srv req)).
Proof.
  intros Hh. rewrite (apiHandler_dispatch _ _ _ _ Hdispatch), Hh. cbn.
  now destruct (completion srv req).
Qed.

(** The handler throws a [TsrpcError]. *)
Lemma apiHandler_typed (effs : list Effect) (msg : string) (info : JsValue) :
  handler e req = (effs, Some (TsrpcError msg info)) →
  apiHandler srv req res =
    (requestLog srv req :: Invoke CHandler :: map Eff effs
       ++ Eff (Respond (WError msg info)) :: fst (completion srv req),
     snd (completion srv req)).
Proof.
  intros Hh. rewrite (apiHandler_dispatch _ _ _ _ Hdispatch), Hh. cbn.
  destruct (completion srv req). cbn. now rewrite <- app_assoc.
Qed.

(** The handler throws anything else and the hook returns. *)
Lemma apiHandler_untyped (effs effs' : list Effect) (err : JsValue) :
  handler e req = (effs, Some (OtherError err)) →
  onUnhandledApiError srv err req = (effs', None) →
  apiHandler srv req res =
    (requestLog srv req :: Invoke CHandler :: map Eff effs
       ++ Invoke COnUnhandledApiError :: map Eff effs' ++ fst (completion srv req),
     snd (completion srv req)).
Proof.
  intros Hh Hu. rewrite (apiHandler_dispatch _ _ _ _ Hdispatch), Hh. cbn.
  rewrite Hu. cbn. destruct (completion srv req). cbn.
  now rewrite <- !app_assoc.
Qed.

(** The handler throws anything else and the hook throws too: the
    exception leaves the final router, the completion hook is not called. *)
Lemma apiHandler_untyped_hook_throws (effs effs' : list Effect)
    (err : JsValue) (err' : Thrown) :
  handler e req = (effs, Some (OtherError err)) →
  onUnhandledApiError srv err req = (effs', Some err') →
  apiHandler srv req res =
    (requestLog srv req :: Invoke CHandler :: map Eff effs
       ++ Invoke COnUnhandledApiError :: map Eff effs',
     Throw err').
Proof.
  intros Hh Hu. rewrite (apiHandler_dispatch _ _ _ _ Hdispatch), Hh. cbn.
  rewrite Hu. reflexivity.
Qed.

(** The handler is called once, whatever it does. *)
Lemma apiHandler_calls_handler :
  calls CHandler (fst (apiHandler srv req res)) = 1.
Proof.
  assert (Hc : calls CHandler (fst (completion srv req)) = 0).
  { unfold completion. destruct (onApiComplete srv); [|reflexivity].
    rewrite call_trace, calls_cons_invoke, calls_effects. reflexivity. }
  destruct (handler e req) as [effs [[msg info|err]|]] eqn:Hh.
  - rewrite (apiHandler_typed _ _ _ Hh). cbn [fst]. unfold requestLog.
    rewrite calls_cons_effect, calls_cons_invoke, calls_app, calls_effects,
      calls_cons_effect, Hc. reflexivity.
  - destruct (onUnhandledApiError srv err req) as [effs' [err'|]] eqn:Hu.
    + rewrite (apiHandler_untyped_hook_throws _ _ _ _ Hh Hu). cbn [fst]. unfold requestLog.
      rewrite calls_cons_effect, calls_cons_invoke, calls_app, calls_effects,
        calls_cons_invoke, calls_effects. reflexivity.
    + rewrite (apiHandler_untyped _ _ _ Hh Hu). cbn [fst]. unfold requestLog.
      rewrite calls_cons_effect, calls_cons_invoke, calls_app, calls_effects,
        calls_cons_invoke, calls_app, calls_effects, Hc. reflexivity.
  - rewrite (apiHandler_returns _ Hh). cbn [fst]. unfold requestLog.
    rewrite calls_cons_effect, calls_cons_invoke, calls_app, calls_effects, Hc.
    reflexivity.
Qed.

End HandlerOutcomes.

(** ** The middleware "Check if protocol registered" *)

Section Addressing.

Variable srv : TsrpcServer.

(** When the middleware leaves a request with arguments and without a
    pre-check error, [rpcPtl] is the protocol of the entry registered at
    [rpcUrl], if there is one. *)
Lemma checkProtocolRegistered_rpcPtl (req0 req : ApiRequest) (res0 res : ApiResponse) :
  checkProtocolRegistered srv req0 res0 = (req, res) →
  apiPreCheckError res0 = None →
  truthy (args req) = true → apiPreCheckError res = None →
  rpcPtl req = protocol <$> registered srv (rpcUrl req).
Proof.
  unfold checkProtocolRegistered, resolveRpcPtl, setPreCheckError.
  intros H H0 Ha Hp.
  destruct (truthy (args req0)) eqn:Ha0; simpl in H.
  - destruct (hideApiPath (config srv)).
    + destruct (isNullish _); [inversion H; subst; discriminate|].
      cbn [rpcUrl setArgs setRpcUrl] in H.
      destruct (truthy (getField (args req0) "__tsrpc_url__"));
        simpl in H; inversion H; subst; [|discriminate].
      cbn. unfold registered. cbn.
      now destruct (_implementedUrl srv !! _).
    + destruct (truthy (getField _ _)); [inversion H; subst; discriminate|].
      destruct (startsWith _ _); [|inversion H; subst; discriminate].
      inversion H; subst.
      cbn. unfold registered. cbn.
      now destruct (_implementedUrl srv !! _).
  - inversion H; subst. congruence.
Qed.

End Addressing.

(** C1. The final router decides in this order, the first match winning:
    (a) no arguments: the bad-request answer, status 400;
    (b) a pre-check error tag: that error is sent;
    (c) no protocol was found for the path: the not-found hook is called,
        and as the class defines it the hook sends [PTL_NOT_FOUND];
    (d) the validator rejects the arguments: [INVALID_REQ_PARAM] is sent;
    and the handler is called exactly when none of them holds. After the
    server's own middleware, (c) is the case of a path with no entry in the
    registry. *)
Theorem apiHandler_priority (srv : TsrpcServer) (req : ApiRequest) (res : ApiResponse) :
  (truthy (args req) = false →
   apiHandler srv req res =
     ([Eff (Console LError [JStr "Invalid Request Body"; JStr (url req); body req]);
       Eff (Respond (WSend 400 "Invalid Request Body"))], Ok tt))
  ∧ (∀ msg info,
       truthy (args req) = true → apiPreCheckError res = Some (msg, info) →
       apiHandler srv req res = ([Eff (Respond (WError msg info))], Ok tt))
  ∧ (truthy (args req) = true → apiPreCheckError res = None → rpcPtl req = None →
     apiHandler srv req res = call COnPtlNotFound (onPtlNotFound srv req)
     ∧ (onPtlNotFound srv = default_onPtlNotFound →
        clientView (fst (apiHandler srv req res))
        = [WError "404 Not Found" (JStr "PTL_NOT_FOUND")]))
  ∧ (∀ e,
       truthy (args req) = true → apiPreCheckError res = None →
       rpcPtl req ≠ None → registered srv (rpcUrl req) = Some e →
       isError (reqValidator e (args req)) = true →
       ∃ reason,
         clientView (fst (apiHandler srv req res))
         = [WError reason (JStr "INVALID_REQ_PARAM")]
         ∧ snd (apiHandler srv req res) = Ok tt)
  ∧ (∀ e, dispatchable srv req res e →
          calls CHandler (fst (apiHandler srv req res)) = 1%nat)
  ∧ (calls CHandler (fst (apiHandler srv req res)) ≠ 0%nat →
     ∃ e, dispatchable srv req res e)
  ∧ (∀ req0,
       checkProtocolRegistered srv req0 freshResponse = (req, res) →
       truthy (args req) = true → apiPreCheckError res = None →
       (rpcPtl req = None ↔ registered srv (rpcUrl req) = None)).
Proof.
  split; [apply apiHandler_no_args|].
  split; [intros msg info; apply apiHandler_preCheckError|].
  split.
  { intros Ha Hp Hn. split; [now apply apiHandler_not_found|].
    intros Hhook. rewrite apiHandler_not_found, Hhook by assumption. reflexivity. }
  split.
  { intros e Ha Hp Hn Hr Hv. eexists.
    rewrite (apiHandler_invalid srv req res e Ha Hp Hn Hr Hv). split; reflexivity. }
  split; [intros e; apply apiHandler_calls_handler|].
  split.
  { intros Hcalls.
    destruct (truthy (args req)) eqn:Ha;
      [|now rewrite apiHandler_no_args in Hcalls].
    destruct (apiPreCheckError res) as [[msg info]|] eqn:Hp;
      [now rewrite (apiHandler_preCheckError srv req res msg info) in Hcalls|].
    destruct (rpcPtl req) as [p|] eqn:Hn.
    2:{ rewrite apiHandler_not_found in Hcalls by assumption.
        rewrite call_trace, calls_cons_invoke, calls_effects in Hcalls.
        now elim Hcalls. }
    assert (Hn' : rpcPtl req ≠ None) by (rewrite Hn; discriminate).
    destruct (registered srv (rpcUrl req)) as [e|] eqn:Hr;
      [|now rewrite apiHandler_no_entry in Hcalls].
    destruct (isError (reqValidator e (args req))) eqn:Hv.
    - now rewrite (apiHandler_invalid srv req res e) in Hcalls.
    - exists e. now repeat split. }
  intros req0 H Ha Hp.
  rewrite (checkProtocolRegistered_rpcPtl srv req0 req freshResponse res H eq_refl Ha Hp).
  destruct (registered srv (rpcUrl req)); simpl; split; congruence.
Qed.

(** On the server of the tests, a request to [/Hello] whose body is truthy
    and holds no truthy reserved field reaches the handler of [Hello]. *)
Lemma dispatchable_hello (a : JsValue) :
  truthy a = true →
  truthy (getField a "__tsrpc_url__") = false →
  dispatchable (Scenario.server false)
    (Scenario.routed (Scenario.server false) a) freshResponse Scenario.helloEntry.
Proof.
  intros Ha Hf. unfold dispatchable, Scenario.routed, checkProtocolRegistered.
  cbn [args Scenario.request incoming]. rewrite Ha.
  change (hideApiPath (config (Scenario.server false))) with false.
  cbn [negb]. rewrite Hf.
  repeat split; try reflexivity; try assumption. discriminate.
Qed.

(** C1 on the server of the tests: a request without arguments, one with a
    pre-check error, one with no protocol, one the validator rejects, and one
    that reaches the handler. *)
Lemma apiHandler_priority_witness :
  apiHandler (Scenario.server false) (Scenario.request JUndefined) freshResponse
  = ([Eff (Console LError [JStr "Invalid Request Body"; JStr "/Hello"; JUndefined]);
      Eff (Respond (WSend 400 "Invalid Request Body"))], Ok tt)
  ∧ apiHandler (Scenario.server false) (Scenario.request Scenario.world)
      {| apiPreCheckError := Some ("Invalid path", JStr "INVALID_PATH") |}
    = ([Eff (Respond (WError "Invalid path" (JStr "INVALID_PATH")))], Ok tt)
  ∧ clientView
      (fst (apiHandler (Scenario.server false) (Scenario.request Scenario.world)
              freshResponse))
    = [WError "404 Not Found" (JStr "PTL_NOT_FOUND")]
  ∧ (∃ reason,
       clientView
         (fst (apiHandler
                 (Scenario.serverWith false (fun _ _ => Scenario.rejectAll) ApiHelloWorld)
                 (Scenario.routed (Scenario.server false) Scenario.world)
                 freshResponse))
       = [WError reason (JStr "INVALID_REQ_PARAM")]
       ∧ snd (apiHandler
                (Scenario.serverWith false (fun _ _ => Scenario.rejectAll) ApiHelloWorld)
                (Scenario.routed (Scenario.server false) Scenario.world)
                freshResponse)
         = Ok tt)
  ∧ calls CHandler
      (fst (apiHandler (Scenario.server false)
              (Scenario.routed (Scenario.server false) Scenario.world) freshResponse))
    = 1%nat.
Proof.
  split.
  { apply (proj1 (apiHandler_priority (Scenario.server false)
                    (Scenario.request JUndefined) freshResponse)).
    reflexivity. }
  split.
  { apply (proj1 (proj2 (apiHandler_priority (Scenario.server false)
                           (Scenario.request Scenario.world)
                           {| apiPreCheckError :=
                                Some ("Invalid path", JStr "INVALID_PATH") |})));
      reflexivity. }
  split.
  { apply (proj1 (proj2 (proj2 (apiHandler_priority (Scenario.server false)
                                  (Scenario.request Scenario.world) freshResponse))));
      reflexivity. }
  split.
  { apply (proj1 (proj2 (proj2 (proj2
             (apiHandler_priority
                (Scenario.serverWith false (fun _ _ => Scenario.rejectAll) ApiHelloWorld)
                (Scenario.routed (Scenario.server false) Scenario.world)
                freshResponse))))
             {| protocol := Scenario.PtlHello; handler := ApiHelloWorld;
                reqValidator := Scenario.rejectAll |});
      try reflexivity.
    discriminate. }
  apply (proj1 (proj2 (proj2 (proj2 (proj2
           (apiHandler_priority (Scenario.server false)
              (Scenario.routed (Scenario.server false) Scenario.world)
              freshResponse)))))
           Scenario.helloEntry).
  apply dispatchable_hello; reflexivity.
Defined.

(** ** What the client is sent when the handler throws *)

Section Completion.

Local Open Scope nat_scope.

Variable srv : TsrpcServer.
Variable req : ApiRequest.

Lemma clientView_completion :
  clientView (fst (completion srv req)) = completionWrites srv req.
Proof.
  unfold completion, completionWrites.
  destruct (onApiComplete srv) as [hook|]; [|reflexivity].
  rewrite call_trace. simpl. apply clientView_effects.
Qed.

Lemma calls_completion (c : Callee) :
  calls c (fst (completion srv req))
  = match onApiComplete srv with
    | Some _ => if invoked c (Invoke COnApiComplete) then 1 else 0
    | None => 0
    end.
Proof.
  unfold completion. destruct (onApiComplete srv) as [hook|]; [|reflexivity].
  rewrite call_trace, calls_cons_invoke, calls_effects. lia.
Qed.

Lemma completion_returns :
  (∀ hook, onApiComplete srv = Some hook → snd (hook req) = None) →
  snd (completion srv req) = Ok tt.
Proof.
  intros H. unfold completion.
  destruct (onApiComplete srv) as [hook|]; [|reflexivity].
  unfold call. cbn [snd]. now rewrite (H hook eq_refl).
Qed.

End Completion.

(** C2. When the handler throws a value that is no [TsrpcError], the client
    is sent what the handler had written before, then the envelope
    [Internal Server Error] / [UNHANDLED_API_ERROR] of the class's own hook,
    then what the completion hook writes: nothing of the thrown value. Two
    runs that differ in the thrown value only send the same; the thrown value
    goes to the server's console. *)
Theorem untyped_error_not_leaked
    (srv1 srv2 : TsrpcServer) (req : ApiRequest) (res : ApiResponse)
    (e1 e2 : Entry) (effs : list Effect) (err1 err2 : JsValue) :
  onUnhandledApiError srv1 = default_onUnhandledApiError →
  onUnhandledApiError srv2 = default_onUnhandledApiError →
  onApiComplete srv1 = onApiComplete srv2 →
  dispatchable srv1 req res e1 →
  dispatchable srv2 req res e2 →
  handler e1 req = (effs, Some (OtherError err1)) →
  handler e2 req = (effs, Some (OtherError err2)) →
  clientView (fst (apiHandler srv1 req res))
  = writes effs
      ++ WError "Internal Server Error" (JStr "UNHANDLED_API_ERROR")
         :: completionWrites srv1 req
  ∧ clientView (fst (apiHandler srv1 req res))
    = clientView (fst (apiHandler srv2 req res))
  ∧ In (Eff (Console LError [rpcUrl req; args req; err1]))
       (fst (apiHandler srv1 req res)).
Proof.
  intros Hu1 Hu2 Hc Hd1 Hd2 Hh1 Hh2.
  assert (Hview : ∀ srv e err,
            onUnhandledApiError srv = default_onUnhandledApiError →
            dispatchable srv req res e →
            handler e req = (effs, Some (OtherError err)) →
            clientView (fst (apiHandler srv req res))
            = writes effs
                ++ WError "Internal Server Error" (JStr "UNHANDLED_API_ERROR")
                   :: completionWrites srv req).
  { intros srv e err Hu Hd Hh.
    rewrite (apiHandler_untyped srv req res e Hd effs
               [Console LError [rpcUrl req; args req; err];
                Respond (WError "Internal Server Error" (JStr "UNHANDLED_API_ERROR"))]
               err Hh) by now rewrite Hu.
    cbn [fst]. unfold requestLog. cbn [clientView].
    rewrite clientView_app, clientView_effects. cbn [clientView map app].
    now rewrite clientView_completion. }
  split; [now apply (Hview srv1 e1 err1)|].
  split.
  - rewrite (Hview srv1 e1 err1), (Hview srv2 e2 err2) by assumption.
    unfold completionWrites. now rewrite Hc.
  - rewrite (apiHandler_untyped srv1 req res e1 Hd1 effs
               [Console LError [rpcUrl req; args req; err1];
                Respond (WError "Internal Server Error" (JStr "UNHANDLED_API_ERROR"))]
               err1 Hh1) by now rewrite Hu1.
    cbn [fst]. right. right. apply in_or_app. right. right. left. reflexivity.
Qed.

(** C3. When the handler throws a [TsrpcError] with message [X] and info
    [Y], the client is sent what the handler had written before, then the
    error envelope of exactly [X] and [Y], then what the completion hook
    writes; the unhandled-error hook is not called. *)
Theorem typed_error_forwarded
    (srv : TsrpcServer) (req : ApiRequest) (res : ApiResponse)
    (e : Entry) (effs : list Effect) (X : string) (Y : JsValue) :
  dispatchable srv req res e →
  handler e req = (effs, Some (TsrpcError X Y)) →
  clientView (fst (apiHandler srv req res))
  = writes effs ++ WError X Y :: completionWrites srv req
  ∧ calls COnUnhandledApiError (fst (apiHandler srv req res)) = 0%nat.
Proof.
  intros Hd Hh. rewrite (apiHandler_typed srv req res e Hd effs X Y Hh).
  cbn [fst]. unfold requestLog. split.
  - cbn [clientView]. rewrite clientView_app, clientView_effects.
    cbn [clientView]. now rewrite clientView_completion.
  - rewrite calls_cons_effect, calls_cons_invoke, calls_app, calls_effects,
      calls_cons_effect, calls_completion.
    now destruct (onApiComplete srv).
Qed.

(** C2 on two servers: the handler of the tests throwing [new Error('Error')]
    and a handler throwing the string [secret]. *)
Lemma untyped_error_not_leaked_witness :
  clientView
    (fst (apiHandler (Scenario.server false)
            (Scenario.routed (Scenario.server false) Scenario.nameError)
            freshResponse))
  = writes []
      ++ WError "Internal Server Error" (JStr "UNHANDLED_API_ERROR")
         :: completionWrites (Scenario.server false)
              (Scenario.routed (Scenario.server false) Scenario.nameError)
  ∧ clientView
      (fst (apiHandler (Scenario.server false)
              (Scenario.routed (Scenario.server false) Scenario.nameError)
              freshResponse))
    = clientView
        (fst (apiHandler Scenario.secretServer
                (Scenario.routed (Scenario.server false) Scenario.nameError)
                freshResponse))
  ∧ In (Eff (Console LError
               [rpcUrl (Scenario.routed (Scenario.server false) Scenario.nameError);
                args (Scenario.routed (Scenario.server false) Scenario.nameError);
                jsError "Error"]))
       (fst (apiHandler (Scenario.server false)
               (Scenario.routed (Scenario.server false) Scenario.nameError)
               freshResponse)).
Proof.
  apply (untyped_error_not_leaked (Scenario.server false) Scenario.secretServer
           (Scenario.routed (Scenario.server false) Scenario.nameError)
           freshResponse Scenario.helloEntry Scenario.secretEntry []
           (jsError "Error") Scenario.secret);
    try reflexivity.
  - apply dispatchable_hello; reflexivity.
  - unfold dispatchable. repeat split; try reflexivity. discriminate.
Defined.

(** C3 on the handler of the tests throwing
    [new TsrpcError('TsrpcError', 'TsrpcError')]. *)
Lemma typed_error_forwarded_witness :
  clientView
    (fst (apiHandler (Scenario.server false)
            (Scenario.routed (Scenario.server false) Scenario.nameTsrpcError)
            freshResponse))
  = writes []
      ++ WError "TsrpcError" (JStr "TsrpcError")
         :: completionWrites (Scenario.server false)
              (Scenario.routed (Scenario.server false) Scenario.nameTsrpcError)
  ∧ calls COnUnhandledApiError
      (fst (apiHandler (Scenario.server false)
              (Scenario.routed (Scenario.server false) Scenario.nameTsrpcError)
              freshResponse))
    = 0%nat.
Proof.
  apply (typed_error_forwarded (Scenario.server false)
           (Scenario.routed (Scenario.server false) Scenario.nameTsrpcError)
           freshResponse Scenario.helloEntry [] "TsrpcError" (JStr "TsrpcError")).
  - apply dispatchable_hello; reflexivity.
  - reflexivity.
Defined.

(** ** The completion hook *)

Section CompletionHook.

Local Open Scope nat_scope.

Variable srv : TsrpcServer.
Variable req : ApiRequest.
Variable res : ApiResponse.

(** A request that ends before the handler calls neither the handler nor
    the two hooks that follow it. *)
Lemma apiHandler_predispatch (c : Callee) :
  c ≠ COnPtlNotFound →
  (∀ e, ¬ dispatchable srv req res e) →
  calls c (fst (apiHandler srv req res)) = 0.
Proof.
  intros Hc Hnone.
  destruct (truthy (args req)) eqn:Ha;
    [|rewrite apiHandler_no_args by assumption; now destruct c].
  destruct (apiPreCheckError res) as [[msg info]|] eqn:Hp;
    [rewrite (apiHandler_preCheckError srv req res msg info) by assumption;
     now destruct c|].
  destruct (rpcPtl req) as [p|] eqn:Hn.
  2:{ rewrite apiHandler_not_found by assumption.
      rewrite call_trace, calls_cons_invoke, calls_effects.
      now destruct c. }
  assert (Hn' : rpcPtl req ≠ None) by (rewrite Hn; discriminate).
  destruct (registered srv (rpcUrl req)) as [e|] eqn:Hr;
    [|rewrite apiHandler_no_entry by assumption; now destruct c].
  destruct (isError (reqValidator e (args req))) eqn:Hv.
  - rewrite (apiHandler_invalid srv req res e) by assumption. now destruct c.
  - exfalso. apply (Hnone e). now repeat split.
Qed.

(** Whether a request reaches its handler is decided by the checks. *)
Lemma dispatchable_decide :
  (∃ e, dispatchable srv req res e) ∨ (∀ e, ¬ dispatchable srv req res e).
Proof.
  unfold dispatchable.
  destruct (truthy (args req)); [|right; intros e (H & _); discriminate].
  destruct (apiPreCheckError res); [right; intros e (_ & H & _); discriminate|].
  destruct (rpcPtl req); [|right; intros e (_ & _ & H & _); now elim H].
  destruct (registered srv (rpcUrl req)) as [e|];
    [|right; intros e (_ & _ & _ & H & _); discriminate].
  destruct (isError (reqValidator e (args req))) eqn:Hv.
  - right. intros e' (_ & _ & _ & H & H'). congruence.
  - left. exists e. repeat split; try assumption. discriminate.
Qed.




End CompletionHook.




(** ** Registration: [implementPtl] *)

Section Registration.

Variable srv : TsrpcServer.

Lemma getPtlUrl_trace (ptl : TsrpcPtl) : fst (getPtlUrl srv ptl) = [].
Proof.
  unfold getPtlUrl.
  now destruct (negb _ || negb _).
Qed.

(** Registration does not read the registry to resolve a path. *)
Lemma getPtlUrl_registry (m : gmap string Entry) (ptl : TsrpcPtl) :
  getPtlUrl (set_implementedUrl srv m) ptl = getPtlUrl srv ptl.
Proof. reflexivity. Qed.

(** What [implementPtl] does for a protocol whose path is [u]. *)
Lemma implementPtl_resolved (ptl : TsrpcPtl) (h : ApiHandler) (u : string) :
  getPtlUrl srv ptl = ([], Ok u) →
  implementPtl srv ptl h =
    ((if implemented srv u then
        [Eff (Console LWarn
                [JStr ("You are implementing a duplicated protocol: "
                       +:+ filename ptl);
                 JStr ("url=" +:+ u)])]
      else [])
     ++ [Eff (Console LLog
                [JStr "Protocol registered succ: "; JStr u; JStr (filename ptl)])],
     Ok (set_implementedUrl srv
           (<[u := {| protocol := ptl; handler := h;
                      reqValidator :=
                        getValidator srv ("Req" +:+ name ptl)
                          (replaceJsExt (filename ptl)) |}]>
              (_implementedUrl srv)))).
Proof.
  intros H. unfold implementPtl. rewrite H. cbn.
  now destruct (implemented srv u).
Qed.

(** A path with an entry of its own is found by the duplicate test. *)
Lemma implemented_own (u : string) (e : Entry) :
  _implementedUrl srv !! u = Some e → implemented srv u = true.
Proof. intros H. unfold implemented. now rewrite H. Qed.

End Registration.

(** C6. Two protocols that resolve to the same path are both registered
    without an exception. After the second registration the entry at that
    path holds the second protocol, the second handler and the validator
    obtained for the second protocol; the second registration writes the
    duplicate warning to the console; the entries at other paths are as the
    first registration left them. *)
Theorem implementPtl_last_write_wins
    (srv : TsrpcServer) (p1 p2 : TsrpcPtl) (h1 h2 : ApiHandler) (u : string) :
  getPtlUrl srv p1 = ([], Ok u) →
  getPtlUrl srv p2 = ([], Ok u) →
  ∃ tr1 srv1 tr2 srv2,
    implementPtl srv p1 h1 = (tr1, Ok srv1)
    ∧ implementPtl srv1 p2 h2 = (tr2, Ok srv2)
    ∧ _implementedUrl srv2 !! u
      = Some {| protocol := p2; handler := h2;
                reqValidator :=
                  getValidator srv ("Req" +:+ name p2) (replaceJsExt (filename p2)) |}
    ∧ In (Eff (Console LWarn
                 [JStr ("You are implementing a duplicated protocol: " +:+ filename p2);
                  JStr ("url=" +:+ u)]))
         tr2
    ∧ (∀ u', u' ≠ u → _implementedUrl srv2 !! u' = _implementedUrl srv1 !! u').
Proof.
  intros H1 H2.
  do 4 eexists.
  split; [exact (implementPtl_resolved srv p1 h1 u H1)|].
  split; [apply (implementPtl_resolved _ p2 h2 u); now rewrite getPtlUrl_registry|].
  cbn [_implementedUrl set_implementedUrl getValidator].
  split; [now rewrite lookup_insert_eq|].
  split.
  - erewrite implemented_own by apply lookup_insert_eq. left. reflexivity.
  - intros u' Hne. now rewrite lookup_insert_ne.
Qed.

(** C6 on [PtlHello.ts] and [PtlHello.js], which both resolve to [/Hello]. *)
Lemma implementPtl_last_write_wins_witness :
  ∃ tr1 srv1 tr2 srv2,
    implementPtl (newTsrpcServer (Scenario.conf false) (fun _ _ => Scenario.acceptAll))
      Scenario.PtlHello ApiHelloWorld = (tr1, Ok srv1)
    ∧ implementPtl srv1 {| name := "Hello"; filename := "/proto/PtlHello.js" |}
        (Scenario.throwing Scenario.secret) = (tr2, Ok srv2)
    ∧ _implementedUrl srv2 !! "/Hello"
      = Some {| protocol := {| name := "Hello"; filename := "/proto/PtlHello.js" |};
                handler := Scenario.throwing Scenario.secret;
                reqValidator := Scenario.acceptAll |}
    ∧ In (Eff (Console LWarn
                 [JStr "You are implementing a duplicated protocol: /proto/PtlHello.js";
                  JStr "url=/Hello"]))
         tr2
    ∧ (∀ u', u' ≠ "/Hello" → _implementedUrl srv2 !! u' = _implementedUrl srv1 !! u').
Proof.
  apply (implementPtl_last_write_wins
           (newTsrpcServer (Scenario.conf false) (fun _ _ => Scenario.acceptAll))
           Scenario.PtlHello {| name := "Hello"; filename := "/proto/PtlHello.js" |}
           ApiHelloWorld (Scenario.throwing Scenario.secret) "/Hello");
    reflexivity.
Defined.

(** ** Envelopes and exceptions *)

(** The answer to a body that did not decode (C7): the client is sent the
    text [Invalid Request Body] with status 400 through Express' [send], which
    is no success or error envelope. *)
Lemma decode_failure_sends_raw_text :
  clientView (fst (handleRequest (Scenario.server false) (Scenario.request JUndefined)))
  = [WSend 400 "Invalid Request Body"]
  ∧ forallb isEnvelope
      (clientView
         (fst (handleRequest (Scenario.server false) (Scenario.request JUndefined))))
    = false.
Proof. split; reflexivity. Qed.

(** C7, as the code has it. A request without arguments is answered by the
    raw text [Invalid Request Body] with status 400. For a request with
    arguments, on a server with the class's own not-found and unhandled-error
    hooks whose handler and completion hook answer through [res.succ] and
    [res.error], every write to the response is an envelope. Whatever the
    handler throws is caught and turned into an error envelope, sent after
    what the handler had written and before what the completion hook writes:
    a [TsrpcError] into the envelope of its message and its info, anything
    else, by the class's own unhandled-error hook, into [Internal Server
    Error] / [UNHANDLED_API_ERROR]. The thrown value does not leave the final
    router: the run ends as the completion hook ends, and when the hooks
    return, the final router returns too. *)
Theorem response_envelope_once_decoded
    (srv : TsrpcServer) (req : ApiRequest) (res : ApiResponse) :
  (truthy (args req) = false →
   clientView (fst (apiHandler srv req res)) = [WSend 400 "Invalid Request Body"])
  ∧ (truthy (args req) = true →
     onPtlNotFound srv = default_onPtlNotFound →
     onUnhandledApiError srv = default_onUnhandledApiError →
     userWritesEnvelopes srv req →
     forallb isEnvelope (clientView (fst (apiHandler srv req res))) = true)
  ∧ (∀ e, dispatchable srv req res e →
          returnsNormally (λ err, onUnhandledApiError srv err req) →
          (∀ hook, onApiComplete srv = Some hook → snd (hook req) = None) →
          snd (apiHandler srv req res) = Ok tt)
  ∧ (∀ e effs msg info,
       dispatchable srv req res e →
       handler e req = (effs, Some (TsrpcError msg info)) →
       clientView (fst (apiHandler srv req res))
       = writes effs ++ WError msg info :: completionWrites srv req
       ∧ snd (apiHandler srv req res) = snd (completion srv req))
  ∧ (∀ e effs err,
       dispatchable srv req res e →
       onUnhandledApiError srv = default_onUnhandledApiError →
       handler e req = (effs, Some (OtherError err)) →
       clientView (fst (apiHandler srv req res))
       = writes effs
         ++ WError "Internal Server Error" (JStr "UNHANDLED_API_ERROR")
         :: completionWrites srv req
       ∧ snd (apiHandler srv req res) = snd (completion srv req)).
Proof.
  split; [intros Ha; now rewrite apiHandler_no_args|].
  split; [|split; [|split]].
  4:{ intros e effs err Hd Hun Hrun.
      rewrite (apiHandler_untyped srv req res e Hd effs
                 [Console LError [rpcUrl req; args req; err];
                  Respond (WError "Internal Server Error" (JStr "UNHANDLED_API_ERROR"))]
                 err Hrun) by now rewrite Hun.
      cbn [fst snd]. unfold requestLog. cbn [clientView].
      rewrite clientView_app, clientView_effects. cbn [clientView map app].
      now rewrite clientView_completion. }
  3:{ intros e effs msg info Hd Hrun.
      rewrite (apiHandler_typed srv req res e Hd _ _ _ Hrun).
      cbn [fst snd]. unfold requestLog. cbn [clientView].
      rewrite clientView_app, clientView_effects. cbn [clientView].
      now rewrite clientView_completion. }
  - intros Ha Hnf Hun [Hh Hc].
    destruct (apiPreCheckError res) as [[msg info]|] eqn:Hp;
      [now rewrite (apiHandler_preCheckError srv req res msg info)|].
    destruct (rpcPtl req) as [p|] eqn:Hn;
      [|now rewrite apiHandler_not_found, Hnf].
    assert (Hn' : rpcPtl req ≠ None) by (rewrite Hn; discriminate).
    destruct (registered srv (rpcUrl req)) as [e|] eqn:Hr;
      [|now rewrite apiHandler_no_entry].
    destruct (isError (reqValidator e (args req))) eqn:Hv;
      [now rewrite (apiHandler_invalid srv req res e)|].
    assert (Hd : dispatchable srv req res e) by now repeat split.
    specialize (Hh e eq_refl).
    destruct (handler e req) as [effs [[msg info|err]|]] eqn:Hrun; cbn [fst] in Hh.
    + rewrite (apiHandler_typed srv req res e Hd _ _ _ Hrun). cbn [fst].
      unfold requestLog. cbn [clientView].
      rewrite clientView_app, clientView_effects. cbn [clientView].
      rewrite clientView_completion, forallb_app, Hh. cbn. exact Hc.
    + rewrite (apiHandler_untyped srv req res e Hd effs
                 [Console LError [rpcUrl req; args req; err];
                  Respond (WError "Internal Server Error" (JStr "UNHANDLED_API_ERROR"))]
                 err Hrun) by now rewrite Hun.
      cbn [fst]. unfold requestLog. cbn [clientView].
      rewrite clientView_app, clientView_effects. cbn [clientView map app].
      rewrite clientView_completion, forallb_app, Hh. cbn. exact Hc.
    + rewrite (apiHandler_returns srv req res e Hd _ Hrun). cbn [fst].
      unfold requestLog. cbn [clientView].
      rewrite clientView_app, clientView_effects, clientView_completion,
        forallb_app, Hh. exact Hc.
  - intros e Hd Hret Hhook.
    pose proof (completion_returns srv req Hhook) as Hc.
    destruct (handler e req) as [effs [[msg info|err]|]] eqn:Hrun.
    + now rewrite (apiHandler_typed srv req res e Hd _ _ _ Hrun).
    + destruct (onUnhandledApiError srv err req) as [effs' out] eqn:Hu.
      pose proof (Hret err) as Hout. cbn beta in Hout. rewrite Hu in Hout.
      cbn [snd] in Hout. subst out.
      now rewrite (apiHandler_untyped srv req res e Hd _ _ _ Hrun Hu).
    + now rewrite (apiHandler_returns srv req res e Hd _ Hrun).
Qed.

(** C7 on the server of the tests: a request without arguments, and a
    request whose handler throws. *)
Lemma response_envelope_once_decoded_witness :
  clientView
    (fst (apiHandler (Scenario.server false) (Scenario.request JUndefined) freshResponse))
  = [WSend 400 "Invalid Request Body"]
  ∧ forallb isEnvelope
      (clientView
         (fst (apiHandler (Scenario.server false)
                 (Scenario.routed (Scenario.server false) Scenario.nameError)
                 freshResponse)))
    = true
  ∧ clientView
      (fst (apiHandler (Scenario.server false)
              (Scenario.routed (Scenario.server false) Scenario.nameError)
              freshResponse))
    = writes []
      ++ WError "Internal Server Error" (JStr "UNHANDLED_API_ERROR")
      :: completionWrites (Scenario.server false)
           (Scenario.routed (Scenario.server false) Scenario.nameError)
  ∧ snd (apiHandler (Scenario.server false)
           (Scenario.routed (Scenario.server false) Scenario.nameError)
           freshResponse)
    = Ok tt.
Proof.
  split.
  { apply (proj1 (response_envelope_once_decoded (Scenario.server false)
                    (Scenario.request JUndefined) freshResponse)).
    reflexivity. }
  split.
  { apply (proj1 (proj2 (response_envelope_once_decoded (Scenario.server false)
                           (Scenario.routed (Scenario.server false) Scenario.nameError)
                           freshResponse)));
      try reflexivity.
    split; [|reflexivity].
    intros e He.
    assert (Some e = Some Scenario.helloEntry) as Heq
      by (rewrite <- He; reflexivity).
    injection Heq as ->. reflexivity. }
  split.
  { refine (proj1 (proj2 (proj2 (proj2 (proj2
             (response_envelope_once_decoded (Scenario.server false)
                (Scenario.routed (Scenario.server false) Scenario.nameError)
                freshResponse))))
             Scenario.helloEntry [] (jsError "Error") _ _ _)).
    - apply dispatchable_hello; reflexivity.
    - reflexivity.
    - reflexivity. }
  apply (proj1 (proj2 (proj2 (response_envelope_once_decoded (Scenario.server false)
                         (Scenario.routed (Scenario.server false) Scenario.nameError)
                         freshResponse)))
           Scenario.helloEntry).
  - apply dispatchable_hello; reflexivity.
  - intros err. reflexivity.
  - intros hook H. discriminate H.
Defined.

(** ** The two addressing modes *)

(** When the lookup that ends the middleware does not throw. *)
Lemma no_throw_path_mode (srv : TsrpcServer) (req : ApiRequest) :
  hideApiPath (config srv) = false → checkProtocolRegistered_throws srv req = false.
Proof.
  intros H. unfold checkProtocolRegistered_throws.
  now rewrite H, andb_false_r.
Qed.

Lemma no_throw_convertible (srv : TsrpcServer) (req : ApiRequest) :
  toStrThrows (getField (args req) "__tsrpc_url__") = false →
  checkProtocolRegistered_throws srv req = false.
Proof.
  intros H. unfold checkProtocolRegistered_throws.
  now rewrite H, andb_false_r.
Qed.

Lemma no_throw_not_truthy (srv : TsrpcServer) (req : ApiRequest) :
  truthy (getField (args req) "__tsrpc_url__") = false →
  checkProtocolRegistered_throws srv req = false.
Proof.
  intros H. unfold checkProtocolRegistered_throws.
  now rewrite H, andb_false_r.
Qed.

Lemma no_throw_no_args (srv : TsrpcServer) (req : ApiRequest) :
  truthy (args req) = false → checkProtocolRegistered_throws srv req = false.
Proof. intros H. unfold checkProtocolRegistered_throws. now rewrite H. Qed.

(** A primitive is converted without an exception. *)
Lemma toStrThrows_truthy_false (v : JsValue) :
  truthy v = false → toStrThrows v = false.
Proof. now destruct v. Qed.

(** The lookup throws for a request with arguments, on a server that hides
    the path, whose reserved field cannot be converted; the chain then ends
    with the [TypeError] and nothing written. *)
Lemma checkProtocolRegistered_throws_true (srv : TsrpcServer) (req : ApiRequest) :
  truthy (args req) = true →
  hideApiPath (config srv) = true →
  toStrThrows (getField (args req) "__tsrpc_url__") = true →
  checkProtocolRegistered_throws srv req = true.
Proof.
  intros Ha Hm Ht. unfold checkProtocolRegistered_throws.
  rewrite Ha, Hm, Ht.
  now destruct (getField (args req) "__tsrpc_url__").
Qed.

Lemma handleRequest_throws (srv : TsrpcServer) (req : ApiRequest) :
  checkProtocolRegistered_throws srv req = true →
  handleRequest srv req = ([], Throw (OtherError (jsTypeError notPrimitive))).
Proof. intros H. unfold handleRequest. now rewrite H. Qed.

Section AddressingModes.

Variable srv : TsrpcServer.

Lemma filter_reserved_absent (fields : list (string * JsValue)) :
  assoc "__tsrpc_url__" fields = None →
  List.filter (λ kv, negb (String.eqb "__tsrpc_url__" (fst kv))) fields = fields.
Proof.
  induction fields as [|[k v] fields IH]; [reflexivity|].
  cbn [assoc List.filter fst].
  destruct (String.eqb "__tsrpc_url__" k); [discriminate|].
  intros H. cbn [negb]. now rewrite IH.
Qed.

(** A path sent in the reserved field of the body, on a server that hides
    the path, leaves the same request as the same path sent in the URL
    without the field, on a server that does not. *)
Lemma hidden_path_same_request (url0 p : string) (body0 id ip : JsValue)
    (fields : list (string * JsValue)) :
  assoc "__tsrpc_url__" fields = None →
  startsWith p (urlRootPath (config srv)) = true →
  checkProtocolRegistered (withHideApiPath true srv)
    (incoming url0 p body0 id ip
       (JObj (("__tsrpc_url__",
               JStr ("/" +:+ substrFrom p
                               (Z.of_nat (String.length (urlRootPath (config srv))))))
              :: fields)))
    freshResponse
  = checkProtocolRegistered (withHideApiPath false srv)
      (incoming url0 p body0 id ip (JObj fields)) freshResponse.
Proof.
  intros Hf Hp. unfold checkProtocolRegistered.
  cbn [args incoming truthy negb config withHideApiPath hideApiPath urlRootPath
       path getField assoc].
  change (String.eqb "__tsrpc_url__" "__tsrpc_url__") with true.
  cbn iota. rewrite Hf, Hp. cbn [isNullish truthy].
  unfold setArgs, setRpcUrl, deleteField.
  cbn [args url path body reqId realIp rpcUrl rpcPtl incoming List.filter fst].
  change (String.eqb "__tsrpc_url__" "__tsrpc_url__") with true.
  cbn [negb]. now rewrite (filter_reserved_absent fields Hf).
Qed.

Lemma hidden_path_same_run (url0 p : string) (body0 id ip : JsValue)
    (fields : list (string * JsValue)) :
  assoc "__tsrpc_url__" fields = None →
  startsWith p (urlRootPath (config srv)) = true →
  handleRequest (withHideApiPath true srv)
    (incoming url0 p body0 id ip
       (JObj (("__tsrpc_url__",
               JStr ("/" +:+ substrFrom p
                               (Z.of_nat (String.length (urlRootPath (config srv))))))
              :: fields)))
  = handleRequest (withHideApiPath false srv)
      (incoming url0 p body0 id ip (JObj fields)).
Proof.
  intros Hf Hp. unfold handleRequest.
  rewrite no_throw_convertible by reflexivity.
  rewrite (no_throw_path_mode (withHideApiPath false srv)) by reflexivity.
  rewrite (hidden_path_same_request url0 p body0 id ip fields Hf Hp).
  reflexivity.
Qed.

(** With no router handler added, the final router runs on what the
    server's own middleware leaves. *)
Lemma handleRequest_emptyRouter (req : ApiRequest) :
  _routerBeforeApiHandler srv = emptyRouter →
  checkProtocolRegistered_throws srv req = false →
  handleRequest srv req
  = apiHandler srv (fst (checkProtocolRegistered srv req freshResponse))
      (snd (checkProtocolRegistered srv req freshResponse)).
Proof.
  intros H Hno. unfold handleRequest. rewrite Hno.
  destruct (checkProtocolRegistered srv req freshResponse) as [req1 res1].
  rewrite H. unfold emptyRouter. cbn [fst snd].
  now destruct (apiHandler srv req1 res1).
Qed.

End AddressingModes.

(** The reserved field under the specification's name (C8): on a server that
    hides the path, the body [{__rpc_path__:"/Hello", name:"world"}] carries
    no [__tsrpc_url__]; the request is answered [REQ_CANT_BE_RESOLVED] and
    the handler is not called. *)
Lemma rpc_path_field_not_resolved :
  handleRequest (Scenario.server true) (Scenario.request Scenario.renamedWorld)
  = ([Eff (Respond
             (WError "HideApiPath is enabled, set it to true too in your client config."
                (JStr "REQ_CANT_BE_RESOLVED")))],
     Ok tt)
  ∧ clientView
      (fst (handleRequest (Scenario.server false) (Scenario.request Scenario.world)))
    = [WSucc Scenario.helloWorld].
Proof. split; reflexivity. Qed.

(** C8, as the code has it. The reserved field is [__tsrpc_url__]. On a
    server that hides the path, with [Hello] implemented by [ApiHelloWorld]
    and a validator that accepts [{name:"world"}], the request whose body is
    [{__tsrpc_url__:"/Hello", name:"world"}] gets the path [/Hello] from the
    field, loses the field before validation and the handler, and from there
    on is the request to [/Hello] of the server that does not hide the path:
    the two runs are equal, and the client is sent the success envelope
    [{reply:"Hello, world!"}]. *)
Theorem hidden_path_hello (validators : string → string → IValidator) :
  isError (validators "ReqHello" "/proto/PtlHello.ts" Scenario.world) = false →
  rpcUrl (Scenario.routed (Scenario.serverWith true validators ApiHelloWorld)
            Scenario.hiddenWorld)
  = JStr "/Hello"
  ∧ args (Scenario.routed (Scenario.serverWith true validators ApiHelloWorld)
            Scenario.hiddenWorld)
    = Scenario.world
  ∧ Scenario.routed (Scenario.serverWith true validators ApiHelloWorld)
      Scenario.hiddenWorld
    = Scenario.routed (Scenario.serverWith false validators ApiHelloWorld)
        Scenario.world
  ∧ handleRequest (Scenario.serverWith true validators ApiHelloWorld)
      (Scenario.request Scenario.hiddenWorld)
    = handleRequest (Scenario.serverWith false validators ApiHelloWorld)
        (Scenario.request Scenario.world)
  ∧ clientView
      (fst (handleRequest (Scenario.serverWith true validators ApiHelloWorld)
              (Scenario.request Scenario.hiddenWorld)))
    = [WSucc Scenario.helloWorld].
Proof.
  intros Hv.
  assert (Hrun :
    handleRequest (Scenario.serverWith true validators ApiHelloWorld)
      (Scenario.request Scenario.hiddenWorld)
    = handleRequest (Scenario.serverWith false validators ApiHelloWorld)
        (Scenario.request Scenario.world)).
  { exact (hidden_path_same_run
             (Scenario.serverWith false validators ApiHelloWorld)
             "/Hello" "/Hello" JUndefined (JNum 1) (JStr "127.0.0.1")
             [("name", JStr "world")] eq_refl eq_refl). }
  repeat split; try reflexivity; try exact Hrun.
  rewrite Hrun.
  set (srvP := Scenario.serverWith false validators ApiHelloWorld).
  set (e := {| protocol := Scenario.PtlHello; handler := ApiHelloWorld;
               reqValidator := validators "ReqHello" "/proto/PtlHello.ts" |}).
  assert (Hd : dispatchable srvP (Scenario.routed srvP Scenario.world) freshResponse e).
  { unfold dispatchable. repeat split; try reflexivity; [discriminate | exact Hv]. }
  rewrite (handleRequest_emptyRouter srvP _ eq_refl) by reflexivity.
  change (checkProtocolRegistered srvP (Scenario.request Scenario.world) freshResponse)
    with (Scenario.routed srvP Scenario.world, freshResponse).
  cbn [fst snd].
  rewrite (apiHandler_returns srvP _ _ e Hd
             [Respond (WSucc Scenario.helloWorld)] eq_refl).
  reflexivity.
Qed.

(** C8 on the server of the tests, whose validator accepts every value. *)
Lemma hidden_path_hello_witness :
  rpcUrl (Scenario.routed (Scenario.server true) Scenario.hiddenWorld) = JStr "/Hello"
  ∧ args (Scenario.routed (Scenario.server true) Scenario.hiddenWorld) = Scenario.world
  ∧ Scenario.routed (Scenario.server true) Scenario.hiddenWorld
    = Scenario.routed (Scenario.server false) Scenario.world
  ∧ handleRequest (Scenario.server true) (Scenario.request Scenario.hiddenWorld)
    = handleRequest (Scenario.server false) (Scenario.request Scenario.world)
  ∧ clientView
      (fst (handleRequest (Scenario.server true) (Scenario.request Scenario.hiddenWorld)))
    = [WSucc Scenario.helloWorld].
Proof.
  apply (hidden_path_hello (fun _ _ => Scenario.acceptAll)). reflexivity.
Defined.

(** The mismatches the middleware does detect: on a server with no router
    handler added, a request with arguments is answered
    [REQ_CANT_BE_RESOLVED] when the server hides the path and the reserved
    field is absent or null, and when the server does not hide the path and
    the reserved field holds a truthy value; nothing else of the request is
    read. *)
Lemma addressing_mismatch_rejected (srv : TsrpcServer) (req : ApiRequest) :
  _routerBeforeApiHandler srv = emptyRouter →
  truthy (args req) = true →
  (hideApiPath (config srv) = true
   ∧ isNullish (getField (args req) "__tsrpc_url__") = true)
  ∨ (hideApiPath (config srv) = false
     ∧ truthy (getField (args req) "__tsrpc_url__") = true) →
  ∃ msg,
    handleRequest srv req
    = ([Eff (Respond (WError msg (JStr "REQ_CANT_BE_RESOLVED")))], Ok tt).
Proof.
  intros Hr Ha H.
  assert (Hno : checkProtocolRegistered_throws srv req = false).
  { destruct H as [[_ Hf] | [Hm _]]; [|now apply no_throw_path_mode].
    apply no_throw_not_truthy.
    now destruct (getField (args req) "__tsrpc_url__"). }
  rewrite (handleRequest_emptyRouter srv req Hr Hno).
  unfold checkProtocolRegistered. rewrite Ha. cbn [negb].
  destruct H as [[-> ->] | [-> ->]]; eexists; cbn [fst snd];
    apply apiHandler_preCheckError; [exact Ha | reflexivity | exact Ha | reflexivity].
Qed.

(** C4 at the request the code lets through. The server does not hide the
    path; the decoded body holds the reserved field, with the empty string.
    The middleware sets no pre-check error, the handler is called and the
    client is sent the success envelope, not [REQ_CANT_BE_RESOLVED]. *)
Theorem empty_reserved_field_dispatched :
  hideApiPath (config (Scenario.server false)) = false
  ∧ assoc "__tsrpc_url__"
      [("__tsrpc_url__", JStr EmptyString); ("name", JStr "world")]
    = Some (JStr EmptyString)
  ∧ apiPreCheckError
      (snd (checkProtocolRegistered (Scenario.server false)
              (Scenario.request Scenario.emptyUrlWorld) freshResponse))
    = None
  ∧ calls CHandler
      (fst (handleRequest (Scenario.server false)
              (Scenario.request Scenario.emptyUrlWorld)))
    = 1%nat
  ∧ clientView
      (fst (handleRequest (Scenario.server false)
              (Scenario.request Scenario.emptyUrlWorld)))
    = [WSucc Scenario.helloWorld].
Proof. repeat split; reflexivity. Qed.


(** ** The scenarios of the tests, run on the model *)

(** [Hello] at [/Hello], body [{name:"world"}], path in the URL. *)
Example scenario_hello_world :
  handleRequest (Scenario.server false) (Scenario.request Scenario.world)
  = ([Eff (Console LLog
             [JStr "[ApiReq]"; JStr "#1"; JStr "/Hello"; JStr "127.0.0.1";
              JStr EmptyString]);
      Invoke CHandler;
      Eff (Respond (WSucc Scenario.helloWorld))],
     Ok tt).
Proof. reflexivity. Qed.

(** Body [{name:"Error"}]: the generic envelope. *)
Example scenario_error :
  clientView
    (fst (handleRequest (Scenario.server false) (Scenario.request Scenario.nameError)))
  = [WError "Internal Server Error" (JStr "UNHANDLED_API_ERROR")].
Proof. reflexivity. Qed.

(** Body [{name:"TsrpcError"}]: the error of the handler. *)
Example scenario_tsrpc_error :
  clientView
    (fst (handleRequest (Scenario.server false)
            (Scenario.request Scenario.nameTsrpcError)))
  = [WError "TsrpcError" (JStr "TsrpcError")].
Proof. reflexivity. Qed.

(** A request to [/NotRegistered]. *)
Example scenario_not_registered :
  clientView
    (fst (handleRequest (Scenario.server false)
            (incoming "/NotRegistered" "/NotRegistered" JUndefined (JNum 2)
               (JStr "127.0.0.1") Scenario.world)))
  = [WError "404 Not Found" (JStr "PTL_NOT_FOUND")].
Proof. reflexivity. Qed.

(** The completion hook is called outside the [try] block: what it throws
    leaves the final router, after the response was written. *)
Example completion_hook_exception_escapes :
  apiHandler
    (Scenario.withOnApiComplete (Scenario.server false) Scenario.failingHook)
    (Scenario.routed (Scenario.server false) Scenario.world) freshResponse
  = ([Eff (Console LLog
             [JStr "[ApiReq]"; JStr "#1"; JStr "/Hello"; JStr "127.0.0.1";
              JStr EmptyString]);
      Invoke CHandler;
      Eff (Respond (WSucc Scenario.helloWorld));
      Invoke COnApiComplete],
     Throw (OtherError (jsError "audit failed"))).
Proof. reflexivity. Qed.

(* ================================================================== *)
(** * Further properties of the code *)
(* ================================================================== *)

(** ** Path resolution *)

Section MorePathResolution.

Local Open Scope nat_scope.

Lemma replaceJsExt_js (stem : string) :
  replaceJsExt (stem +:+ ".js") = stem +:+ ".ts".
Proof.
  unfold replaceJsExt. rewrite endsWith_app, length_append.
  replace (String.length stem + String.length ".js" - 3)
    with (String.length stem) by (simpl; lia).
  now rewrite take_app.
Qed.

Lemma containsChar_app (c : ascii) (a b : string) :
  containsChar c (a +:+ b) = containsChar c a || containsChar c b.
Proof.
  induction a as [|x a IH]; [reflexivity|].
  rewrite append_cons. simpl. now rewrite IH, orb_assoc.
Qed.

Lemma containsChar_replaceBackslashes (s : string) :
  containsChar backslash (replaceBackslashes s) = false.
Proof.
  unfold replaceBackslashes.
  induction s as [|x s IH]; [reflexivity|].
  simpl. rewrite IH, orb_false_r.
  destruct (Ascii.eqb x backslash) eqn:E; [reflexivity | exact E].
Qed.

Lemma containsChar_drop (c : ascii) (n : nat) (s : string) :
  containsChar c s = false → containsChar c (drop n s) = false.
Proof.
  revert s; induction n as [|n IH]; intros [|x s] H; simpl in *; try assumption.
  apply IH. now apply orb_false_elim in H as [_ H].
Qed.

Lemma containsChar_replacePtl (c : ascii) (s : string) :
  containsChar c s = false → containsChar c (replacePtl s) = false.
Proof.
  induction s as [|x s IH]; intros H.
  - reflexivity.
  - unfold replacePtl; fold replacePtl.
    destruct (ptlMatchHere (String x s)).
    + now apply (containsChar_drop c 3).
    + simpl in *. apply orb_false_elim in H as [Hx Hs].
      now rewrite Hx, IH.
Qed.

End MorePathResolution.

(** A registration that returns resolved the path of its protocol. *)
Lemma implementPtl_ok_inv (srv srv' : TsrpcServer) (ptl : TsrpcPtl)
    (h : ApiHandler) (tr : list Event) :
  implementPtl srv ptl h = (tr, Ok srv') →
  ∃ u, getPtlUrl srv ptl = ([], Ok u)
       ∧ implementPtl srv ptl h
         = ((if implemented srv u then
               [Eff (Console LWarn
                       [JStr ("You are implementing a duplicated protocol: "
                              +:+ filename ptl);
                        JStr ("url=" +:+ u)])]
             else [])
            ++ [Eff (Console LLog
                       [JStr "Protocol registered succ: "; JStr u;
                        JStr (filename ptl)])],
            Ok (set_implementedUrl srv
                  (<[u := {| protocol := ptl; handler := h;
                             reqValidator :=
                               getValidator srv ("Req" +:+ name ptl)
                                 (replaceJsExt (filename ptl)) |}]>
                     (_implementedUrl srv)))).
Proof.
  intros H.
  destruct (getPtlUrl srv ptl) as [t [u|e]] eqn:Hu.
  - pose proof (getPtlUrl_trace srv ptl) as Ht. rewrite Hu in Ht. cbn in Ht.
    subst t. exists u. split; [reflexivity|].
    now apply implementPtl_resolved.
  - unfold implementPtl in H. rewrite Hu in H. discriminate H.
Qed.

(** X1. A protocol compiled to [stem.js] and its source [stem.ts] resolve
    alike, to the same path or to the same error; when the [.js] file can be
    registered so can the [.ts] file, and the two registries hold the same
    handlers and the same validators at every path. *)
Theorem getPtlUrl_js_as_ts (srv : TsrpcServer) (stem n : string) (h : ApiHandler) :
  getPtlUrl srv {| name := n; filename := stem +:+ ".js" |}
  = getPtlUrl srv {| name := n; filename := stem +:+ ".ts" |}
  ∧ ∀ tr1 srv1,
      implementPtl srv {| name := n; filename := stem +:+ ".js" |} h = (tr1, Ok srv1) →
      ∃ tr2 srv2,
        implementPtl srv {| name := n; filename := stem +:+ ".ts" |} h = (tr2, Ok srv2)
        ∧ ∀ k,
            handler <$> (_implementedUrl srv1 !! k)
            = handler <$> (_implementedUrl srv2 !! k)
            ∧ reqValidator <$> (_implementedUrl srv1 !! k)
              = reqValidator <$> (_implementedUrl srv2 !! k).
Proof.
  assert (Hurl : getPtlUrl srv {| name := n; filename := stem +:+ ".js" |}
                 = getPtlUrl srv {| name := n; filename := stem +:+ ".ts" |}).
  { unfold getPtlUrl. cbn [filename].
    now rewrite replaceJsExt_js, replaceJsExt_ts. }
  split; [exact Hurl|].
  intros tr1 srv1 H1.
  destruct (implementPtl_ok_inv _ _ _ _ _ H1) as (u & Hu & Heq).
  rewrite Heq in H1. injection H1 as _ <-.
  do 2 eexists. split.
  - apply (implementPtl_resolved srv _ h u). now rewrite <- Hurl.
  - intros k. cbn [_implementedUrl set_implementedUrl filename name].
    destruct (decide (u = k)) as [->|Hne].
    + rewrite !lookup_insert_eq. cbn.
      now rewrite replaceJsExt_js, replaceJsExt_ts.
    + now rewrite !lookup_insert_ne.
Qed.

(** X1 on the protocol of the tests, compiled. *)
Lemma getPtlUrl_js_as_ts_witness :
  ∃ tr2 srv2,
    implementPtl (newTsrpcServer (Scenario.conf false) (fun _ _ => Scenario.acceptAll))
      {| name := "Hello"; filename := "/proto/PtlHello" +:+ ".ts" |} ApiHelloWorld
    = (tr2, Ok srv2)
    ∧ ∀ k,
        handler <$>
          (_implementedUrl
             (set_implementedUrl
                (newTsrpcServer (Scenario.conf false) (fun _ _ => Scenario.acceptAll))
                (<["/Hello" :=
                     {| protocol := {| name := "Hello";
                                       filename := "/proto/PtlHello" +:+ ".js" |};
                        handler := ApiHelloWorld;
                        reqValidator := Scenario.acceptAll |}]> ∅))
           !! k)
        = handler <$> (_implementedUrl srv2 !! k)
        ∧ reqValidator <$>
            (_implementedUrl
               (set_implementedUrl
                  (newTsrpcServer (Scenario.conf false) (fun _ _ => Scenario.acceptAll))
                  (<["/Hello" :=
                       {| protocol := {| name := "Hello";
                                         filename := "/proto/PtlHello" +:+ ".js" |};
                          handler := ApiHelloWorld;
                          reqValidator := Scenario.acceptAll |}]> ∅))
             !! k)
          = reqValidator <$> (_implementedUrl srv2 !! k).
Proof.
  apply (proj2 (getPtlUrl_js_as_ts
                  (newTsrpcServer (Scenario.conf false) (fun _ _ => Scenario.acceptAll))
                  "/proto/PtlHello" "Hello" ApiHelloWorld)
           [Eff (Console LLog [JStr "Protocol registered succ: "; JStr "/Hello";
                               JStr "/proto/PtlHello.js"])]).
  reflexivity.
Defined.

(** X2. A resolved path holds no backslash. *)
Theorem getPtlUrl_no_backslash (srv : TsrpcServer) (ptl : TsrpcPtl)
    (tr : list Event) (u : string) :
  getPtlUrl srv ptl = (tr, Ok u) → containsChar backslash u = false.
Proof.
  unfold getPtlUrl. destruct (negb _ || negb _); [discriminate|].
  intros H. injection H as _ <-.
  apply containsChar_replacePtl, containsChar_replaceBackslashes.
Qed.

(** X2 on a location written with backslashes. *)
Lemma getPtlUrl_no_backslash_witness :
  containsChar backslash "/win/Hello" = false.
Proof.
  apply (getPtlUrl_no_backslash (Scenario.server false)
           {| name := "Hello";
              filename := "/proto" +:+ String backslash "win"
                          +:+ String backslash "PtlHello.ts" |}
           [] "/win/Hello").
  reflexivity.
Defined.

Section Segments.

Variable srv : TsrpcServer.

Lemma getPtlUrl_segment (ptl : TsrpcPtl) (dir seg : string) :
  replaceJsExt (filename ptl)
  = protocolPath (config srv) +:+ dir +:+ "/" +:+ seg +:+ ".ts" →
  getPtlUrl srv ptl
  = ([], Ok (replaceBackslashes dir +:+ "/" +:+ replacePtl (replaceBackslashes seg))).
Proof.
  intros H.
  rewrite (getPtlUrl_between srv ptl (dir +:+ "/" +:+ seg)).
  - unfold replaceBackslashes. rewrite mapChars_app.
    change ("/" +:+ seg) with (String slash seg). cbn [mapChars].
    change (if Ascii.eqb slash backslash then slash else slash) with slash.
    now rewrite replacePtl_segment.
  - rewrite H. f_equal. now rewrite !app_assoc_str.
Qed.

Lemma replaceBackslashes_word (w : string) :
  allWord w = true → replaceBackslashes w = w.
Proof.
  unfold replaceBackslashes.
  induction w as [|c w IH]; [reflexivity|].
  simpl. intros H. apply andb_prop in H as [Hc Hw]. rewrite (IH Hw).
  destruct (Ascii.eqb c backslash) eqn:E; [|reflexivity].
  apply Ascii.eqb_eq in E. subst c. discriminate Hc.
Qed.

Lemma replacePtl_no_match (s : string) :
  (∀ j, ¬ PtlAt s j) → replacePtl s = s.
Proof.
  intros Hnone.
  destruct (replacePtl_spec s) as [(i & Hi & _) | [_ H]]; [|exact H].
  now elim (Hnone i).
Qed.

End Segments.

(** X3. Only what follows the last slash can lose a [Ptl]: for a location
    [root ++ dir ++ "/" ++ seg ++ ".ts"] the resolved path is [dir] with its
    backslashes turned into slashes, a slash, and [seg] resolved; a directory
    named like a protocol keeps its name. *)
Theorem getPtlUrl_keeps_directories (srv : TsrpcServer) (ptl : TsrpcPtl)
    (dir seg : string) :
  replaceJsExt (filename ptl)
  = protocolPath (config srv) +:+ dir +:+ "/" +:+ seg +:+ ".ts" →
  getPtlUrl srv ptl
  = ([], Ok (replaceBackslashes dir +:+ "/" +:+ replacePtl (replaceBackslashes seg))).
Proof. apply getPtlUrl_segment. Qed.

(** X3 on [/proto/PtlAdmin/PtlList.ts]. *)
Lemma getPtlUrl_keeps_directories_witness :
  getPtlUrl (Scenario.server false)
    {| name := "List"; filename := "/proto/PtlAdmin/PtlList.ts" |}
  = ([], Ok "/PtlAdmin/List").
Proof.
  apply (getPtlUrl_keeps_directories (Scenario.server false)
           {| name := "List"; filename := "/proto/PtlAdmin/PtlList.ts" |}
           "/PtlAdmin" "PtlList").
  reflexivity.
Defined.

(** X4. The prefix [Ptl] is optional, so two files collide: for a name [w]
    of word characters in which the pattern matches nowhere, [Ptl ++ w ++ ".ts"]
    and [w ++ ".ts"] in the same directory resolve to the same path. *)
Theorem getPtlUrl_prefix_collision (srv : TsrpcServer) (dir w n1 n2 : string) :
  isWordTail w = true →
  (∀ j, ¬ PtlAt w j) →
  getPtlUrl srv
    {| name := n1;
       filename := protocolPath (config srv) +:+ dir +:+ "/" +:+ ("Ptl" +:+ w) +:+ ".ts" |}
  = ([], Ok (replaceBackslashes dir +:+ "/" +:+ w))
  ∧ getPtlUrl srv
      {| name := n2;
         filename := protocolPath (config srv) +:+ dir +:+ "/" +:+ w +:+ ".ts" |}
    = ([], Ok (replaceBackslashes dir +:+ "/" +:+ w)).
Proof.
  intros Hw Hnone.
  assert (Hall : allWord w = true) by now apply isWordTail_iff in Hw.
  assert (Hts : ∀ seg,
            replaceJsExt (protocolPath (config srv) +:+ dir +:+ "/" +:+ seg +:+ ".ts")
            = protocolPath (config srv) +:+ dir +:+ "/" +:+ seg +:+ ".ts").
  { intros seg. rewrite <- !app_assoc_str. apply replaceJsExt_ts. }
  split.
  - rewrite (getPtlUrl_segment srv _ dir ("Ptl" +:+ w)) by apply Hts.
    rewrite (replaceBackslashes_word ("Ptl" +:+ w)) by exact Hall.
    assert (Hm : replacePtl ("Ptl" +:+ w) = w).
    { change ("Ptl" +:+ w) with (String "P" (String "t" (String "l" w))).
      unfold replacePtl; fold replacePtl. unfold ptlMatchHere.
      cbn [startsWith drop]. rewrite !Ascii.eqb_refl, Hw. reflexivity. }
    now rewrite Hm.
  - rewrite (getPtlUrl_segment srv _ dir w) by apply Hts.
    now rewrite (replaceBackslashes_word w Hall), (replacePtl_no_match w Hnone).
Qed.

(** The pattern matches nowhere in [Hello]. *)
Lemma no_PtlAt_Hello (j : nat) : ¬ PtlAt "Hello" j.
Proof.
  intros (w & H & _).
  change ("Ptl" +:+ w) with (String "P" (String "t" (String "l" w))) in H.
  do 5 (destruct j as [|j]; [discriminate H|]).
  destruct j; discriminate H.
Qed.

(** X4 on [PtlHello.ts] and [Hello.ts]. *)
Lemma getPtlUrl_prefix_collision_witness :
  getPtlUrl (Scenario.server false)
    {| name := "Hello"; filename := "/proto" +:+ "/api" +:+ "/" +:+ ("Ptl" +:+ "Hello") +:+ ".ts" |}
  = ([], Ok (replaceBackslashes "/api" +:+ "/" +:+ "Hello"))
  ∧ getPtlUrl (Scenario.server false)
      {| name := "Hello"; filename := "/proto" +:+ "/api" +:+ "/" +:+ "Hello" +:+ ".ts" |}
    = ([], Ok (replaceBackslashes "/api" +:+ "/" +:+ "Hello")).
Proof.
  apply (getPtlUrl_prefix_collision (Scenario.server false) "/api" "Hello" "Hello" "Hello").
  - reflexivity.
  - exact no_PtlAt_Hello.
Defined.

(** ** Registration *)

(** X5. A registration that returns has resolved the path of its protocol
    and left, at that path, the protocol, the handler and the validator asked
    for under ['Req' + name] and the [.ts] file; every other path, the
    configuration, the hooks and the router are as before. *)
Theorem implementPtl_registers (srv srv' : TsrpcServer) (ptl : TsrpcPtl)
    (h : ApiHandler) (tr : list Event) :
  implementPtl srv ptl h = (tr, Ok srv') →
  ∃ u, getPtlUrl srv ptl = ([], Ok u)
       ∧ _implementedUrl srv' !! u
         = Some {| protocol := ptl; handler := h;
                   reqValidator :=
                     getValidator srv ("Req" +:+ name ptl)
                       (replaceJsExt (filename ptl)) |}
       ∧ (∀ k, k ≠ u → _implementedUrl srv' !! k = _implementedUrl srv !! k)
       ∧ config srv' = config srv
       ∧ onPtlNotFound srv' = onPtlNotFound srv
       ∧ onUnhandledApiError srv' = onUnhandledApiError srv
       ∧ onApiComplete srv' = onApiComplete srv
       ∧ _routerBeforeApiHandler srv' = _routerBeforeApiHandler srv
       ∧ getValidator srv' = getValidator srv.
Proof.
  intros H. destruct (implementPtl_ok_inv _ _ _ _ _ H) as (u & Hu & Heq).
  rewrite Heq in H. injection H as _ <-.
  exists u. split; [exact Hu|].
  cbn [_implementedUrl set_implementedUrl].
  split; [apply lookup_insert_eq|].
  split; [intros k Hk; now apply lookup_insert_ne|].
  repeat split.
Qed.

(** X5 on the registration of [Hello]. *)
Lemma implementPtl_registers_witness :
  ∃ u, getPtlUrl (newTsrpcServer (Scenario.conf false) (fun _ _ => Scenario.acceptAll))
         Scenario.PtlHello = ([], Ok u)
       ∧ _implementedUrl (Scenario.server false) !! u
         = Some {| protocol := Scenario.PtlHello; handler := ApiHelloWorld;
                   reqValidator := Scenario.acceptAll |}
       ∧ (∀ k, k ≠ u →
               _implementedUrl (Scenario.server false) !! k
               = _implementedUrl
                   (newTsrpcServer (Scenario.conf false) (fun _ _ => Scenario.acceptAll))
                 !! k)
       ∧ config (Scenario.server false)
         = config (newTsrpcServer (Scenario.conf false) (fun _ _ => Scenario.acceptAll))
       ∧ onPtlNotFound (Scenario.server false) = default_onPtlNotFound
       ∧ onUnhandledApiError (Scenario.server false) = default_onUnhandledApiError
       ∧ onApiComplete (Scenario.server false) = None
       ∧ _routerBeforeApiHandler (Scenario.server false) = emptyRouter
       ∧ getValidator (Scenario.server false) = (fun _ _ => Scenario.acceptAll).
Proof.
  apply (implementPtl_registers
           (newTsrpcServer (Scenario.conf false) (fun _ _ => Scenario.acceptAll))
           (Scenario.server false) Scenario.PtlHello ApiHelloWorld
           [Eff (Console LLog [JStr "Protocol registered succ: "; JStr "/Hello";
                               JStr "/proto/PtlHello.ts"])]).
  reflexivity.
Defined.

(** No member the registry inherits has a name that starts with a slash. *)
Lemma inherited_slash (registry : gmap string Entry) (u : string) :
  startsWith u "/" = true → inherited registry u = false.
Proof.
  destruct u as [|c u]; [discriminate|].
  cbn [startsWith]. rewrite andb_true_r. intros Hc.
  apply Ascii.eqb_eq in Hc. subst c.
  unfold inherited. now destruct (registry !! "__proto__").
Qed.

(** X6. A registration that returns warns on the console exactly when the
    lookup of the path in the registry is truthy: the path has an entry, or
    it names a member the registry inherits ([constructor], [toString], ...,
    which is so even on an empty registry). For a path that starts with a
    slash, that is exactly when the path already had an entry. The trace
    always ends with the line [Protocol registered succ]. *)
Theorem implementPtl_warns_iff_duplicate (srv srv' : TsrpcServer) (ptl : TsrpcPtl)
    (h : ApiHandler) (tr : list Event) (u : string) :
  implementPtl srv ptl h = (tr, Ok srv') →
  getPtlUrl srv ptl = ([], Ok u) →
  (existsb isWarning tr = true
   ↔ is_Some (_implementedUrl srv !! u) ∨ inherited (_implementedUrl srv) u = true)
  ∧ (startsWith u "/" = true →
     (existsb isWarning tr = true ↔ is_Some (_implementedUrl srv !! u)))
  ∧ last tr
    = Some (Eff (Console LLog
                   [JStr "Protocol registered succ: "; JStr u; JStr (filename ptl)])).
Proof.
  intros H Hu. rewrite (implementPtl_resolved srv ptl h u Hu) in H.
  injection H as <- _.
  assert (Hw : existsb isWarning
                 ((if implemented srv u then
                     [Eff (Console LWarn
                             [JStr ("You are implementing a duplicated protocol: "
                                    +:+ filename ptl);
                              JStr ("url=" +:+ u)])]
                   else [])
                  ++ [Eff (Console LLog
                             [JStr "Protocol registered succ: "; JStr u;
                              JStr (filename ptl)])])
               = implemented srv u)
    by now destruct (implemented srv u).
  rewrite Hw.
  assert (Hi : implemented srv u = true
               ↔ is_Some (_implementedUrl srv !! u)
                 ∨ inherited (_implementedUrl srv) u = true).
  { unfold implemented. destruct (_implementedUrl srv !! u) as [e|].
    - split; [intros _; left; now exists e | reflexivity].
    - split; [now right | intros [[e He]|Hin]; [discriminate | exact Hin]]. }
  split; [exact Hi|]. split.
  - intros Hs. rewrite Hi, (inherited_slash _ u Hs).
    split; [intros [Hown|Hin]; [exact Hown | discriminate] | now left].
  - now destruct (implemented srv u).
Qed.

(** X6 on the first registration of [Hello], which does not warn, and on
    the first registration of a protocol whose path is [constructor], which
    does. *)
Lemma implementPtl_warns_iff_duplicate_witness :
  (existsb isWarning
     [Eff (Console LLog [JStr "Protocol registered succ: "; JStr "/Hello";
                         JStr "/proto/PtlHello.ts"])] = true
   ↔ is_Some
       (_implementedUrl
          (newTsrpcServer (Scenario.conf false) (fun _ _ => Scenario.acceptAll))
        !! "/Hello"))
  ∧ existsb isWarning
      (fst (implementPtl Cases.bareServer Cases.PtlConstructor ApiHelloWorld))
    = true.
Proof.
  split.
  - apply (implementPtl_warns_iff_duplicate
             (newTsrpcServer (Scenario.conf false) (fun _ _ => Scenario.acceptAll))
             (Scenario.server false) Scenario.PtlHello ApiHelloWorld);
      reflexivity.
  - apply (proj1 (implementPtl_warns_iff_duplicate
                    Cases.bareServer
                    (set_implementedUrl Cases.bareServer
                       (<["constructor" :=
                            {| protocol := Cases.PtlConstructor;
                               handler := ApiHelloWorld;
                               reqValidator := Scenario.acceptAll |}]> ∅))
                    Cases.PtlConstructor ApiHelloWorld
                    (fst (implementPtl Cases.bareServer Cases.PtlConstructor
                            ApiHelloWorld))
                    "constructor" eq_refl eq_refl)).
    right. reflexivity.
Defined.

(** X7. Two protocols that resolve to different paths can be registered in
    either order: both orders return, and they leave the same server. *)
Theorem implementPtl_commutes (srv : TsrpcServer) (p1 p2 : TsrpcPtl)
    (h1 h2 : ApiHandler) (u1 u2 : string) :
  getPtlUrl srv p1 = ([], Ok u1) →
  getPtlUrl srv p2 = ([], Ok u2) →
  u1 ≠ u2 →
  ∃ tr1 s1 tr12 s12 tr2 s2 tr21 s21,
    implementPtl srv p1 h1 = (tr1, Ok s1)
    ∧ implementPtl s1 p2 h2 = (tr12, Ok s12)
    ∧ implementPtl srv p2 h2 = (tr2, Ok s2)
    ∧ implementPtl s2 p1 h1 = (tr21, Ok s21)
    ∧ s12 = s21.
Proof.
  intros H1 H2 Hne. do 8 eexists.
  split; [exact (implementPtl_resolved srv p1 h1 u1 H1)|].
  split; [apply (implementPtl_resolved _ p2 h2 u2); now rewrite getPtlUrl_registry|].
  split; [exact (implementPtl_resolved srv p2 h2 u2 H2)|].
  split; [apply (implementPtl_resolved _ p1 h1 u1); now rewrite getPtlUrl_registry|].
  unfold set_implementedUrl. cbn [config _implementedUrl onPtlNotFound
    onUnhandledApiError onApiComplete _routerBeforeApiHandler getValidator].
  f_equal. now apply insert_insert_ne.
Qed.

(** X7 on [Hello] and [Bye]. *)
Lemma implementPtl_commutes_witness :
  ∃ tr1 s1 tr12 s12 tr2 s2 tr21 s21,
    implementPtl (newTsrpcServer (Scenario.conf false) (fun _ _ => Scenario.acceptAll))
      Scenario.PtlHello ApiHelloWorld = (tr1, Ok s1)
    ∧ implementPtl s1 {| name := "Bye"; filename := "/proto/PtlBye.ts" |}
        (Scenario.throwing Scenario.secret) = (tr12, Ok s12)
    ∧ implementPtl (newTsrpcServer (Scenario.conf false) (fun _ _ => Scenario.acceptAll))
        {| name := "Bye"; filename := "/proto/PtlBye.ts" |}
        (Scenario.throwing Scenario.secret) = (tr2, Ok s2)
    ∧ implementPtl s2 Scenario.PtlHello ApiHelloWorld = (tr21, Ok s21)
    ∧ s12 = s21.
Proof.
  apply (implementPtl_commutes
           (newTsrpcServer (Scenario.conf false) (fun _ _ => Scenario.acceptAll))
           Scenario.PtlHello {| name := "Bye"; filename := "/proto/PtlBye.ts" |}
           ApiHelloWorld (Scenario.throwing Scenario.secret) "/Hello" "/Bye");
    [reflexivity | reflexivity | discriminate].
Defined.

(** ** From the URL to the handler *)

Section UrlToHandler.

Local Open Scope nat_scope.

Lemma take_all (s : string) : take (String.length s) s = s.
Proof. induction s as [|c s IH]; simpl; [reflexivity | now rewrite IH]. Qed.

Lemma drop_all (s : string) : drop (String.length s) s = EmptyString.
Proof. induction s as [|c s IH]; simpl; [reflexivity | exact IH]. Qed.

Lemma length_drop_str (n : nat) (s : string) :
  String.length (drop n s) = String.length s - n.
Proof.
  revert s; induction n as [|n IH]; intros [|c s]; simpl; auto.
Qed.

(** [s.substr(n)] for an index inside [s]. *)
Lemma substrFrom_drop (s : string) (n : nat) :
  n ≤ String.length s → substrFrom s (Z.of_nat n) = drop n s.
Proof.
  intros Hn. unfold substrFrom, substr; cbv zeta.
  destruct (Z.ltb_spec (Z.of_nat n) 0); [lia|].
  rewrite (Z.min_l (Z.of_nat n)) by lia.
  rewrite (Z.max_l (Z.of_nat (String.length s))) by lia.
  rewrite (Z.min_r (Z.of_nat (String.length s))) by lia.
  destruct (Z.leb_spec (Z.of_nat (String.length s) - Z.of_nat n) 0).
  - replace n with (String.length s) by lia. now rewrite drop_all.
  - rewrite Nat2Z.id.
    replace (Z.to_nat _) with (String.length (drop n s))
      by (rewrite length_drop_str; lia).
    apply take_all.
Qed.

End UrlToHandler.

Section PathMode.

Variable srv : TsrpcServer.
Variable req : ApiRequest.

Hypothesis Hmode : hideApiPath (config srv) = false.
Hypothesis Hargs : truthy (args req) = true.
Hypothesis Hfield : truthy (getField (args req) "__tsrpc_url__") = false.

(** What the middleware leaves of a request whose URL is under the root. *)
Lemma checkProtocolRegistered_under_root (rest : string) (res : ApiResponse) :
  path req = urlRootPath (config srv) +:+ rest →
  checkProtocolRegistered srv req res
  = (setRpcPtl (setRpcUrl req (JStr ("/" +:+ rest)))
       (protocol <$> (_implementedUrl srv !! ("/" +:+ rest))),
     res).
Proof.
  intros Hpath. unfold checkProtocolRegistered.
  rewrite Hargs, Hmode, Hfield, Hpath. cbn [negb].
  rewrite startsWith_app.
  rewrite substrFrom_drop by (rewrite length_append; lia).
  rewrite drop_app.
  unfold resolveRpcPtl, registered. cbn [rpcUrl setRpcUrl toStr].
  change (truthy (JStr ("/" +:+ rest))) with true. cbn [negb].
  now destruct (_implementedUrl srv !! ("/" +:+ rest)).
Qed.

Lemma checkProtocolRegistered_outside_root (res : ApiResponse) :
  startsWith (path req) (urlRootPath (config srv)) = false →
  checkProtocolRegistered srv req res
  = (req, setPreCheckError res "Invalid path" "INVALID_PATH").
Proof.
  intros Hpath. unfold checkProtocolRegistered.
  now rewrite Hargs, Hmode, Hfield, Hpath.
Qed.

End PathMode.

(** The trace of a request that reaches its handler starts with the line of
    the request, the call of the handler and the effects of the handler. *)
Lemma apiHandler_dispatch_trace (srv : TsrpcServer) (req : ApiRequest)
    (res : ApiResponse) (e : Entry) :
  dispatchable srv req res e →
  ∃ post,
    fst (apiHandler srv req res)
    = requestLog srv req :: Invoke CHandler :: map Eff (fst (handler e req)) ++ post.
Proof.
  intros Hd.
  destruct (handler e req) as [effs [[msg info|err]|]] eqn:Hh; cbn [fst].
  - rewrite (apiHandler_typed srv req res e Hd _ _ _ Hh). now eexists.
  - destruct (onUnhandledApiError srv err req) as [effs' [err'|]] eqn:Hu.
    + rewrite (apiHandler_untyped_hook_throws srv req res e Hd _ _ _ _ Hh Hu).
      now eexists.
    + rewrite (apiHandler_untyped srv req res e Hd _ _ _ Hh Hu). now eexists.
  - rewrite (apiHandler_returns srv req res e Hd _ Hh). now eexists.
Qed.

(** X8. Registration and routing fit together. Once a protocol whose path
    is [/rest] is registered on a server that reads the path from the URL, a
    request to the URL root followed by [rest], with arguments the validator
    of the protocol accepts and no truthy reserved field, calls the handler
    registered with it, once, on the request with [rpcUrl] and [rpcPtl] set. *)
Theorem registered_protocol_is_served
    (srv srv' : TsrpcServer) (ptl : TsrpcPtl) (h : ApiHandler) (tr : list Event)
    (rest : string) (req : ApiRequest) :
  implementPtl srv ptl h = (tr, Ok srv') →
  getPtlUrl srv ptl = ([], Ok ("/" +:+ rest)) →
  hideApiPath (config srv) = false →
  _routerBeforeApiHandler srv = emptyRouter →
  truthy (args req) = true →
  truthy (getField (args req) "__tsrpc_url__") = false →
  path req = urlRootPath (config srv) +:+ rest →
  isError (getValidator srv ("Req" +:+ name ptl) (replaceJsExt (filename ptl)) (args req))
  = false →
  calls CHandler (fst (handleRequest srv' req)) = 1%nat
  ∧ ∃ post,
      fst (handleRequest srv' req)
      = requestLog srv' (setRpcPtl (setRpcUrl req (JStr ("/" +:+ rest))) (Some ptl))
        :: Invoke CHandler
        :: map Eff (fst (h (setRpcPtl (setRpcUrl req (JStr ("/" +:+ rest))) (Some ptl))))
        ++ post.
Proof.
  intros Hreg Hu Hmode Hrouter Hargs Hfield Hpath Hvalid.
  rewrite (implementPtl_resolved srv ptl h _ Hu) in Hreg. injection Hreg as _ <-.
  set (entry := {| protocol := ptl; handler := h;
                   reqValidator := getValidator srv ("Req" +:+ name ptl)
                                     (replaceJsExt (filename ptl)) |}).
  set (srv' := set_implementedUrl srv (<["/" +:+ rest := entry]> (_implementedUrl srv))).
  set (req' := setRpcPtl (setRpcUrl req (JStr ("/" +:+ rest))) (Some ptl)).
  assert (Hcheck : checkProtocolRegistered srv' req freshResponse = (req', freshResponse)).
  { rewrite (checkProtocolRegistered_under_root srv' req Hmode Hargs Hfield rest)
      by exact Hpath.
    subst srv'. cbn [_implementedUrl set_implementedUrl].
    now rewrite lookup_insert_eq. }
  assert (Hd : dispatchable srv' req' freshResponse entry).
  { unfold dispatchable. repeat split; try assumption; try discriminate.
    unfold registered. subst srv'. cbn. apply lookup_insert_eq. }
  rewrite (handleRequest_emptyRouter srv' req Hrouter
             (no_throw_path_mode srv' req Hmode)), Hcheck.
  cbn [fst snd].
  split.
  - exact (apiHandler_calls_handler srv' req' freshResponse entry Hd).
  - exact (apiHandler_dispatch_trace srv' req' freshResponse entry Hd).
Qed.

(** X8 on [Hello] and the request of the tests. *)
Lemma registered_protocol_is_served_witness :
  calls CHandler
    (fst (handleRequest (Scenario.server false) (Scenario.request Scenario.world)))
  = 1%nat
  ∧ ∃ post,
      fst (handleRequest (Scenario.server false) (Scenario.request Scenario.world))
      = requestLog (Scenario.server false)
          (setRpcPtl (setRpcUrl (Scenario.request Scenario.world) (JStr ("/" +:+ "Hello")))
             (Some Scenario.PtlHello))
        :: Invoke CHandler
        :: map Eff
             (fst (ApiHelloWorld
                     (setRpcPtl
                        (setRpcUrl (Scenario.request Scenario.world)
                           (JStr ("/" +:+ "Hello")))
                        (Some Scenario.PtlHello))))
        ++ post.
Proof.
  apply (registered_protocol_is_served
           (newTsrpcServer (Scenario.conf false) (fun _ _ => Scenario.acceptAll))
           (Scenario.server false) Scenario.PtlHello ApiHelloWorld
           [Eff (Console LLog [JStr "Protocol registered succ: "; JStr "/Hello";
                               JStr "/proto/PtlHello.ts"])]
           "Hello" (Scenario.request Scenario.world));
    reflexivity.
Defined.

(** X9. On a server that reads the path from the URL, with no router handler
    added, a handler is called only for a request with arguments and no truthy
    reserved field, whose URL is the root followed by some [rest], whose
    arguments the validator accepts, and for the entry registered at
    ["/" ++ rest]: an entry whose path does not start with a slash is never
    served. *)
Theorem path_mode_serves_slash_paths_only (srv : TsrpcServer) (req : ApiRequest) :
  hideApiPath (config srv) = false →
  _routerBeforeApiHandler srv = emptyRouter →
  calls CHandler (fst (handleRequest srv req)) ≠ 0%nat →
  ∃ rest e,
    path req = urlRootPath (config srv) +:+ rest
    ∧ _implementedUrl srv !! ("/" +:+ rest) = Some e
    ∧ truthy (args req) = true
    ∧ truthy (getField (args req) "__tsrpc_url__") = false
    ∧ isError (reqValidator e (args req)) = false.
Proof.
  intros Hmode Hrouter Hcalls.
  rewrite (handleRequest_emptyRouter srv req Hrouter
             (no_throw_path_mode srv req Hmode)) in Hcalls.
  destruct (dispatchable_decide srv
              (fst (checkProtocolRegistered srv req freshResponse))
              (snd (checkProtocolRegistered srv req freshResponse)))
    as [[e Hd] | Hnone].
  2:{ elim Hcalls. apply apiHandler_predispatch; [discriminate | exact Hnone]. }
  destruct Hd as (Ha & Hp & Hn & Hr & Hv).
  destruct (truthy (args req)) eqn:Hargs.
  2:{ unfold checkProtocolRegistered in Ha. rewrite Hargs in Ha. cbn in Ha.
      congruence. }
  destruct (truthy (getField (args req) "__tsrpc_url__")) eqn:Hfield.
  { unfold checkProtocolRegistered in Hp. rewrite Hargs, Hmode, Hfield in Hp.
    discriminate Hp. }
  destruct (startsWith (path req) (urlRootPath (config srv))) eqn:Hstart.
  2:{ rewrite (checkProtocolRegistered_outside_root srv req Hmode Hargs Hfield _ Hstart)
        in Hp.
      discriminate Hp. }
  pose proof (startsWith_inv _ _ Hstart) as Hpath.
  revert Hr Hv.
  rewrite (checkProtocolRegistered_under_root srv req Hmode Hargs Hfield _ _ Hpath).
  cbn [fst snd]. unfold registered. cbn [rpcUrl setRpcPtl setRpcUrl toStr args].
  intros Hr Hv.
  exists (drop (String.length (urlRootPath (config srv))) (path req)), e.
  now repeat split.
Qed.

(** X9 on the request of the tests. *)
Lemma path_mode_serves_slash_paths_only_witness :
  ∃ rest e,
    path (Scenario.request Scenario.world)
    = urlRootPath (config (Scenario.server false)) +:+ rest
    ∧ _implementedUrl (Scenario.server false) !! ("/" +:+ rest) = Some e
    ∧ truthy (args (Scenario.request Scenario.world)) = true
    ∧ truthy (getField (args (Scenario.request Scenario.world)) "__tsrpc_url__") = false
    ∧ isError (reqValidator e (args (Scenario.request Scenario.world))) = false.
Proof.
  apply (path_mode_serves_slash_paths_only (Scenario.server false)
           (Scenario.request Scenario.world));
    [reflexivity | reflexivity | vm_compute; discriminate].
Defined.

(** ** The middleware "Check if protocol registered" and the answers it causes *)

(** X10. On a server that hides the path, with no router handler added, a
    request with arguments is answered [REQ_CANT_BE_RESOLVED] exactly when its
    reserved field is not truthy (absent, [null], the empty string, zero,
    [false]): with the message about [HideApiPath] when the field is absent or
    [null], with [Request cannot be resolved] otherwise. A truthy field sets
    no pre-check error and becomes [rpcUrl]; the URL of the request is not
    read. *)
Theorem hidden_path_needs_truthy_field (srv : TsrpcServer) (req : ApiRequest) :
  _routerBeforeApiHandler srv = emptyRouter →
  hideApiPath (config srv) = true →
  truthy (args req) = true →
  (isNullish (getField (args req) "__tsrpc_url__") = true →
   handleRequest srv req
   = ([Eff (Respond
              (WError "HideApiPath is enabled, set it to true too in your client config."
                 (JStr "REQ_CANT_BE_RESOLVED")))],
      Ok tt))
  ∧ (isNullish (getField (args req) "__tsrpc_url__") = false →
     truthy (getField (args req) "__tsrpc_url__") = false →
     handleRequest srv req
     = ([Eff (Respond (WError "Request cannot be resolved" (JStr "REQ_CANT_BE_RESOLVED")))],
        Ok tt))
  ∧ (truthy (getField (args req) "__tsrpc_url__") = true →
     apiPreCheckError (snd (checkProtocolRegistered srv req freshResponse)) = None
     ∧ rpcUrl (fst (checkProtocolRegistered srv req freshResponse))
       = getField (args req) "__tsrpc_url__").
Proof.
  intros Hrouter Hmode Hargs.
  assert (Hnull : isNullish (getField (args req) "__tsrpc_url__") = true →
                  truthy (getField (args req) "__tsrpc_url__") = false)
    by now destruct (getField (args req) "__tsrpc_url__").
  split; [|split].
  1: intros Hn;
     rewrite (handleRequest_emptyRouter srv req Hrouter
                (no_throw_not_truthy srv req (Hnull Hn))); revert Hn.
  2: intros Hn Hf;
     rewrite (handleRequest_emptyRouter srv req Hrouter
                (no_throw_not_truthy srv req Hf)); revert Hn Hf.
  all: unfold checkProtocolRegistered, resolveRpcPtl; rewrite Hargs, Hmode; cbn [negb].
  - intros ->. cbn [fst snd].
    now apply apiHandler_preCheckError.
  - intros -> Hf. cbn [rpcUrl setArgs setRpcUrl]. rewrite Hf. cbn [negb fst snd].
    apply apiHandler_preCheckError; [|reflexivity].
    cbn [args setArgs setRpcUrl].
    destruct (args req); cbn in *; try assumption; reflexivity.
  - intros Hf.
    assert (Hn : isNullish (getField (args req) "__tsrpc_url__") = false)
      by (destruct (getField (args req) "__tsrpc_url__"); try reflexivity;
          discriminate Hf).
    rewrite Hn. cbn [rpcUrl setArgs setRpcUrl]. rewrite Hf. cbn [negb fst snd].
    split; reflexivity.
Qed.

(** X10 on three bodies: no field, an empty field, the field of the tests. *)
Lemma hidden_path_needs_truthy_field_witness :
  handleRequest (Scenario.server true) (Scenario.request Scenario.world)
  = ([Eff (Respond
             (WError "HideApiPath is enabled, set it to true too in your client config."
                (JStr "REQ_CANT_BE_RESOLVED")))],
     Ok tt)
  ∧ handleRequest (Scenario.server true) (Scenario.request Scenario.emptyUrlWorld)
    = ([Eff (Respond (WError "Request cannot be resolved" (JStr "REQ_CANT_BE_RESOLVED")))],
       Ok tt)
  ∧ (apiPreCheckError
       (snd (checkProtocolRegistered (Scenario.server true)
               (Scenario.request Scenario.hiddenWorld) freshResponse))
     = None
     ∧ rpcUrl
         (fst (checkProtocolRegistered (Scenario.server true)
                 (Scenario.request Scenario.hiddenWorld) freshResponse))
       = getField (args (Scenario.request Scenario.hiddenWorld)) "__tsrpc_url__").
Proof.
  split; [|split].
  - apply (proj1 (hidden_path_needs_truthy_field (Scenario.server true)
                    (Scenario.request Scenario.world) eq_refl eq_refl eq_refl)).
    reflexivity.
  - apply (proj1 (proj2 (hidden_path_needs_truthy_field (Scenario.server true)
                           (Scenario.request Scenario.emptyUrlWorld)
                           eq_refl eq_refl eq_refl)));
      reflexivity.
  - apply (proj2 (proj2 (hidden_path_needs_truthy_field (Scenario.server true)
                           (Scenario.request Scenario.hiddenWorld)
                           eq_refl eq_refl eq_refl))).
    reflexivity.
Defined.

(** X11. On a server that reads the path from the URL, with no router
    handler added, a request with arguments and a truthy reserved field is
    answered [REQ_CANT_BE_RESOLVED], whatever its URL; without such a field, a
    URL that does not start with [urlRootPath] is answered [INVALID_PATH].
    Neither calls a handler or a hook. *)
Theorem path_mode_rejections (srv : TsrpcServer) (req : ApiRequest) :
  _routerBeforeApiHandler srv = emptyRouter →
  hideApiPath (config srv) = false →
  truthy (args req) = true →
  (truthy (getField (args req) "__tsrpc_url__") = true →
   handleRequest srv req
   = ([Eff (Respond
              (WError "HideApiPath is disabled, set it to false too in your client config."
                 (JStr "REQ_CANT_BE_RESOLVED")))],
      Ok tt))
  ∧ (truthy (getField (args req) "__tsrpc_url__") = false →
     startsWith (path req) (urlRootPath (config srv)) = false →
     handleRequest srv req
     = ([Eff (Respond (WError "Invalid path" (JStr "INVALID_PATH")))], Ok tt)).
Proof.
  intros Hrouter Hmode Hargs.
  rewrite (handleRequest_emptyRouter srv req Hrouter
             (no_throw_path_mode srv req Hmode)).
  split.
  - intros Hf. unfold checkProtocolRegistered. rewrite Hargs, Hmode, Hf.
    cbn [negb fst snd]. now apply apiHandler_preCheckError.
  - intros Hf Hpath.
    rewrite (checkProtocolRegistered_outside_root srv req Hmode Hargs Hf _ Hpath).
    cbn [fst snd]. now apply apiHandler_preCheckError.
Qed.

(** X11 on the server whose root is [/api/]: a body with the reserved field,
    and a URL outside the root. *)
Lemma path_mode_rejections_witness :
  handleRequest Cases.apiServer (Cases.requestTo "/api/Hello" Scenario.hiddenWorld)
  = ([Eff (Respond
             (WError "HideApiPath is disabled, set it to false too in your client config."
                (JStr "REQ_CANT_BE_RESOLVED")))],
     Ok tt)
  ∧ handleRequest Cases.apiServer (Cases.requestTo "/api" Scenario.world)
    = ([Eff (Respond (WError "Invalid path" (JStr "INVALID_PATH")))], Ok tt).
Proof.
  split.
  - apply (proj1 (path_mode_rejections Cases.apiServer
                    (Cases.requestTo "/api/Hello" Scenario.hiddenWorld)
                    eq_refl eq_refl eq_refl)).
    reflexivity.
  - apply (proj2 (path_mode_rejections Cases.apiServer
                    (Cases.requestTo "/api" Scenario.world)
                    eq_refl eq_refl eq_refl));
      reflexivity.
Defined.

(** X12. A request for a path with no entry in the registry is answered
    [PTL_NOT_FOUND] by the class's own hook, in both addressing modes, and no
    handler is called, whatever the other arguments are. On a server that
    hides the path this is so for a reserved field that can be converted to a
    property key; for one that cannot (a decoded object with a member
    [toString] of its own) the lookup of the middleware throws a [TypeError],
    and the server's code writes no answer. *)
Theorem unregistered_path_not_found (srv : TsrpcServer) (req : ApiRequest) :
  _routerBeforeApiHandler srv = emptyRouter →
  onPtlNotFound srv = default_onPtlNotFound →
  truthy (args req) = true →
  (hideApiPath (config srv) = false →
   truthy (getField (args req) "__tsrpc_url__") = false →
   ∀ rest, path req = urlRootPath (config srv) +:+ rest →
           _implementedUrl srv !! ("/" +:+ rest) = None →
           handleRequest srv req
           = ([Invoke COnPtlNotFound;
               Eff (Respond (WError "404 Not Found" (JStr "PTL_NOT_FOUND")))],
              Ok tt))
  ∧ (hideApiPath (config srv) = true →
     truthy (getField (args req) "__tsrpc_url__") = true →
     toStrThrows (getField (args req) "__tsrpc_url__") = false →
     _implementedUrl srv !! toStr (getField (args req) "__tsrpc_url__") = None →
     handleRequest srv req
     = ([Invoke COnPtlNotFound;
         Eff (Respond (WError "404 Not Found" (JStr "PTL_NOT_FOUND")))],
        Ok tt))
  ∧ (hideApiPath (config srv) = true →
     toStrThrows (getField (args req) "__tsrpc_url__") = true →
     handleRequest srv req = ([], Throw (OtherError (jsTypeError notPrimitive)))).
Proof.
  intros Hrouter Hhook Hargs.
  split; [|split].
  - intros Hmode Hf rest Hpath Hnone.
    rewrite (handleRequest_emptyRouter srv req Hrouter
               (no_throw_path_mode srv req Hmode)).
    rewrite (checkProtocolRegistered_under_root srv req Hmode Hargs Hf rest _ Hpath).
    rewrite Hnone. cbn [fst snd fmap option_fmap option_map].
    rewrite apiHandler_not_found by (try reflexivity; exact Hargs).
    now rewrite Hhook.
  - intros Hmode Hf Hconv Hnone.
    rewrite (handleRequest_emptyRouter srv req Hrouter
               (no_throw_convertible srv req Hconv)).
    assert (Hn : isNullish (getField (args req) "__tsrpc_url__") = false)
      by (destruct (getField (args req) "__tsrpc_url__"); try reflexivity;
          discriminate Hf).
    unfold checkProtocolRegistered, resolveRpcPtl, registered.
    rewrite Hargs, Hmode, Hn. cbn [negb rpcUrl setArgs setRpcUrl].
    rewrite Hf, Hconv, Hnone. cbn [negb fst snd].
    rewrite apiHandler_not_found; [now rewrite Hhook | | reflexivity | reflexivity].
    cbn [args setArgs setRpcUrl setRpcPtl].
    destruct (args req); cbn in *; try assumption; reflexivity.
  - intros Hmode Hthrows.
    apply handleRequest_throws.
    now apply checkProtocolRegistered_throws_true.
Qed.

(** X12 on a URL and on a field that name no protocol, and on a field that
    is the decoded object [{toString: 1}]. *)
Lemma unregistered_path_not_found_witness :
  handleRequest (Scenario.server false)
    (Cases.requestTo "/NotRegistered" Scenario.world)
  = ([Invoke COnPtlNotFound;
      Eff (Respond (WError "404 Not Found" (JStr "PTL_NOT_FOUND")))],
     Ok tt)
  ∧ handleRequest (Scenario.server true)
      (Cases.requestTo "/Hello"
         (JObj [("__tsrpc_url__", JStr "constructor"); ("name", JStr "world")]))
    = ([Invoke COnPtlNotFound;
        Eff (Respond (WError "404 Not Found" (JStr "PTL_NOT_FOUND")))],
       Ok tt)
  ∧ handleRequest (Scenario.server true)
      (Cases.requestTo "/Hello"
         (JObj [("__tsrpc_url__", JObj [("toString", JNum 1)]);
                ("name", JStr "world")]))
    = ([], Throw (OtherError (jsTypeError notPrimitive))).
Proof.
  split; [|split].
  - apply (proj1 (unregistered_path_not_found (Scenario.server false)
                    (Cases.requestTo "/NotRegistered" Scenario.world)
                    eq_refl eq_refl eq_refl)
             eq_refl eq_refl "NotRegistered");
      reflexivity.
  - apply (proj1 (proj2 (unregistered_path_not_found (Scenario.server true)
                           (Cases.requestTo "/Hello"
                              (JObj [("__tsrpc_url__", JStr "constructor");
                                     ("name", JStr "world")]))
                           eq_refl eq_refl eq_refl)));
      reflexivity.
  - apply (proj2 (proj2 (unregistered_path_not_found (Scenario.server true)
                           (Cases.requestTo "/Hello"
                              (JObj [("__tsrpc_url__", JObj [("toString", JNum 1)]);
                                     ("name", JStr "world")]))
                           eq_refl eq_refl eq_refl)));
      reflexivity.
Defined.

Section FieldRemoval.

Lemma assoc_filter_reserved (k : string) (fields : list (string * JsValue)) :
  assoc k (List.filter (λ kv, negb (String.eqb "__tsrpc_url__" (fst kv))) fields)
  = if String.eqb "__tsrpc_url__" k then None else assoc k fields.
Proof.
  induction fields as [|[k' v] fields IH]; cbn [List.filter assoc fst].
  - now destruct (String.eqb "__tsrpc_url__" k).
  - destruct (String.eqb "__tsrpc_url__" k') eqn:E'; cbn [negb assoc].
    + rewrite IH. apply String.eqb_eq in E'. subst k'.
      rewrite (String.eqb_sym k). now destruct (String.eqb "__tsrpc_url__" k).
    + rewrite IH. destruct (String.eqb k k') eqn:E; [|reflexivity].
      apply String.eqb_eq in E. subst k'. now rewrite E'.
Qed.

Lemma getField_deleteField (v : JsValue) (k : string) :
  getField (deleteField v "__tsrpc_url__") k
  = if String.eqb "__tsrpc_url__" k then
      match v with JObj _ => JUndefined | _ => getField v k end
    else getField v k.
Proof.
  destruct v; cbn [deleteField getField];
    try (now destruct (String.eqb "__tsrpc_url__" k)).
  rewrite assoc_filter_reserved.
  now destruct (String.eqb "__tsrpc_url__" k).
Qed.

End FieldRemoval.

(** X13. What the middleware changes of a request. It never changes [url],
    [path], [body], [reqId] or [realIp], nor any field of the arguments other
    than the reserved one. On a server that reads the path from the URL the
    arguments are left whole. On a server that hides the path, a reserved
    field that is not absent or [null] is moved out of the arguments into
    [rpcUrl]. A request without arguments is passed on as it came. *)
Theorem checkProtocolRegistered_frame (srv : TsrpcServer) (req : ApiRequest)
    (res : ApiResponse) :
  url (fst (checkProtocolRegistered srv req res)) = url req
  ∧ path (fst (checkProtocolRegistered srv req res)) = path req
  ∧ body (fst (checkProtocolRegistered srv req res)) = body req
  ∧ reqId (fst (checkProtocolRegistered srv req res)) = reqId req
  ∧ realIp (fst (checkProtocolRegistered srv req res)) = realIp req
  ∧ (∀ k, k ≠ "__tsrpc_url__" →
          getField (args (fst (checkProtocolRegistered srv req res))) k
          = getField (args req) k)
  ∧ (hideApiPath (config srv) = false →
     args (fst (checkProtocolRegistered srv req res)) = args req)
  ∧ (hideApiPath (config srv) = true → truthy (args req) = true →
     isNullish (getField (args req) "__tsrpc_url__") = false →
     getField (args (fst (checkProtocolRegistered srv req res))) "__tsrpc_url__"
     = JUndefined
     ∧ rpcUrl (fst (checkProtocolRegistered srv req res))
       = getField (args req) "__tsrpc_url__")
  ∧ (truthy (args req) = false → checkProtocolRegistered srv req res = (req, res)).
Proof.
  unfold checkProtocolRegistered, resolveRpcPtl.
  destruct (truthy (args req)) eqn:Hargs; cbn [negb].
  2:{ cbn [fst]. repeat split; try reflexivity; intros; discriminate. }
  destruct (hideApiPath (config srv)) eqn:Hmode.
  - destruct (isNullish (getField (args req) "__tsrpc_url__")) eqn:Hn.
    { cbn [fst]. repeat split; try reflexivity; intros; discriminate. }
    cbn [rpcUrl setArgs setRpcUrl args].
    assert (Hobj : ∃ fields, args req = JObj fields).
    { destruct (args req); try discriminate Hn. now eexists. }
    destruct Hobj as [fields Hobj].
    destruct (truthy (getField (args req) "__tsrpc_url__"));
      cbn [negb fst url path body reqId realIp args rpcUrl setRpcPtl];
      (repeat split; try reflexivity; try (intros; discriminate);
       cbn [args setArgs setRpcUrl];
       [ intros k Hk; rewrite getField_deleteField;
         destruct (String.eqb_spec "__tsrpc_url__" k); [now elim Hk | reflexivity]
       | rewrite getField_deleteField, Hobj; reflexivity ]).
  - destruct (truthy (getField (args req) "__tsrpc_url__"));
      [cbn [fst]; repeat split; try reflexivity; intros; discriminate|].
    destruct (startsWith (path req) (urlRootPath (config srv)));
      [|cbn [fst]; repeat split; try reflexivity; intros; discriminate].
    cbn [rpcUrl setRpcUrl truthy].
    change (String.eqb ("/" +:+ _) EmptyString) with false.
    cbn [negb fst url path body reqId realIp args rpcUrl setRpcPtl].
    repeat split; try reflexivity; intros; discriminate.
Qed.

(** X13 on the field-addressed request of the tests. *)
Lemma checkProtocolRegistered_frame_witness :
  getField
    (args (fst (checkProtocolRegistered (Scenario.server true)
                  (Scenario.request Scenario.hiddenWorld) freshResponse)))
    "__tsrpc_url__"
  = JUndefined
  ∧ rpcUrl (fst (checkProtocolRegistered (Scenario.server true)
                   (Scenario.request Scenario.hiddenWorld) freshResponse))
    = getField (args (Scenario.request Scenario.hiddenWorld)) "__tsrpc_url__".
Proof.
  pose proof (checkProtocolRegistered_frame (Scenario.server true)
                (Scenario.request Scenario.hiddenWorld) freshResponse) as H.
  destruct H as (_ & _ & _ & _ & _ & _ & _ & H & _).
  apply H; reflexivity.
Defined.

(** ** The final router: calls and answers *)

Section CallCounts.

Local Open Scope nat_scope.

Variable srv : TsrpcServer.
Variable req : ApiRequest.
Variable res : ApiResponse.

(** A request that ends before the handler calls the not-found hook at most
    once. *)
Lemma apiHandler_predispatch_not_found :
  (∀ e, ¬ dispatchable srv req res e) →
  calls COnPtlNotFound (fst (apiHandler srv req res)) ≤ 1.
Proof.
  intros Hnone.
  destruct (truthy (args req)) eqn:Ha;
    [|rewrite apiHandler_no_args by assumption; cbn; lia].
  destruct (apiPreCheckError res) as [[msg info]|] eqn:Hp;
    [rewrite (apiHandler_preCheckError srv req res msg info) by assumption; cbn; lia|].
  destruct (rpcPtl req) as [p|] eqn:Hn.
  2:{ rewrite apiHandler_not_found by assumption.
      rewrite call_trace, calls_cons_invoke, calls_effects. cbn. lia. }
  assert (Hn' : rpcPtl req ≠ None) by (rewrite Hn; discriminate).
  destruct (registered srv (rpcUrl req)) as [e|] eqn:Hr;
    [|rewrite apiHandler_no_entry by assumption; cbn; lia].
  destruct (isError (reqValidator e (args req))) eqn:Hv.
  - rewrite (apiHandler_invalid srv req res e) by assumption. cbn. lia.
  - exfalso. apply (Hnone e). now repeat split.
Qed.

(** The calls of each function in the run of a request that reaches its
    handler. *)
Lemma apiHandler_dispatch_calls (e : Entry) (c : Callee) :
  dispatchable srv req res e →
  calls c (fst (apiHandler srv req res))
  = match c with
    | CHandler => 1
    | COnPtlNotFound => 0
    | COnUnhandledApiError =>
        match snd (handler e req) with
        | Some (OtherError _) => 1
        | _ => 0
        end
    | COnApiComplete =>
        match onApiComplete srv, snd (handler e req) with
        | None, _ => 0
        | Some _, Some (OtherError err) =>
            match snd (onUnhandledApiError srv err req) with
            | None => 1
            | Some _ => 0
            end
        | Some _, _ => 1
        end
    end.
Proof.
  intros Hd.
  destruct (handler e req) as [effs [[msg info|err]|]] eqn:Hh; cbn [snd].
  - rewrite (apiHandler_typed srv req res e Hd _ _ _ Hh). cbn [fst].
    unfold requestLog.
    rewrite calls_cons_effect, calls_cons_invoke, calls_app, calls_effects,
      calls_cons_effect, calls_completion.
    destruct c, (onApiComplete srv); reflexivity.
  - destruct (onUnhandledApiError srv err req) as [effs' [err'|]] eqn:Hu; cbn [snd].
    + rewrite (apiHandler_untyped_hook_throws srv req res e Hd _ _ _ _ Hh Hu).
      cbn [fst]. unfold requestLog.
      rewrite calls_cons_effect, calls_cons_invoke, calls_app, calls_effects,
        calls_cons_invoke, calls_effects.
      destruct c, (onApiComplete srv); reflexivity.
    + rewrite (apiHandler_untyped srv req res e Hd _ _ _ Hh Hu). cbn [fst].
      unfold requestLog.
      rewrite calls_cons_effect, calls_cons_invoke, calls_app, calls_effects,
        calls_cons_invoke, calls_app, calls_effects, calls_completion.
      destruct c, (onApiComplete srv); reflexivity.
  - rewrite (apiHandler_returns srv req res e Hd _ Hh). cbn [fst].
    unfold requestLog.
    rewrite calls_cons_effect, calls_cons_invoke, calls_app, calls_effects,
      calls_completion.
    destruct c, (onApiComplete srv); reflexivity.
Qed.

End CallCounts.

(** X14. In one run of the final router every function is called at most
    once: the handler, the not-found hook, the unhandled-error hook, the
    completion hook. The not-found hook and the handler exclude each other;
    the unhandled-error hook and the completion hook are called only in a run
    that called the handler. *)
Theorem apiHandler_calls_at_most_once
    (srv : TsrpcServer) (req : ApiRequest) (res : ApiResponse) :
  (∀ c, calls c (fst (apiHandler srv req res)) ≤ 1)%nat
  ∧ (calls COnPtlNotFound (fst (apiHandler srv req res))
     + calls CHandler (fst (apiHandler srv req res)) ≤ 1)%nat
  ∧ (calls COnUnhandledApiError (fst (apiHandler srv req res))
     ≤ calls CHandler (fst (apiHandler srv req res)))%nat
  ∧ (calls COnApiComplete (fst (apiHandler srv req res))
     ≤ calls CHandler (fst (apiHandler srv req res)))%nat.
Proof.
  destruct (dispatchable_decide srv req res) as [[e Hd] | Hnone].
  - rewrite !(apiHandler_dispatch_calls srv req res e _ Hd).
    repeat split.
    + intros c. rewrite (apiHandler_dispatch_calls srv req res e c Hd).
      destruct c, (onApiComplete srv), (snd (handler e req)) as [[|err]|];
        try destruct (snd (onUnhandledApiError srv err req)); lia.
    + lia.
    + destruct (snd (handler e req)) as [[|err]|]; lia.
    + destruct (onApiComplete srv), (snd (handler e req)) as [[|err]|];
        try destruct (snd (onUnhandledApiError srv err req)); lia.
  - pose proof (apiHandler_predispatch_not_found srv req res Hnone) as Hnf.
    assert (H0 : ∀ c, c ≠ COnPtlNotFound →
                      calls c (fst (apiHandler srv req res)) = 0%nat)
      by (intros c Hc; now apply apiHandler_predispatch).
    rewrite (H0 CHandler), (H0 COnUnhandledApiError), (H0 COnApiComplete)
      by discriminate.
    repeat split; try lia.
    intros c. destruct c; try (rewrite H0 by discriminate; lia). exact Hnf.
Qed.

(** X15. Exactly one answer. On a server with no router handler added, with
    the class's own not-found and unhandled-error hooks and a completion hook
    that writes nothing, a request whose handler keeps its contract (one
    answer when it returns, none when it throws) is answered exactly once,
    whichever way it ends: bad request, pre-check error, not found, invalid
    arguments, success, typed or untyped error. The one request the server's
    code leaves without an answer is, on a server that hides the path, a
    request whose reserved field cannot be converted to a property key: the
    lookup of the middleware throws a [TypeError]. *)
Theorem exactly_one_response (srv : TsrpcServer) (req : ApiRequest) :
  _routerBeforeApiHandler srv = emptyRouter →
  onPtlNotFound srv = default_onPtlNotFound →
  onUnhandledApiError srv = default_onUnhandledApiError →
  (∀ r, completionWrites srv r = []) →
  (∀ e, registered srv (rpcUrl (fst (checkProtocolRegistered srv req freshResponse)))
        = Some e →
        answersOnce (handler e (fst (checkProtocolRegistered srv req freshResponse)))) →
  (hideApiPath (config srv) = false
   ∨ toStrThrows (getField (args req) "__tsrpc_url__") = false →
   length (clientView (fst (handleRequest srv req))) = 1%nat)
  ∧ (truthy (args req) = true →
     hideApiPath (config srv) = true →
     toStrThrows (getField (args req) "__tsrpc_url__") = true →
     clientView (fst (handleRequest srv req)) = []
     ∧ snd (handleRequest srv req) = Throw (OtherError (jsTypeError notPrimitive))).
Proof.
  intros Hrouter Hnf Hun Hc Hh.
  split.
  2:{ intros Ha Hm Ht.
      rewrite handleRequest_throws
        by now apply checkProtocolRegistered_throws_true.
      split; reflexivity. }
  intros Hno.
  assert (Hno' : checkProtocolRegistered_throws srv req = false)
    by (destruct Hno; [now apply no_throw_path_mode | now apply no_throw_convertible]).
  rewrite (handleRequest_emptyRouter srv req Hrouter Hno').
  destruct (checkProtocolRegistered srv req freshResponse) as [req1 res1] eqn:Hcheck.
  cbn [fst snd] in *.
  destruct (truthy (args req1)) eqn:Ha;
    [|now rewrite apiHandler_no_args].
  destruct (apiPreCheckError res1) as [[msg info]|] eqn:Hp;
    [now rewrite (apiHandler_preCheckError srv req1 res1 msg info)|].
  pose proof (checkProtocolRegistered_rpcPtl srv req req1 freshResponse res1
                Hcheck eq_refl Ha Hp) as Hptl.
  destruct (registered srv (rpcUrl req1)) as [e|] eqn:Hr; cbn in Hptl.
  2:{ now rewrite apiHandler_not_found, Hnf. }
  assert (Hn : rpcPtl req1 ≠ None) by (rewrite Hptl; discriminate).
  destruct (isError (reqValidator e (args req1))) eqn:Hv;
    [now rewrite (apiHandler_invalid srv req1 res1 e)|].
  assert (Hd : dispatchable srv req1 res1 e) by now repeat split.
  specialize (Hh e eq_refl). unfold answersOnce in Hh.
  destruct (handler e req1) as [effs [[msg info|err]|]] eqn:Hrun; cbn [fst snd] in Hh.
  - rewrite (apiHandler_typed srv req1 res1 e Hd _ _ _ Hrun). cbn [fst].
    unfold requestLog. cbn [clientView].
    rewrite clientView_app, clientView_effects, Hh. cbn [clientView app].
    now rewrite clientView_completion, Hc.
  - rewrite (apiHandler_untyped srv req1 res1 e Hd effs
               [Console LError [rpcUrl req1; args req1; err];
                Respond (WError "Internal Server Error" (JStr "UNHANDLED_API_ERROR"))]
               err Hrun) by now rewrite Hun.
    cbn [fst]. unfold requestLog. cbn [clientView].
    rewrite clientView_app, clientView_effects, Hh. cbn [clientView map app].
    now rewrite clientView_completion, Hc.
  - rewrite (apiHandler_returns srv req1 res1 e Hd _ Hrun). cbn [fst].
    unfold requestLog. cbn [clientView].
    rewrite clientView_app, clientView_effects, clientView_completion, Hc.
    now rewrite app_nil_r.
Qed.

(** X15 on the server and a request of the tests, and on the server that
    hides the path with the reserved field [{toString: 1}]. *)
Lemma exactly_one_response_witness :
  length
    (clientView
       (fst (handleRequest (Scenario.server false) (Scenario.request Scenario.nameError))))
  = 1%nat
  ∧ clientView
      (fst (handleRequest (Scenario.server true)
              (Scenario.request
                 (JObj [("__tsrpc_url__", JObj [("toString", JNum 1)]);
                        ("name", JStr "world")]))))
    = [].
Proof.
  split.
  - refine (proj1 (exactly_one_response (Scenario.server false)
                     (Scenario.request Scenario.nameError)
                     eq_refl eq_refl eq_refl (fun _ => eq_refl) _) _).
    + intros e He.
      assert (Some e = Some Scenario.helloEntry) as Heq
        by (rewrite <- He; reflexivity).
      injection Heq as ->. reflexivity.
    + left. reflexivity.
  - refine (proj1 (proj2 (exactly_one_response (Scenario.server true)
                            (Scenario.request
                               (JObj [("__tsrpc_url__", JObj [("toString", JNum 1)]);
                                      ("name", JStr "world")]))
                            eq_refl eq_refl eq_refl (fun _ => eq_refl) _)
                     eq_refl eq_refl eq_refl)).
    intros e He. discriminate He.
Defined.

(** X16. The dispatcher does not answer for a handler that returns: the
    client is sent what the handler wrote, then what the completion hook
    writes, and nothing when both wrote nothing; the unhandled-error hook is
    not called, and the run ends as the completion hook ends. *)
Theorem returning_handler_answers_itself
    (srv : TsrpcServer) (req : ApiRequest) (res : ApiResponse)
    (e : Entry) (effs : list Effect) :
  dispatchable srv req res e →
  handler e req = (effs, None) →
  clientView (fst (apiHandler srv req res)) = writes effs ++ completionWrites srv req
  ∧ snd (apiHandler srv req res) = snd (completion srv req)
  ∧ calls COnUnhandledApiError (fst (apiHandler srv req res)) = 0%nat.
Proof.
  intros Hd Hh. split; [|split].
  - rewrite (apiHandler_returns srv req res e Hd _ Hh). cbn [fst].
    unfold requestLog. cbn [clientView].
    now rewrite clientView_app, clientView_effects, clientView_completion.
  - now rewrite (apiHandler_returns srv req res e Hd _ Hh).
  - rewrite (apiHandler_dispatch_calls srv req res e _ Hd). now rewrite Hh.
Qed.

(** X16 on the handler of the tests asked to answer later: nothing is sent
    when it returns. *)
Lemma returning_handler_answers_itself_witness :
  clientView
    (fst (apiHandler (Scenario.server false)
            (Scenario.routed (Scenario.server false) (JObj [("name", JStr "Delay")]))
            freshResponse))
  = writes [SetTimeout 100 (WSucc (JObj [("reply", JStr "Hello, Delay!")]))]
    ++ completionWrites (Scenario.server false)
         (Scenario.routed (Scenario.server false) (JObj [("name", JStr "Delay")]))
  ∧ snd (apiHandler (Scenario.server false)
           (Scenario.routed (Scenario.server false) (JObj [("name", JStr "Delay")]))
           freshResponse)
    = snd (completion (Scenario.server false)
             (Scenario.routed (Scenario.server false) (JObj [("name", JStr "Delay")])))
  ∧ calls COnUnhandledApiError
      (fst (apiHandler (Scenario.server false)
              (Scenario.routed (Scenario.server false) (JObj [("name", JStr "Delay")]))
              freshResponse))
    = 0%nat.
Proof.
  apply (returning_handler_answers_itself (Scenario.server false)
           (Scenario.routed (Scenario.server false) (JObj [("name", JStr "Delay")]))
           freshResponse Scenario.helloEntry
           [SetTimeout 100 (WSucc (JObj [("reply", JStr "Hello, Delay!")]))]).
  - apply dispatchable_hello; reflexivity.
  - reflexivity.
Defined.

(** X17. Arguments the validator rejects are answered [INVALID_REQ_PARAM]
    and reach no handler and no hook. With [showParamInvalidReason] off the
    client is sent the fixed message [Invalid Request Parameter], whatever the
    validator reports; with it on, the field name and the message of the
    validator. Both times the field name and the message go to the console. *)
Theorem invalid_arguments_answer
    (srv : TsrpcServer) (req : ApiRequest) (res : ApiResponse) (e : Entry) :
  truthy (args req) = true →
  apiPreCheckError res = None →
  rpcPtl req ≠ None →
  registered srv (rpcUrl req) = Some e →
  isError (reqValidator e (args req)) = true →
  (showParamInvalidReason (config srv) = false →
   clientView (fst (apiHandler srv req res))
   = [WError "Invalid Request Parameter" (JStr "INVALID_REQ_PARAM")])
  ∧ (showParamInvalidReason (config srv) = true →
     clientView (fst (apiHandler srv req res))
     = [WError (fieldName (originalError (reqValidator e (args req))) +:+ ": "
                +:+ message (originalError (reqValidator e (args req))))
          (JStr "INVALID_REQ_PARAM")])
  ∧ In (Eff (Console LWarn
               [JStr "Invalid Request Parameter"; rpcUrl req;
                JStr (fieldName (originalError (reqValidator e (args req))) +:+ ": "
                      +:+ message (originalError (reqValidator e (args req))))]))
       (fst (apiHandler srv req res))
  ∧ (∀ c, calls c (fst (apiHandler srv req res)) = 0%nat)
  ∧ snd (apiHandler srv req res) = Ok tt.
Proof.
  intros Ha Hp Hn Hr Hv.
  rewrite (apiHandler_invalid srv req res e Ha Hp Hn Hr Hv). cbn [fst snd].
  unfold requestLog.
  split; [intros ->; reflexivity|].
  split; [intros ->; reflexivity|].
  split; [right; left; reflexivity|].
  split; [intros c; now destruct c | reflexivity].
Qed.

(** X17 on a server whose validator rejects every value. *)
Lemma invalid_arguments_answer_witness :
  clientView
    (fst (apiHandler
            (Scenario.serverWith false (fun _ _ => Scenario.rejectAll) ApiHelloWorld)
            (Scenario.routed (Scenario.server false) Scenario.world) freshResponse))
  = [WError "Invalid Request Parameter" (JStr "INVALID_REQ_PARAM")].
Proof.
  apply (proj1 (invalid_arguments_answer
                  (Scenario.serverWith false (fun _ _ => Scenario.rejectAll) ApiHelloWorld)
                  (Scenario.routed (Scenario.server false) Scenario.world)
                  freshResponse
                  {| protocol := Scenario.PtlHello; handler := ApiHelloWorld;
                     reqValidator := Scenario.rejectAll |}
                  eq_refl eq_refl ltac:(discriminate) eq_refl eq_refl)).
  reflexivity.
Defined.

(** X18. The hooks run outside the [try] block. When the handler throws a
    value that is no [TsrpcError] and the unhandled-error hook throws in its
    turn, what the hook throws leaves the final router, the completion hook
    is not called even when one is installed, and the client is sent only what
    the handler and the hook wrote before throwing. *)
Theorem throwing_unhandled_hook_escapes
    (srv : TsrpcServer) (req : ApiRequest) (res : ApiResponse) (e : Entry)
    (effs effs' : list Effect) (err : JsValue) (err' : Thrown) :
  dispatchable srv req res e →
  handler e req = (effs, Some (OtherError err)) →
  onUnhandledApiError srv err req = (effs', Some err') →
  snd (apiHandler srv req res) = Throw err'
  ∧ calls COnApiComplete (fst (apiHandler srv req res)) = 0%nat
  ∧ clientView (fst (apiHandler srv req res)) = writes effs ++ writes effs'.
Proof.
  intros Hd Hh Hu.
  rewrite (apiHandler_untyped_hook_throws srv req res e Hd _ _ _ _ Hh Hu).
  cbn [fst snd]. unfold requestLog. split; [reflexivity|]. split.
  - rewrite calls_cons_effect, calls_cons_invoke, calls_app, calls_effects,
      calls_cons_invoke, calls_effects. reflexivity.
  - cbn [clientView]. rewrite clientView_app, clientView_effects. cbn [clientView].
    now rewrite clientView_effects.
Qed.

(** X18 on the server of the tests with a completion hook and an
    unhandled-error hook that throws. *)
Lemma throwing_unhandled_hook_escapes_witness :
  snd (apiHandler
         (Cases.withOnUnhandledApiError
            (Scenario.withOnApiComplete (Scenario.server false) Scenario.auditHook)
            Cases.failingUnhandled)
         (Scenario.routed (Scenario.server false) Scenario.nameError) freshResponse)
  = Throw (OtherError (jsError "hook failed"))
  ∧ calls COnApiComplete
      (fst (apiHandler
              (Cases.withOnUnhandledApiError
                 (Scenario.withOnApiComplete (Scenario.server false) Scenario.auditHook)
                 Cases.failingUnhandled)
              (Scenario.routed (Scenario.server false) Scenario.nameError) freshResponse))
    = 0%nat
  ∧ clientView
      (fst (apiHandler
              (Cases.withOnUnhandledApiError
                 (Scenario.withOnApiComplete (Scenario.server false) Scenario.auditHook)
                 Cases.failingUnhandled)
              (Scenario.routed (Scenario.server false) Scenario.nameError) freshResponse))
    = writes [] ++ writes [].
Proof.
  apply (throwing_unhandled_hook_escapes
           (Cases.withOnUnhandledApiError
              (Scenario.withOnApiComplete (Scenario.server false) Scenario.auditHook)
              Cases.failingUnhandled)
           (Scenario.routed (Scenario.server false) Scenario.nameError) freshResponse
           Scenario.helloEntry [] [] (jsError "Error")
           (OtherError (jsError "hook failed"))).
  - unfold dispatchable. repeat split; try reflexivity. discriminate.
  - reflexivity.
  - reflexivity.
Defined.

(** X19. A request that a router handler marked with a protocol although
    the registry has no entry for its [rpcUrl] is not answered: reading the
    validator of the missing entry throws a [TypeError] out of the final
    router, after the line of the request and before any call or answer. The
    [TypeError] is that of reading a member of [undefined], or, for an
    [rpcUrl] that cannot be converted to a property key, that of the
    conversion. *)
Theorem missing_entry_throws
    (srv : TsrpcServer) (req : ApiRequest) (res : ApiResponse) :
  truthy (args req) = true →
  apiPreCheckError res = None →
  rpcPtl req ≠ None →
  registered srv (rpcUrl req) = None →
  snd (apiHandler srv req res)
  = Throw (OtherError
             (jsTypeError (if toStrThrows (rpcUrl req) then notPrimitive
                           else "Cannot read properties of undefined")))
  ∧ clientView (fst (apiHandler srv req res)) = []
  ∧ ∀ c, calls c (fst (apiHandler srv req res)) = 0%nat.
Proof.
  intros Ha Hp Hn Hr. rewrite (apiHandler_no_entry srv req res Ha Hp Hn Hr).
  cbn [fst snd]. unfold requestLog.
  split; [reflexivity|]. split; [reflexivity|]. intros c. now destruct c.
Qed.

(** X19 on a request marked with [Hello] and sent on to [/Gone]. *)
Lemma missing_entry_throws_witness :
  snd (apiHandler (Scenario.server false)
         (setRpcPtl (setRpcUrl (Scenario.request Scenario.world) (JStr "/Gone"))
            (Some Scenario.PtlHello))
         freshResponse)
  = Throw (OtherError (jsTypeError "Cannot read properties of undefined"))
  ∧ clientView
      (fst (apiHandler (Scenario.server false)
              (setRpcPtl (setRpcUrl (Scenario.request Scenario.world) (JStr "/Gone"))
                 (Some Scenario.PtlHello))
              freshResponse))
    = []
  ∧ ∀ c, calls c
           (fst (apiHandler (Scenario.server false)
                   (setRpcPtl (setRpcUrl (Scenario.request Scenario.world) (JStr "/Gone"))
                      (Some Scenario.PtlHello))
                   freshResponse))
         = 0%nat.
Proof.
  apply (missing_entry_throws (Scenario.server false)
           (setRpcPtl (setRpcUrl (Scenario.request Scenario.world) (JStr "/Gone"))
              (Some Scenario.PtlHello))
           freshResponse);
    try reflexivity.
  discriminate.
Defined.

(** ** The handler of the tests behind the server *)

(** X20. [ApiHelloWorld] behind the server, for every string [s] sent as
    [name] to [/Hello]: [Error] gets the generic [UNHANDLED_API_ERROR]
    envelope; [TsrpcError] gets the error envelope of the handler; [Delay]
    gets nothing when the handler returns, the answer being left to a timer;
    every other name gets the success envelope [Hello, s!], with [world] for
    the empty name. The handler is called once each time. *)
Theorem hello_world_answers (s : string) :
  clientView
    (fst (handleRequest (Scenario.server false)
            (Scenario.request (JObj [("name", JStr s)]))))
  = (if String.eqb s "Error" then
       [WError "Internal Server Error" (JStr "UNHANDLED_API_ERROR")]
     else if String.eqb s "TsrpcError" then
       [WError "TsrpcError" (JStr "TsrpcError")]
     else if String.eqb s "Delay" then []
     else
       [WSucc (JObj [("reply",
                      JStr ("Hello, "
                            +:+ (if String.eqb s EmptyString then "world" else s)
                            +:+ "!"))])])
  ∧ calls CHandler
      (fst (handleRequest (Scenario.server false)
              (Scenario.request (JObj [("name", JStr s)]))))
    = 1%nat.
Proof.
  rewrite (handleRequest_emptyRouter (Scenario.server false) _ eq_refl)
    by reflexivity.
  change (checkProtocolRegistered (Scenario.server false)
            (Scenario.request (JObj [("name", JStr s)])) freshResponse)
    with (Scenario.routed (Scenario.server false) (JObj [("name", JStr s)]),
          freshResponse).
  cbn [fst snd].
  assert (Hd : dispatchable (Scenario.server false)
                 (Scenario.routed (Scenario.server false) (JObj [("name", JStr s)]))
                 freshResponse Scenario.helloEntry)
    by (apply dispatchable_hello; reflexivity).
  split; [|exact (apiHandler_calls_handler _ _ _ _ Hd)].
  set (req := Scenario.routed (Scenario.server false) (JObj [("name", JStr s)])) in *.
  assert (Hrun : handler Scenario.helloEntry req
                 = if String.eqb s "Error" then ([], Some (OtherError (jsError "Error")))
                   else if String.eqb s "TsrpcError" then
                     ([], Some (TsrpcError "TsrpcError" (JStr "TsrpcError")))
                   else if String.eqb s "Delay" then
                     ([SetTimeout 100 (WSucc (JObj [("reply", JStr "Hello, Delay!")]))],
                      None)
                   else
                     ([Respond
                         (WSucc (JObj [("reply",
                            JStr ("Hello, "
                                  +:+ (if String.eqb s EmptyString then "world" else s)
                                  +:+ "!"))]))],
                      None)).
  { cbn [handler Scenario.helloEntry]. unfold ApiHelloWorld.
    change (getField (args req) "name") with (JStr s).
    cbn [toStrThrows looseEqStr truthy].
    destruct (String.eqb s "Error"); [reflexivity|].
    destruct (String.eqb s "TsrpcError"); [reflexivity|].
    destruct (String.eqb s "Delay"); [reflexivity|].
    now destruct (String.eqb s EmptyString). }
  destruct (String.eqb s "Error").
  { now rewrite (apiHandler_untyped _ _ _ _ Hd _ _ _ Hrun eq_refl). }
  destruct (String.eqb s "TsrpcError").
  { now rewrite (apiHandler_typed _ _ _ _ Hd _ _ _ Hrun). }
  destruct (String.eqb s "Delay").
  { now rewrite (apiHandler_returns _ _ _ _ Hd _ Hrun). }
  now rewrite (apiHandler_returns _ _ _ _ Hd _ Hrun).
Qed.

(** ** The constructor *)

(** X21. A constructed server has a URL root that ends with a slash: a root
    given with the slash is kept, a root given without gets one, and every
    other option is as given. Registration keeps the configuration, so the
    root of a server ends with a slash for good. *)
Theorem constructed_root_ends_with_slash
    (conf : ServerConfig) (validators : string → string → IValidator) :
  endsWith (urlRootPath (config (newTsrpcServer conf validators))) "/" = true
  ∧ (endsWith (urlRootPath conf) "/" = true →
     config (newTsrpcServer conf validators) = conf)
  ∧ (endsWith (urlRootPath conf) "/" = false →
     urlRootPath (config (newTsrpcServer conf validators)) = urlRootPath conf +:+ "/")
  ∧ protocolPath (config (newTsrpcServer conf validators)) = protocolPath conf
  ∧ hideApiPath (config (newTsrpcServer conf validators)) = hideApiPath conf
  ∧ showParamInvalidReason (config (newTsrpcServer conf validators))
    = showParamInvalidReason conf
  ∧ logRequestDetail (config (newTsrpcServer conf validators)) = logRequestDetail conf
  ∧ ∀ ptl h tr srv',
      implementPtl (newTsrpcServer conf validators) ptl h = (tr, Ok srv') →
      endsWith (urlRootPath (config srv')) "/" = true.
Proof.
  assert (Hroot : endsWith (urlRootPath (config (newTsrpcServer conf validators))) "/"
                  = true).
  { cbn [newTsrpcServer config urlRootPath].
    destruct (endsWith (urlRootPath conf) "/") eqn:E; [exact E | apply endsWith_app]. }
  split; [exact Hroot|].
  split; [intros H; cbn [newTsrpcServer config]; rewrite H; now destruct conf|].
  split; [intros H; cbn [newTsrpcServer config urlRootPath]; now rewrite H|].
  repeat split.
  intros ptl h tr srv' H.
  destruct (implementPtl_ok_inv _ _ _ _ _ H) as (u & _ & Heq).
  rewrite Heq in H. injection H as _ <-. exact Hroot.
Qed.

(** X21 on the registration of [Hello] under the root [/api]. *)
Lemma constructed_root_ends_with_slash_witness :
  urlRootPath (config (newTsrpcServer Cases.apiConf (fun _ _ => Scenario.acceptAll)))
  = urlRootPath Cases.apiConf +:+ "/"
  ∧ endsWith (urlRootPath (config Cases.apiServer)) "/" = true.
Proof.
  pose proof (constructed_root_ends_with_slash Cases.apiConf
                (fun _ _ => Scenario.acceptAll)) as H.
  destruct H as (_ & _ & Hadd & _ & _ & _ & _ & Hkeep).
  split.
  - apply Hadd. reflexivity.
  - apply (Hkeep Scenario.PtlHello ApiHelloWorld
             [Eff (Console LLog [JStr "Protocol registered succ: "; JStr "/Hello";
                                 JStr "/proto/PtlHello.ts"])]).
    reflexivity.
Defined.

Section Construct.

Local Open Scope nat_scope.

(** The line of the [k]-th message is numbered [k + 1]. *)
Lemma numbered_lookup (result : list string) (i k : nat) (v : string) :
  result !! k = Some v →
  numbered i result !! k
  = Some ("    " +:+ toStr (JNum (Z.of_nat (i + k) + 1)) +:+ ". " +:+ v).
Proof.
  revert i k; induction result as [|x result IH]; intros i k H; [discriminate|].
  destruct k as [|k]; simpl in H; simpl.
  - injection H as ->. now rewrite Nat.add_0_r.
  - rewrite (IH (S i) k H). now replace (S i + k) with (i + S k) by lia.
Qed.

Lemma numbered_length (result : list string) (i : nat) :
  length (numbered i result) = length result.
Proof.
  revert i; induction result as [|x result IH]; intros i; [reflexivity|].
  cbn [numbered length]. now rewrite IH.
Qed.

End Construct.

(** X22. How construction ends. With [autoImplement] off the server is
    returned. With it on and no [apiPath] (unset or empty) the constructor
    throws before the automatic implementation is called. With it on and an
    [apiPath], the server left by the automatic implementation is returned
    when it reports nothing; when it reports messages the constructor throws,
    and the message lists one line per report, the [k]-th numbered [k + 1].
    [EnableLog4js] is called exactly when [logFiles] is truthy. *)
Theorem construct_outcome
    (auto : TsrpcServer → string → string → TsrpcServer * option (list string))
    (validators : string → string → IValidator)
    (conf : ServerConfig) (opts : SetupOptions) :
  (autoImplement opts = false →
   snd (construct auto validators conf opts) = Ok (newTsrpcServer conf validators))
  ∧ (autoImplement opts = true → apiPathMissing (apiPath opts) = true →
     snd (construct auto validators conf opts)
     = Throw (OtherError (jsError "Must set apiPath when autoImplement is enabled"))
     ∧ ∀ a b, ¬ In (CallAutoImplement a b) (fst (construct auto validators conf opts)))
  ∧ (∀ p srv',
       autoImplement opts = true → apiPath opts = Some p → p ≠ EmptyString →
       auto (newTsrpcServer conf validators) (protocolPath conf) p = (srv', None) →
       snd (construct auto validators conf opts) = Ok srv')
  ∧ (∀ p srv' result,
       autoImplement opts = true → apiPath opts = Some p → p ≠ EmptyString →
       auto (newTsrpcServer conf validators) (protocolPath conf) p = (srv', Some result) →
       snd (construct auto validators conf opts)
       = Throw (OtherError
                  (jsError ("Auto implement protocol failed:" +:+ newline
                            +:+ joinLines (numbered 0 result))))
       ∧ length (numbered 0 result) = length result
       ∧ ∀ k v, result !! k = Some v →
                numbered 0 result !! k
                = Some ("    " +:+ toStr (JNum (Z.of_nat k + 1)) +:+ ". " +:+ v))
  ∧ (In (EnableLog4js (logFiles opts)) (fst (construct auto validators conf opts))
     ↔ truthy (logFiles opts) = true).
Proof.
  unfold construct.
  split; [intros ->; reflexivity|].
  split.
  { intros -> ->. split; [reflexivity|].
    intros a b. cbn [fst]. destruct (truthy (logFiles opts)); cbn; intuition congruence. }
  split.
  { intros p srv' -> -> Hp. cbn [apiPathMissing].
    destruct (String.eqb_spec p EmptyString); [contradiction|].
    cbn [newTsrpcServer config protocolPath].
    intros H. cbn [newTsrpcServer config protocolPath] in H. now rewrite H. }
  split.
  { intros p srv' result -> -> Hp. cbn [apiPathMissing].
    destruct (String.eqb_spec p EmptyString); [contradiction|].
    cbn [newTsrpcServer config protocolPath].
    intros H. cbn [newTsrpcServer config protocolPath] in H. rewrite H.
    split; [reflexivity|]. split; [apply numbered_length|].
    intros k v Hk. now rewrite (numbered_lookup result 0 k v Hk). }
  destruct (truthy (logFiles opts)) eqn:Hl.
  - split; [reflexivity|]. intros _.
    destruct (autoImplement opts); [|now left].
    destruct (apiPathMissing (apiPath opts)); [now left|].
    destruct (auto _ _ _) as [s' [r|]]; now left.
  - split; [|discriminate]. intros H. exfalso.
    destruct (autoImplement opts); [|exact H].
    destruct (apiPathMissing (apiPath opts)); [exact H|].
    destruct (auto _ _ _) as [s' [r|]]; cbn in H;
      intuition congruence.
Qed.

(** X22 on a construction without [apiPath] and on one whose automatic
    implementation reports two protocols. *)
Lemma construct_outcome_witness :
  (snd (construct (Cases.autoReports None) (fun _ _ => Scenario.acceptAll)
          (Scenario.conf false)
          {| logFiles := JUndefined; autoImplement := true; apiPath := None |})
   = Throw (OtherError (jsError "Must set apiPath when autoImplement is enabled"))
   ∧ ∀ a b,
       ¬ In (CallAutoImplement a b)
           (fst (construct (Cases.autoReports None) (fun _ _ => Scenario.acceptAll)
                   (Scenario.conf false)
                   {| logFiles := JUndefined; autoImplement := true; apiPath := None |})))
  ∧ (snd (construct (Cases.autoReports (Some ["PtlA"; "PtlB"]))
            (fun _ _ => Scenario.acceptAll) (Scenario.conf false)
            {| logFiles := JUndefined; autoImplement := true; apiPath := Some "/api" |})
     = Throw (OtherError
                (jsError ("Auto implement protocol failed:" +:+ newline
                          +:+ joinLines (numbered 0 ["PtlA"; "PtlB"]))))
     ∧ length (numbered 0 ["PtlA"; "PtlB"]) = length ["PtlA"; "PtlB"]
     ∧ ∀ k v, ["PtlA"; "PtlB"] !! k = Some v →
              numbered 0 ["PtlA"; "PtlB"] !! k
              = Some ("    " +:+ toStr (JNum (Z.of_nat k + 1)) +:+ ". " +:+ v)).
Proof.
  split.
  - apply (proj1 (proj2 (construct_outcome (Cases.autoReports None)
                           (fun _ _ => Scenario.acceptAll) (Scenario.conf false)
                           {| logFiles := JUndefined; autoImplement := true;
                              apiPath := None |})));
      reflexivity.
  - apply (proj1 (proj2 (proj2 (proj2
             (construct_outcome (Cases.autoReports (Some ["PtlA"; "PtlB"]))
                (fun _ _ => Scenario.acceptAll) (Scenario.conf false)
                {| logFiles := JUndefined; autoImplement := true;
                   apiPath := Some "/api" |}))))
             "/api"
             (newTsrpcServer (Scenario.conf false) (fun _ _ => Scenario.acceptAll)));
      try reflexivity.
    discriminate.
Defined.

(** ** Listening *)

Section Listening.

Import Listener.

Variable listen : JsValue → Listening.
Variable defaultPort : JsValue.

(** The port [start] listens on. *)
Lemma start_listens_once (st : State) (port : JsValue) :
  List.filter isListen (snd (fst (start listen defaultPort st port)))
  = [Listen (if truthy port then port else defaultPort)].
Proof.
  unfold start, init.
  destruct (_expressApp st), (listen (if truthy port then port else defaultPort));
    reflexivity.
Qed.

Lemma start_closes_nothing (st : State) (port : JsValue) :
  List.filter isClose (snd (fst (start listen defaultPort st port))) = [].
Proof.
  unfold start, init.
  destruct (_expressApp st), (listen (if truthy port then port else defaultPort));
    reflexivity.
Qed.

End Listening.

(** X23. The Express application is built once. [init] on a server whose
    application exists does nothing; after any [start], whether it resolved,
    was rejected or is pending, the application exists, and a later [start]
    builds nothing. *)
Theorem init_builds_once
    (listen : JsValue → Listener.Listening) (defaultPort : JsValue)
    (st : Listener.State) (port port' : JsValue) :
  Listener.init (fst (Listener.init st)) = (fst (Listener.init st), [])
  ∧ Listener._expressApp (fst (fst (Listener.start listen defaultPort st port))) = true
  ∧ List.filter Listener.isBuildApp
      (snd (fst (Listener.start listen defaultPort
                   (fst (fst (Listener.start listen defaultPort st port))) port')))
    = []
  ∧ length
      (List.filter Listener.isBuildApp
         (snd (fst (Listener.start listen defaultPort Listener.created port))))
    = 1%nat.
Proof.
  destruct st as [[|] server];
    unfold Listener.start, Listener.init, Listener.created;
    cbn [Listener._expressApp Listener._server fst snd];
    destruct (listen (if truthy port then port else defaultPort));
    cbn [Listener._expressApp Listener._server fst snd];
    destruct (listen (if truthy port' then port' else defaultPort));
    repeat split.
Qed.

(** X24. A [start] that resolves has listened once, on the port it was given
    or, for a falsy port ([undefined], zero), on the default port, and keeps
    that server; [stop] then closes exactly that server and forgets it, and a
    second [stop] does nothing. *)
Theorem start_then_stop
    (listen : JsValue → Listener.Listening) (defaultPort : JsValue)
    (st st1 : Listener.State) (port : JsValue) (events : list Listener.NetEvent) :
  Listener.start listen defaultPort st port = (st1, events, Listener.Resolved) →
  List.filter Listener.isListen events
  = [Listener.Listen (if truthy port then port else defaultPort)]
  ∧ Listener._server st1 = Some (if truthy port then port else defaultPort)
  ∧ snd (Listener.stop st1)
    = [Listener.Close (if truthy port then port else defaultPort)]
  ∧ Listener._server (fst (Listener.stop st1)) = None
  ∧ Listener.stop (fst (Listener.stop st1)) = (fst (Listener.stop st1), []).
Proof.
  intros H.
  pose proof (start_listens_once listen defaultPort st port) as Hl.
  rewrite H in Hl. cbn [fst snd] in Hl.
  split; [exact Hl|].
  unfold Listener.start in H.
  destruct (Listener.init st) as [st0 built].
  destruct (listen (if truthy port then port else defaultPort)); try discriminate.
  injection H as <- _. repeat split.
Qed.

(** X24 on a first [start] without a port. *)
Lemma start_then_stop_witness :
  List.filter Listener.isListen
    [Listener.BuildApp; Listener.NetLog LLog "TSRPC inited succ";
     Listener.Listen (JNum 3000);
     Listener.NetLog LLog "Server started at 3000..."]
  = [Listener.Listen (if truthy JUndefined then JUndefined else JNum 3000)]
  ∧ Listener._server
      {| Listener._expressApp := true; Listener._server := Some (JNum 3000) |}
    = Some (if truthy JUndefined then JUndefined else JNum 3000)
  ∧ snd (Listener.stop
           {| Listener._expressApp := true; Listener._server := Some (JNum 3000) |})
    = [Listener.Close (if truthy JUndefined then JUndefined else JNum 3000)]
  ∧ Listener._server
      (fst (Listener.stop
              {| Listener._expressApp := true; Listener._server := Some (JNum 3000) |}))
    = None
  ∧ Listener.stop
      (fst (Listener.stop
              {| Listener._expressApp := true; Listener._server := Some (JNum 3000) |}))
    = (fst (Listener.stop
              {| Listener._expressApp := true; Listener._server := Some (JNum 3000) |}),
       []).
Proof.
  apply (start_then_stop Listener.listens (JNum 3000) Listener.created
           {| Listener._expressApp := true; Listener._server := Some (JNum 3000) |}
           JUndefined).
  reflexivity.
Defined.

(** X25. A [start] whose [listen] throws is rejected with what was thrown.
    Its last line on the console is [Port ... is already in use], whatever
    was thrown, and it never writes [Server started]. It leaves [_server] as
    it was: a [stop] that follows closes the server of an earlier [start], if
    there was one, and nothing else. *)
Theorem rejected_start_keeps_server
    (listen : JsValue → Listener.Listening) (defaultPort : JsValue)
    (st : Listener.State) (port : JsValue) (e : Thrown) :
  listen (if truthy port then port else defaultPort) = Listener.ListenThrows e →
  snd (Listener.start listen defaultPort st port) = Listener.Rejected e
  ∧ Listener._server (fst (fst (Listener.start listen defaultPort st port)))
    = Listener._server st
  ∧ snd (Listener.stop (fst (fst (Listener.start listen defaultPort st port))))
    = snd (Listener.stop st)
  ∧ last (snd (fst (Listener.start listen defaultPort st port)))
    = Some (Listener.NetLog LError
              ("Port " +:+ toStr (if truthy port then port else defaultPort)
               +:+ " is already in use."))
  ∧ ¬ In (Listener.NetLog LLog
            ("Server started at " +:+ toStr (if truthy port then port else defaultPort)
             +:+ "..."))
         (snd (fst (Listener.start listen defaultPort st port))).
Proof.
  intros Hl. unfold Listener.start, Listener.init. rewrite Hl.
  destruct (Listener._expressApp st) eqn:Happ;
    cbn [fst snd Listener._server Listener.stop app last];
    repeat split; try reflexivity;
    cbn [In]; intros H; repeat destruct H as [H|H]; try discriminate H; exact H.
Qed.

(** X26. Two [start]s that resolve listened twice and kept the second server
    only: the [stop]s that follow close one server, the second, and the first
    is never closed. *)
Theorem second_start_replaces_server
    (listen : JsValue → Listener.Listening) (defaultPort : JsValue)
    (st st1 st2 : Listener.State) (p1 p2 : JsValue)
    (ev1 ev2 : list Listener.NetEvent) :
  Listener.start listen defaultPort st p1 = (st1, ev1, Listener.Resolved) →
  Listener.start listen defaultPort st1 p2 = (st2, ev2, Listener.Resolved) →
  length (List.filter Listener.isListen (ev1 ++ ev2)) = 2%nat
  ∧ List.filter Listener.isClose
      (ev1 ++ ev2 ++ snd (Listener.stop st2)
       ++ snd (Listener.stop (fst (Listener.stop st2))))
    = [Listener.Close (if truthy p2 then p2 else defaultPort)].
Proof.
  intros H1 H2.
  pose proof (start_listens_once listen defaultPort st p1) as Hl1.
  pose proof (start_listens_once listen defaultPort st1 p2) as Hl2.
  pose proof (start_closes_nothing listen defaultPort st p1) as Hc1.
  pose proof (start_closes_nothing listen defaultPort st1 p2) as Hc2.
  rewrite H1 in Hl1, Hc1. rewrite H2 in Hl2, Hc2. cbn [fst snd] in *.
  assert (Hs : Listener._server st2 = Some (if truthy p2 then p2 else defaultPort)).
  { unfold Listener.start in H2. destruct (Listener.init st1) as [st0 built].
    destruct (listen (if truthy p2 then p2 else defaultPort)); try discriminate.
    now injection H2 as <- _. }
  unfold Listener.stop. rewrite Hs. cbn [fst snd Listener._server].
  rewrite !List.filter_app, Hl1, Hl2, Hc1, Hc2. split; reflexivity.
Qed.

(** X25 on a first [start] on the port 70000, which is no port: [listen]
    throws a [RangeError], and the line on the console is about a port in
    use all the same. *)
Lemma rejected_start_keeps_server_witness :
  snd (Listener.start Cases.listenInRange (JNum 3000) Listener.created (JNum 70000))
  = Listener.Rejected Cases.badPort
  ∧ Listener._server
      (fst (fst (Listener.start Cases.listenInRange (JNum 3000) Listener.created
                   (JNum 70000))))
    = None
  ∧ last (snd (fst (Listener.start Cases.listenInRange (JNum 3000) Listener.created
                      (JNum 70000))))
    = Some (Listener.NetLog LError "Port 70000 is already in use.").
Proof.
  pose proof (rejected_start_keeps_server Cases.listenInRange (JNum 3000)
                Listener.created (JNum 70000) Cases.badPort eq_refl)
    as (Hrej & Hserver & _ & Hlast & _).
  split; [exact Hrej|]. split; [exact Hserver | exact Hlast].
Defined.

(** X26 on a [start] on port 8080 followed by a [start] without a port. *)
Lemma second_start_replaces_server_witness :
  length
    (List.filter Listener.isListen
       ([Listener.BuildApp; Listener.NetLog LLog "TSRPC inited succ";
         Listener.Listen (JNum 8080);
         Listener.NetLog LLog "Server started at 8080..."]
        ++ [Listener.Listen (JNum 3000);
            Listener.NetLog LLog "Server started at 3000..."]))
  = 2%nat
  ∧ List.filter Listener.isClose
      ([Listener.BuildApp; Listener.NetLog LLog "TSRPC inited succ";
        Listener.Listen (JNum 8080);
        Listener.NetLog LLog "Server started at 8080..."]
       ++ [Listener.Listen (JNum 3000);
           Listener.NetLog LLog "Server started at 3000..."]
       ++ snd (Listener.stop
                 {| Listener._expressApp := true; Listener._server := Some (JNum 3000) |})
       ++ snd (Listener.stop
                 (fst (Listener.stop
                         {| Listener._expressApp := true;
                            Listener._server := Some (JNum 3000) |}))))
    = [Listener.Close (if truthy JUndefined then JUndefined else JNum 3000)].
Proof.
  apply (second_start_replaces_server Listener.listens (JNum 3000) Listener.created
           {| Listener._expressApp := true; Listener._server := Some (JNum 8080) |}
           {| Listener._expressApp := true; Listener._server := Some (JNum 3000) |}
           (JNum 8080) JUndefined);
    reflexivity.
Defined.

(** X28. A [start] whose [listen] returns a server and never calls back,
    as for a port that is taken, is neither resolved nor rejected. Its last
    event is the call of [listen]: it writes neither [Server started] nor
    [Port ... is already in use]. [_server] holds the server all the same,
    and a [stop] that follows closes it. *)
Theorem silent_listen_leaves_start_pending
    (listen : JsValue → Listener.Listening) (defaultPort : JsValue)
    (st : Listener.State) (port : JsValue) :
  listen (if truthy port then port else defaultPort) = Listener.ListenSilent →
  snd (Listener.start listen defaultPort st port) = Listener.Pending
  ∧ last (snd (fst (Listener.start listen defaultPort st port)))
    = Some (Listener.Listen (if truthy port then port else defaultPort))
  ∧ Listener._server (fst (fst (Listener.start listen defaultPort st port)))
    = Some (if truthy port then port else defaultPort)
  ∧ snd (Listener.stop (fst (fst (Listener.start listen defaultPort st port))))
    = [Listener.Close (if truthy port then port else defaultPort)].
Proof.
  intros Hl. unfold Listener.start, Listener.init. rewrite Hl.
  destruct (Listener._expressApp st); repeat split.
Qed.

(** X28 on a first [start] on the port 8080, taken. *)
Lemma silent_listen_leaves_start_pending_witness :
  snd (Listener.start Cases.listenTaken (JNum 3000) Listener.created (JNum 8080))
  = Listener.Pending
  ∧ snd (Listener.stop
           (fst (fst (Listener.start Cases.listenTaken (JNum 3000) Listener.created
                        (JNum 8080)))))
    = [Listener.Close (JNum 8080)].
Proof.
  pose proof (silent_listen_leaves_start_pending Cases.listenTaken (JNum 3000)
                Listener.created (JNum 8080) eq_refl)
    as (Hpending & _ & _ & Hstop).
  split; [exact Hpending | exact Hstop].
Defined.

(** ** From the reserved field to the handler *)

(** X27. Registration and field-addressed routing fit together. Once a
    protocol whose path is the non-empty [u] is registered on a server that
    hides the path, a request whose arguments hold [u] in the reserved field,
    and are accepted by the validator of the protocol once the field is
    removed, calls the handler registered with it, once, on the request
    without the field; the path need not start with a slash and the URL of the
    request is not read. *)
Theorem registered_protocol_is_served_hidden
    (srv srv' : TsrpcServer) (ptl : TsrpcPtl) (h : ApiHandler) (tr : list Event)
    (u : string) (req : ApiRequest) :
  implementPtl srv ptl h = (tr, Ok srv') →
  getPtlUrl srv ptl = ([], Ok u) →
  u ≠ EmptyString →
  hideApiPath (config srv) = true →
  _routerBeforeApiHandler srv = emptyRouter →
  getField (args req) "__tsrpc_url__" = JStr u →
  isError (getValidator srv ("Req" +:+ name ptl) (replaceJsExt (filename ptl))
             (deleteField (args req) "__tsrpc_url__"))
  = false →
  calls CHandler (fst (handleRequest srv' req)) = 1%nat
  ∧ ∃ post,
      fst (handleRequest srv' req)
      = requestLog srv'
          (setRpcPtl
             (setArgs (setRpcUrl req (JStr u)) (deleteField (args req) "__tsrpc_url__"))
             (Some ptl))
        :: Invoke CHandler
        :: map Eff
             (fst (h (setRpcPtl
                        (setArgs (setRpcUrl req (JStr u))
                           (deleteField (args req) "__tsrpc_url__"))
                        (Some ptl))))
        ++ post.
Proof.
  intros Hreg Hu Hne Hmode Hrouter Hfield Hvalid.
  rewrite (implementPtl_resolved srv ptl h _ Hu) in Hreg. injection Hreg as _ <-.
  set (entry := {| protocol := ptl; handler := h;
                   reqValidator := getValidator srv ("Req" +:+ name ptl)
                                     (replaceJsExt (filename ptl)) |}).
  set (srv' := set_implementedUrl srv (<[u := entry]> (_implementedUrl srv))).
  set (req' := setRpcPtl
                 (setArgs (setRpcUrl req (JStr u))
                    (deleteField (args req) "__tsrpc_url__"))
                 (Some ptl)).
  assert (Hobj : ∃ fields, args req = JObj fields).
  { destruct (args req); try discriminate Hfield. now eexists. }
  destruct Hobj as [fields Hobj].
  assert (Htruthy : truthy (JStr u) = true).
  { cbn. destruct (String.eqb_spec u EmptyString); [contradiction | reflexivity]. }
  assert (Hcheck : checkProtocolRegistered srv' req freshResponse = (req', freshResponse)).
  { unfold checkProtocolRegistered, resolveRpcPtl, registered.
    rewrite Hobj. cbn [truthy negb]. rewrite <- Hobj.
    change (hideApiPath (config srv')) with (hideApiPath (config srv)).
    rewrite Hmode, Hfield. cbn [isNullish rpcUrl setArgs setRpcUrl toStr].
    rewrite Htruthy. cbn [negb].
    subst srv'. cbn [_implementedUrl set_implementedUrl].
    now rewrite lookup_insert_eq. }
  assert (Hd : dispatchable srv' req' freshResponse entry).
  { unfold dispatchable. repeat split; try assumption; try discriminate.
    - subst req'. cbn [args setRpcPtl setArgs]. now rewrite Hobj.
    - unfold registered. subst srv'. cbn. apply lookup_insert_eq. }
  assert (Hno : checkProtocolRegistered_throws srv' req = false)
    by (apply no_throw_convertible; now rewrite Hfield).
  rewrite (handleRequest_emptyRouter srv' req Hrouter Hno), Hcheck. cbn [fst snd].
  split.
  - exact (apiHandler_calls_handler srv' req' freshResponse entry Hd).
  - exact (apiHandler_dispatch_trace srv' req' freshResponse entry Hd).
Qed.

(** X27 on [Hello] and the field-addressed request of the tests. *)
Lemma registered_protocol_is_served_hidden_witness :
  calls CHandler
    (fst (handleRequest (Scenario.server true) (Scenario.request Scenario.hiddenWorld)))
  = 1%nat
  ∧ ∃ post,
      fst (handleRequest (Scenario.server true) (Scenario.request Scenario.hiddenWorld))
      = requestLog (Scenario.server true)
          (setRpcPtl
             (setArgs (setRpcUrl (Scenario.request Scenario.hiddenWorld) (JStr "/Hello"))
                (deleteField (args (Scenario.request Scenario.hiddenWorld))
                   "__tsrpc_url__"))
             (Some Scenario.PtlHello))
        :: Invoke CHandler
        :: map Eff
             (fst (ApiHelloWorld
                     (setRpcPtl
                        (setArgs
                           (setRpcUrl (Scenario.request Scenario.hiddenWorld)
                              (JStr "/Hello"))
                           (deleteField (args (Scenario.request Scenario.hiddenWorld))
                              "__tsrpc_url__"))
                        (Some Scenario.PtlHello))))
        ++ post.
Proof.
  apply (registered_protocol_is_served_hidden
           (newTsrpcServer (Scenario.conf true) (fun _ _ => Scenario.acceptAll))
           (Scenario.server true) Scenario.PtlHello ApiHelloWorld
           [Eff (Console LLog [JStr "Protocol registered succ: "; JStr "/Hello";
                               JStr "/proto/PtlHello.ts"])]
           "/Hello" (Scenario.request Scenario.hiddenWorld));
    try reflexivity.
  discriminate.
Defined.
